(** * Bedrock quota dashboards: registry, estimator expressions and renderer

    A shallow embedding of the TypeScript sources

      - [lib/bedrock-registries/types.ts]   (endpoint kinds, quota codes, lookups)
      - [lib/bedrock-registries/us-west-2.ts], [us-east-1.ts] (the region tables)
      - [lib/bedrock-registries.ts]         (the choice of the active region)
      - [lib/cdk-quota-dashboards-stack.ts] (validation, fetcher inputs,
        metric-math expressions, dashboard layout)

    JavaScript objects used as dictionaries are [gmap]s, optional properties
    are [option]s, [console.*] output is an explicit log, and a [throw] is
    the [Throw] outcome of a [completion].  A member of the string union
    [EndpointType] is a constructor, which leaves the [default] branches of
    the two [switch] statements on it without a case.  A burndown rate is a
    JavaScript number; the model holds the non-negative integers among them,
    and gives the text of a number only where JavaScript prints it in full.

    What lies outside the repository is a parameter or is modelled from the
    specification: the constructs of aws-cdk-lib are a parameter of the
    stack constructor, and the read side of the metrics store (CloudWatch),
    which gives the series their values, follows the specification.

    The file first gives the definitions (the sources in their order, then
    the notions the statements need, then the examples), and then the
    properties. *)

From Stdlib Require Import ZArith List Ascii String Bool Lia.
From stdpp Require Import base decidable option list strings pretty gmap fin_maps.

Local Open Scope string_scope.
Local Open Scope list_scope.

(** ** Small JavaScript helpers *)

(** The empty string literal. *)
Definition str_empty : string := EmptyString.

(** The line feed written [\n] inside a template literal. *)
Definition nl : string := String (ascii_of_nat 10) EmptyString.

(** [Array.prototype.join]. *)
Fixpoint join (sep : string) (parts : list string) : string :=
  match parts with
  | [] => str_empty
  | [p] => p
  | p :: rest => p +:+ sep +:+ join sep rest
  end.

(** [String.prototype.startsWith]. *)
Definition startsWith (s p : string) : bool := String.prefix p s.

(** Truthiness of an optional string property: [undefined] and the empty
    string are falsy. *)
Definition truthy_str (o : option string) : bool :=
  match o with
  | None => false
  | Some EmptyString => false
  | Some _ => true
  end.

(** ** [types.ts]: the registry's types and helper functions *)

Inductive EndpointType : Type :=
  | regional_ep          (* 'regional' *)
  | cross_region_ep      (* 'cross-region' *)
  | global_cross_region_ep. (* 'global-cross-region' *)

Global Instance EndpointType_eq_dec : EqDecision EndpointType.
Proof. solve_decision. Defined.

(** The string literal behind each member of the union type. *)
Definition EndpointType_str (e : EndpointType) : string :=
  match e with
  | regional_ep => "regional"
  | cross_region_ep => "cross-region"
  | global_cross_region_ep => "global-cross-region"
  end.

Definition all_endpoint_types : list EndpointType :=
  [regional_ep; cross_region_ep; global_cross_region_ep].

Record QuotaCodes : Type := mkQuotaCodes {
  tokenQuotaCode : option string;
  requestQuotaCode : option string
}.

(** [ModelConfig<T>]: the base configuration together with the optional
    per-endpoint quota properties. *)
Record ModelConfig : Type := mkModelConfig {
  modelId : string;
  outputTokenBurndownRate : N;
  supportedEndpoints : list EndpointType;
  regional : option QuotaCodes;
  crossRegion : option QuotaCodes;
  globalCrossRegion : option QuotaCodes
}.

(** The mapped type [QuotaProperties<T>] only admits a quota property for an
    endpoint kind that occurs in [supportedEndpoints]. *)
Definition quotaPropertiesTyped (m : ModelConfig) : bool :=
  (bool_decide (regional m = None) || bool_decide (regional_ep ∈ supportedEndpoints m))
  && (bool_decide (crossRegion m = None) || bool_decide (cross_region_ep ∈ supportedEndpoints m))
  && (bool_decide (globalCrossRegion m = None)
      || bool_decide (global_cross_region_ep ∈ supportedEndpoints m)).

Definition validateQuotaCodes (quotaCodes : QuotaCodes) (modelId : string) : list string :=
  if negb (truthy_str (tokenQuotaCode quotaCodes)) && negb (truthy_str (requestQuotaCode quotaCodes))
  then ["Model " +:+ modelId +:+ ": No quota codes provided. Consider adding both tokenQuotaCode and requestQuotaCode for complete monitoring."]
  else if negb (truthy_str (tokenQuotaCode quotaCodes))
  then ["Model " +:+ modelId +:+ ": Missing tokenQuotaCode. Consider adding for complete token usage monitoring."]
  else if negb (truthy_str (requestQuotaCode quotaCodes))
  then ["Model " +:+ modelId +:+ ": Missing requestQuotaCode. Consider adding for complete request monitoring."]
  else [].

(** [(modelConfig as any).prop || null]: an object is always truthy, so the
    result is the property itself when it is defined and [null] otherwise. *)
Definition getQuotaCodes (modelConfig : ModelConfig) (endpointType : EndpointType)
  : option QuotaCodes :=
  match endpointType with
  | regional_ep => regional modelConfig
  | cross_region_ep => crossRegion modelConfig
  | global_cross_region_ep => globalCrossRegion modelConfig
  end.

(** [quotaCodes?.tokenQuotaCode || null]. *)
Definition getTokenQuotaCode (modelConfig : ModelConfig) (endpointType : EndpointType)
  : option string :=
  match getQuotaCodes modelConfig endpointType with
  | Some qc => if truthy_str (tokenQuotaCode qc) then tokenQuotaCode qc else None
  | None => None
  end.

Definition getRequestQuotaCode (modelConfig : ModelConfig) (endpointType : EndpointType)
  : option string :=
  match getQuotaCodes modelConfig endpointType with
  | Some qc => if truthy_str (requestQuotaCode qc) then requestQuotaCode qc else None
  | None => None
  end.

(** [modelConfig.supportedEndpoints.includes(endpointType)]. *)
Definition validateModelEndpointSupport (modelConfig : ModelConfig)
    (endpointType : EndpointType) : bool :=
  bool_decide (endpointType ∈ supportedEndpoints modelConfig).

Definition getSupportedEndpointTypes (modelConfig : ModelConfig) : list EndpointType :=
  supportedEndpoints modelConfig.

(** [createModelConfig] logs one warning per incomplete quota-code pair of a
    supported endpoint and returns its argument unchanged.  The result is
    the pair of the [console.warn] lines and the returned configuration. *)
Definition createModelConfig (config : ModelConfig) : list string * ModelConfig :=
  (flat_map
     (fun endpointType =>
        match getQuotaCodes config endpointType with
        | Some quotaCodes =>
            map (fun warning => "[Quota Config Warning] " +:+ warning)
                (validateQuotaCodes quotaCodes (modelId config))
        | None => []
        end)
     (supportedEndpoints config),
   config).

(** ** [us-west-2.ts]: the us-west-2 registry table *)

Module UsWest2.

Module AMAZON.

Definition NOVA_MICRO_V1 : ModelConfig :=
  (createModelConfig
     {| modelId := "amazon.nova-micro-v1:0";
        outputTokenBurndownRate := 1;
        supportedEndpoints := [cross_region_ep];
        regional := None;
        crossRegion := Some {| tokenQuotaCode := Some "L-DC7FF66C"; requestQuotaCode := Some "L-3F110E0F" |};
        globalCrossRegion := None |}).2.

Definition NOVA_LITE_V1 : ModelConfig :=
  (createModelConfig
     {| modelId := "amazon.nova-lite-v1:0";
        outputTokenBurndownRate := 1;
        supportedEndpoints := [cross_region_ep];
        regional := None;
        crossRegion := Some {| tokenQuotaCode := Some "L-7C42E72A"; requestQuotaCode := Some "L-89F8391A" |};
        globalCrossRegion := None |}).2.

Definition NOVA_PRO_V1 : ModelConfig :=
  (createModelConfig
     {| modelId := "amazon.nova-pro-v1:0";
        outputTokenBurndownRate := 1;
        supportedEndpoints := [cross_region_ep];
        regional := None;
        crossRegion := Some {| tokenQuotaCode := Some "L-C0326783"; requestQuotaCode := Some "L-ED46B8C5" |};
        globalCrossRegion := None |}).2.

Definition NOVA_PREMIER_V1 : ModelConfig :=
  (createModelConfig
     {| modelId := "amazon.nova-premier-v1:0";
        outputTokenBurndownRate := 1;
        supportedEndpoints := [cross_region_ep];
        regional := None;
        crossRegion := Some {| tokenQuotaCode := Some "L-AA7FE948"; requestQuotaCode := Some "L-9AD981E7" |};
        globalCrossRegion := None |}).2.

Definition NOVA_2_LITE_V1 : ModelConfig :=
  (createModelConfig
     {| modelId := "amazon.nova-2-lite-v1:0";
        outputTokenBurndownRate := 1;
        supportedEndpoints := [cross_region_ep; global_cross_region_ep];
        regional := None;
        crossRegion := Some {| tokenQuotaCode := Some "L-C6F5908D"; requestQuotaCode := Some "L-F06F1187" |};
        globalCrossRegion := Some {| tokenQuotaCode := Some "L-71C69B70"; requestQuotaCode := Some "L-D5F39C2F" |} |}).2.

End AMAZON.

Module ANTHROPIC.

Definition CLAUDE_3_HAIKU : ModelConfig :=
  (createModelConfig
     {| modelId := "anthropic.claude-3-haiku-20240307-v1:0";
        outputTokenBurndownRate := 1;
        supportedEndpoints := [regional_ep; cross_region_ep];
        regional := Some {| tokenQuotaCode := Some "L-8CE99163"; requestQuotaCode := Some "L-2DC80978" |};
        crossRegion := Some {| tokenQuotaCode := Some "L-DCADBC78"; requestQuotaCode := Some "L-616A3F5B" |};
        globalCrossRegion := None |}).2.

Definition CLAUDE_3_5_SONNET_20240620 : ModelConfig :=
  (createModelConfig
     {| modelId := "anthropic.claude-3-5-sonnet-20240620-v1:0";
        outputTokenBurndownRate := 1;
        supportedEndpoints := [regional_ep; cross_region_ep];
        regional := Some {| tokenQuotaCode := Some "L-A50569E5"; requestQuotaCode := Some "L-254CACF4" |};
        crossRegion := Some {| tokenQuotaCode := Some "L-479B647F"; requestQuotaCode := Some "L-F457545D" |};
        globalCrossRegion := None |}).2.

Definition CLAUDE_3_5_HAIKU : ModelConfig :=
  (createModelConfig
     {| modelId := "anthropic.claude-3-5-haiku-20241022-v1:0";
        outputTokenBurndownRate := 1;
        supportedEndpoints := [regional_ep; cross_region_ep];
        regional := Some {| tokenQuotaCode := Some "L-7AB4ABDD"; requestQuotaCode := Some "L-C7438F8F" |};
        crossRegion := Some {| tokenQuotaCode := Some "L-4BF37C17"; requestQuotaCode := Some "L-252DF594" |};
        globalCrossRegion := None |}).2.

Definition CLAUDE_3_7_SONNET : ModelConfig :=
  (createModelConfig
     {| modelId := "anthropic.claude-3-7-sonnet-20250219-v1:0";
        outputTokenBurndownRate := 5;
        supportedEndpoints := [cross_region_ep];
        regional := None;
        crossRegion := Some {| tokenQuotaCode := Some "L-6E888CC2"; requestQuotaCode := Some "L-3D8CC480" |};
        globalCrossRegion := None |}).2.

Definition CLAUDE_HAIKU_4_5 : ModelConfig :=
  (createModelConfig
     {| modelId := "anthropic.claude-haiku-4-5-20251001-v1:0";
        outputTokenBurndownRate := 5;
        supportedEndpoints := [cross_region_ep; global_cross_region_ep];
        regional := None;
        crossRegion := Some {| tokenQuotaCode := Some "L-58BE175A"; requestQuotaCode := Some "L-CCA5DF70" |};
        globalCrossRegion := Some {| tokenQuotaCode := Some "L-9A11C666"; requestQuotaCode := Some "L-E5084BBA" |} |}).2.

Definition CLAUDE_SONNET_4 : ModelConfig :=
  (createModelConfig
     {| modelId := "anthropic.claude-sonnet-4-20250514-v1:0";
        outputTokenBurndownRate := 5;
        supportedEndpoints := [cross_region_ep; global_cross_region_ep];
        regional := None;
        crossRegion := Some {| tokenQuotaCode := Some "L-59759B4A"; requestQuotaCode := Some "L-559DCC33" |};
        globalCrossRegion := Some {| tokenQuotaCode := Some "L-97E41E39"; requestQuotaCode := Some "L-C63AA5DA" |} |}).2.

Definition CLAUDE_SONNET_4_5 : ModelConfig :=
  (createModelConfig
     {| modelId := "anthropic.claude-sonnet-4-5-20250929-v1:0";
        outputTokenBurndownRate := 5;
        supportedEndpoints := [cross_region_ep; global_cross_region_ep];
        regional := None;
        crossRegion := Some {| tokenQuotaCode := Some "L-F4DDD3EB"; requestQuotaCode := Some "L-4A6BFAB1" |};
        globalCrossRegion := Some {| tokenQuotaCode := Some "L-27C57EE8"; requestQuotaCode := Some "L-DB84CE56" |} |}).2.

Definition CLAUDE_OPUS_4 : ModelConfig :=
  (createModelConfig
     {| modelId := "anthropic.claude-opus-4-20250514-v1:0";
        outputTokenBurndownRate := 5;
        supportedEndpoints := [cross_region_ep];
        regional := None;
        crossRegion := Some {| tokenQuotaCode := Some "L-29C2B0A3"; requestQuotaCode := Some "L-C99C7EF6" |};
        globalCrossRegion := None |}).2.

Definition CLAUDE_OPUS_4_1 : ModelConfig :=
  (createModelConfig
     {| modelId := "anthropic.claude-opus-4-1-20250805-v1:0";
        outputTokenBurndownRate := 5;
        supportedEndpoints := [cross_region_ep];
        regional := None;
        crossRegion := Some {| tokenQuotaCode := Some "L-BD85BFCD"; requestQuotaCode := Some "L-7EC72A47" |};
        globalCrossRegion := None |}).2.

Definition CLAUDE_OPUS_4_5 : ModelConfig :=
  (createModelConfig
     {| modelId := "anthropic.claude-opus-4-5-20251101-v1:0";
        outputTokenBurndownRate := 5;
        supportedEndpoints := [cross_region_ep; global_cross_region_ep];
        regional := None;
        crossRegion := Some {| tokenQuotaCode := Some "L-7007E9C9"; requestQuotaCode := Some "L-27989F42" |};
        globalCrossRegion := Some {| tokenQuotaCode := Some "L-3ABF6ACC"; requestQuotaCode := Some "L-58424D95" |} |}).2.

End ANTHROPIC.

(** Every model descriptor of the table, in declaration order. *)
Definition BEDROCK_MODELS : list ModelConfig :=
  [ AMAZON.NOVA_MICRO_V1;
    AMAZON.NOVA_LITE_V1;
    AMAZON.NOVA_PRO_V1;
    AMAZON.NOVA_PREMIER_V1;
    AMAZON.NOVA_2_LITE_V1;
    ANTHROPIC.CLAUDE_3_HAIKU;
    ANTHROPIC.CLAUDE_3_5_SONNET_20240620;
    ANTHROPIC.CLAUDE_3_5_HAIKU;
    ANTHROPIC.CLAUDE_3_7_SONNET;
    ANTHROPIC.CLAUDE_HAIKU_4_5;
    ANTHROPIC.CLAUDE_SONNET_4;
    ANTHROPIC.CLAUDE_SONNET_4_5;
    ANTHROPIC.CLAUDE_OPUS_4;
    ANTHROPIC.CLAUDE_OPUS_4_1;
    ANTHROPIC.CLAUDE_OPUS_4_5 ].

End UsWest2.

(** ** [us-east-1.ts]: the us-east-1 registry table *)

Module UsEast1.

Module AMAZON.

Definition NOVA_MICRO_V1 : ModelConfig :=
  (createModelConfig
     {| modelId := "amazon.nova-micro-v1:0";
        outputTokenBurndownRate := 1;
        supportedEndpoints := [regional_ep; cross_region_ep];
        regional := Some {| tokenQuotaCode := Some "L-CFA4FA0D"; requestQuotaCode := Some "L-E118F160" |};
        crossRegion := Some {| tokenQuotaCode := Some "L-DC7FF66C"; requestQuotaCode := Some "L-3F110E0F" |};
        globalCrossRegion := None |}).2.

Definition NOVA_LITE_V1 : ModelConfig :=
  (createModelConfig
     {| modelId := "amazon.nova-lite-v1:0";
        outputTokenBurndownRate := 1;
        supportedEndpoints := [regional_ep; cross_region_ep];
        regional := Some {| tokenQuotaCode := Some "L-70423BF8"; requestQuotaCode := Some "L-E386A278" |};
        crossRegion := Some {| tokenQuotaCode := Some "L-7C42E72A"; requestQuotaCode := Some "L-89F8391A" |};
        globalCrossRegion := None |}).2.

Definition NOVA_PRO_V1 : ModelConfig :=
  (createModelConfig
     {| modelId := "amazon.nova-pro-v1:0";
        outputTokenBurndownRate := 1;
        supportedEndpoints := [regional_ep; cross_region_ep];
        regional := Some {| tokenQuotaCode := Some "L-CE33604C"; requestQuotaCode := Some "L-F2717A44" |};
        crossRegion := Some {| tokenQuotaCode := Some "L-C0326783"; requestQuotaCode := Some "L-ED46B8C5" |};
        globalCrossRegion := None |}).2.

Definition NOVA_PREMIER_V1 : ModelConfig :=
  (createModelConfig
     {| modelId := "amazon.nova-premier-v1:0";
        outputTokenBurndownRate := 1;
        supportedEndpoints := [cross_region_ep];
        regional := None;
        crossRegion := Some {| tokenQuotaCode := Some "L-AA7FE948"; requestQuotaCode := Some "L-9AD981E7" |};
        globalCrossRegion := None |}).2.

Definition NOVA_2_LITE_V1 : ModelConfig :=
  (createModelConfig
     {| modelId := "amazon.nova-2-lite-v1:0";
        outputTokenBurndownRate := 1;
        supportedEndpoints := [cross_region_ep; global_cross_region_ep];
        regional := None;
        crossRegion := Some {| tokenQuotaCode := Some "L-C6F5908D"; requestQuotaCode := Some "L-F06F1187" |};
        globalCrossRegion := Some {| tokenQuotaCode := Some "L-71C69B70"; requestQuotaCode := Some "L-D5F39C2F" |} |}).2.

Definition NOVA_CANVAS_V1 : ModelConfig :=
  (createModelConfig
     {| modelId := "amazon.nova-canvas-v1:0";
        outputTokenBurndownRate := 1;
        supportedEndpoints := [regional_ep];
        regional := Some {| tokenQuotaCode := None; requestQuotaCode := Some "L-3F26CE29" |};
        crossRegion := None;
        globalCrossRegion := None |}).2.

End AMAZON.

Module ANTHROPIC.

Definition CLAUDE_3_HAIKU : ModelConfig :=
  (createModelConfig
     {| modelId := "anthropic.claude-3-haiku-20240307-v1:0";
        outputTokenBurndownRate := 1;
        supportedEndpoints := [regional_ep; cross_region_ep];
        regional := Some {| tokenQuotaCode := Some "L-8CE99163"; requestQuotaCode := Some "L-2DC80978" |};
        crossRegion := Some {| tokenQuotaCode := Some "L-DCADBC78"; requestQuotaCode := Some "L-616A3F5B" |};
        globalCrossRegion := None |}).2.

Definition CLAUDE_3_SONNET : ModelConfig :=
  (createModelConfig
     {| modelId := "anthropic.claude-3-sonnet-20240229-v1:0";
        outputTokenBurndownRate := 1;
        supportedEndpoints := [regional_ep; cross_region_ep];
        regional := Some {| tokenQuotaCode := Some "L-4C35BB2A"; requestQuotaCode := Some "L-F406804E" |};
        crossRegion := Some {| tokenQuotaCode := Some "L-5DF13F64"; requestQuotaCode := Some "L-46591118" |};
        globalCrossRegion := None |}).2.

Definition CLAUDE_3_OPUS : ModelConfig :=
  (createModelConfig
     {| modelId := "anthropic.claude-3-opus-20240229-v1:0";
        outputTokenBurndownRate := 1;
        supportedEndpoints := [regional_ep; cross_region_ep];
        regional := Some {| tokenQuotaCode := Some "L-27477D78"; requestQuotaCode := Some "L-8050DFC8" |};
        crossRegion := Some {| tokenQuotaCode := Some "L-6C86825E"; requestQuotaCode := Some "L-EB15245D" |};
        globalCrossRegion := None |}).2.

Definition CLAUDE_3_5_SONNET_20240620 : ModelConfig :=
  (createModelConfig
     {| modelId := "anthropic.claude-3-5-sonnet-20240620-v1:0";
        outputTokenBurndownRate := 1;
        supportedEndpoints := [regional_ep; cross_region_ep];
        regional := Some {| tokenQuotaCode := Some "L-A50569E5"; requestQuotaCode := Some "L-254CACF4" |};
        crossRegion := Some {| tokenQuotaCode := Some "L-479B647F"; requestQuotaCode := Some "L-F457545D" |};
        globalCrossRegion := None |}).2.

Definition CLAUDE_3_5_SONNET_20241022 : ModelConfig :=
  (createModelConfig
     {| modelId := "anthropic.claude-3-5-sonnet-20241022-v2:0";
        outputTokenBurndownRate := 1;
        supportedEndpoints := [regional_ep; cross_region_ep];
        regional := Some {| tokenQuotaCode := Some "L-AD41C330"; requestQuotaCode := Some "L-79E773B3" |};
        crossRegion := Some {| tokenQuotaCode := Some "L-FF8B4E28"; requestQuotaCode := Some "L-1D3E59A3" |};
        globalCrossRegion := None |}).2.

Definition CLAUDE_3_5_HAIKU : ModelConfig :=
  (createModelConfig
     {| modelId := "anthropic.claude-3-5-haiku-20241022-v1:0";
        outputTokenBurndownRate := 1;
        supportedEndpoints := [regional_ep; cross_region_ep];
        regional := Some {| tokenQuotaCode := Some "L-7AB4ABDD"; requestQuotaCode := Some "L-C7438F8F" |};
        crossRegion := Some {| tokenQuotaCode := Some "L-4BF37C17"; requestQuotaCode := Some "L-252DF594" |};
        globalCrossRegion := None |}).2.

Definition CLAUDE_3_7_SONNET : ModelConfig :=
  (createModelConfig
     {| modelId := "anthropic.claude-3-7-sonnet-20250219-v1:0";
        outputTokenBurndownRate := 5;
        supportedEndpoints := [cross_region_ep];
        regional := None;
        crossRegion := Some {| tokenQuotaCode := Some "L-6E888CC2"; requestQuotaCode := Some "L-3D8CC480" |};
        globalCrossRegion := None |}).2.

Definition CLAUDE_HAIKU_4_5 : ModelConfig :=
  (createModelConfig
     {| modelId := "anthropic.claude-haiku-4-5-20251001-v1:0";
        outputTokenBurndownRate := 5;
        supportedEndpoints := [cross_region_ep; global_cross_region_ep];
        regional := None;
        crossRegion := Some {| tokenQuotaCode := Some "L-58BE175A"; requestQuotaCode := Some "L-CCA5DF70" |};
        globalCrossRegion := Some {| tokenQuotaCode := Some "L-9A11C666"; requestQuotaCode := Some "L-E5084BBA" |} |}).2.

Definition CLAUDE_SONNET_4 : ModelConfig :=
  (createModelConfig
     {| modelId := "anthropic.claude-sonnet-4-20250514-v1:0";
        outputTokenBurndownRate := 5;
        supportedEndpoints := [cross_region_ep; global_cross_region_ep];
        regional := None;
        crossRegion := Some {| tokenQuotaCode := Some "L-59759B4A"; requestQuotaCode := Some "L-559DCC33" |};
        globalCrossRegion := Some {| tokenQuotaCode := Some "L-97E41E39"; requestQuotaCode := Some "L-C63AA5DA" |} |}).2.

Definition CLAUDE_SONNET_4_5 : ModelConfig :=
  (createModelConfig
     {| modelId := "anthropic.claude-sonnet-4-5-20250929-v1:0";
        outputTokenBurndownRate := 5;
        supportedEndpoints := [cross_region_ep; global_cross_region_ep];
        regional := None;
        crossRegion := Some {| tokenQuotaCode := Some "L-F4DDD3EB"; requestQuotaCode := Some "L-4A6BFAB1" |};
        globalCrossRegion := Some {| tokenQuotaCode := Some "L-27C57EE8"; requestQuotaCode := Some "L-DB84CE56" |} |}).2.

Definition CLAUDE_SONNET_4_6 : ModelConfig :=
  (createModelConfig
     {| modelId := "anthropic.claude-sonnet-4-6";
        outputTokenBurndownRate := 5;
        supportedEndpoints := [cross_region_ep; global_cross_region_ep];
        regional := None;
        crossRegion := Some {| tokenQuotaCode := Some "L-15B8E632"; requestQuotaCode := Some "L-00FF3314" |};
        globalCrossRegion := Some {| tokenQuotaCode := Some "L-7BEE40FB"; requestQuotaCode := Some "L-F6E116D7" |} |}).2.

Definition CLAUDE_SONNET_4_6_1M : ModelConfig :=
  (createModelConfig
     {| modelId := "anthropic.claude-sonnet-4-6";
        outputTokenBurndownRate := 5;
        supportedEndpoints := [cross_region_ep; global_cross_region_ep];
        regional := None;
        crossRegion := Some {| tokenQuotaCode := Some "L-CE512C9A"; requestQuotaCode := Some "L-47DE5258" |};
        globalCrossRegion := Some {| tokenQuotaCode := Some "L-6955C77B"; requestQuotaCode := Some "L-B117CDDA" |} |}).2.

Definition CLAUDE_OPUS_4 : ModelConfig :=
  (createModelConfig
     {| modelId := "anthropic.claude-opus-4-20250514-v1:0";
        outputTokenBurndownRate := 5;
        supportedEndpoints := [cross_region_ep];
        regional := None;
        crossRegion := Some {| tokenQuotaCode := Some "L-29C2B0A3"; requestQuotaCode := Some "L-C99C7EF6" |};
        globalCrossRegion := None |}).2.

Definition CLAUDE_OPUS_4_1 : ModelConfig :=
  (createModelConfig
     {| modelId := "anthropic.claude-opus-4-1-20250805-v1:0";
        outputTokenBurndownRate := 5;
        supportedEndpoints := [cross_region_ep];
        regional := None;
        crossRegion := Some {| tokenQuotaCode := Some "L-BD85BFCD"; requestQuotaCode := Some "L-7EC72A47" |};
        globalCrossRegion := None |}).2.

Definition CLAUDE_OPUS_4_5 : ModelConfig :=
  (createModelConfig
     {| modelId := "anthropic.claude-opus-4-5-20251101-v1:0";
        outputTokenBurndownRate := 5;
        supportedEndpoints := [cross_region_ep; global_cross_region_ep];
        regional := None;
        crossRegion := Some {| tokenQuotaCode := Some "L-7007E9C9"; requestQuotaCode := Some "L-27989F42" |};
        globalCrossRegion := Some {| tokenQuotaCode := Some "L-3ABF6ACC"; requestQuotaCode := Some "L-58424D95" |} |}).2.

Definition CLAUDE_OPUS_4_6 : ModelConfig :=
  (createModelConfig
     {| modelId := "anthropic.claude-opus-4-6-v1";
        outputTokenBurndownRate := 5;
        supportedEndpoints := [cross_region_ep; global_cross_region_ep];
        regional := None;
        crossRegion := Some {| tokenQuotaCode := Some "L-0AD9BBE8"; requestQuotaCode := Some "L-11DFF789" |};
        globalCrossRegion := Some {| tokenQuotaCode := Some "L-3DCCFAA4"; requestQuotaCode := Some "L-3DD46812" |} |}).2.

Definition CLAUDE_OPUS_4_6_1M : ModelConfig :=
  (createModelConfig
     {| modelId := "anthropic.claude-opus-4-6-v1";
        outputTokenBurndownRate := 5;
        supportedEndpoints := [cross_region_ep; global_cross_region_ep];
        regional := None;
        crossRegion := Some {| tokenQuotaCode := Some "L-7DBBE6A1"; requestQuotaCode := Some "L-410BCACA" |};
        globalCrossRegion := Some {| tokenQuotaCode := Some "L-4C59C1F4"; requestQuotaCode := Some "L-CDA5906C" |} |}).2.

End ANTHROPIC.

Module META.

Definition LLAMA3_8B_INSTRUCT : ModelConfig :=
  (createModelConfig
     {| modelId := "meta.llama3-8b-instruct-v1:0";
        outputTokenBurndownRate := 1;
        supportedEndpoints := [regional_ep];
        regional := Some {| tokenQuotaCode := Some "L-03A9B835"; requestQuotaCode := Some "L-320BEFEB" |};
        crossRegion := None;
        globalCrossRegion := None |}).2.

Definition LLAMA3_70B_INSTRUCT : ModelConfig :=
  (createModelConfig
     {| modelId := "meta.llama3-70b-instruct-v1:0";
        outputTokenBurndownRate := 1;
        supportedEndpoints := [regional_ep];
        regional := Some {| tokenQuotaCode := Some "L-609E24B0"; requestQuotaCode := Some "L-46D383AF" |};
        crossRegion := None;
        globalCrossRegion := None |}).2.

Definition LLAMA3_2_1B_INSTRUCT : ModelConfig :=
  (createModelConfig
     {| modelId := "meta.llama3-2-1b-instruct-v1:0";
        outputTokenBurndownRate := 1;
        supportedEndpoints := [regional_ep; cross_region_ep];
        regional := Some {| tokenQuotaCode := Some "L-6F14193C"; requestQuotaCode := Some "L-20CFCD61" |};
        crossRegion := Some {| tokenQuotaCode := Some "L-BD9FDA6F"; requestQuotaCode := Some "L-A31D2B40" |};
        globalCrossRegion := None |}).2.

Definition LLAMA3_2_3B_INSTRUCT : ModelConfig :=
  (createModelConfig
     {| modelId := "meta.llama3-2-3b-instruct-v1:0";
        outputTokenBurndownRate := 1;
        supportedEndpoints := [regional_ep; cross_region_ep];
        regional := Some {| tokenQuotaCode := Some "L-A7EDC29B"; requestQuotaCode := Some "L-2F9B4FC2" |};
        crossRegion := Some {| tokenQuotaCode := Some "L-0B2687F4"; requestQuotaCode := Some "L-6B0A9FAD" |};
        globalCrossRegion := None |}).2.

Definition LLAMA3_2_11B_INSTRUCT : ModelConfig :=
  (createModelConfig
     {| modelId := "meta.llama3-2-11b-instruct-v1:0";
        outputTokenBurndownRate := 1;
        supportedEndpoints := [regional_ep];
        regional := Some {| tokenQuotaCode := Some "L-E2D0B19E"; requestQuotaCode := Some "L-53CCF898" |};
        crossRegion := None;
        globalCrossRegion := None |}).2.

Definition LLAMA3_2_90B_INSTRUCT : ModelConfig :=
  (createModelConfig
     {| modelId := "meta.llama3-2-90b-instruct-v1:0";
        outputTokenBurndownRate := 1;
        supportedEndpoints := [regional_ep];
        regional := Some {| tokenQuotaCode := Some "L-41C63FF8"; requestQuotaCode := Some "L-EBDED838" |};
        crossRegion := None;
        globalCrossRegion := None |}).2.

Definition LLAMA3_1_8B_INSTRUCT : ModelConfig :=
  (createModelConfig
     {| modelId := "meta.llama3-1-8b-instruct-v1:0";
        outputTokenBurndownRate := 1;
        supportedEndpoints := [regional_ep; cross_region_ep];
        regional := Some {| tokenQuotaCode := Some "L-9E79C230"; requestQuotaCode := Some "L-19A2ED6C" |};
        crossRegion := Some {| tokenQuotaCode := Some "L-9782749C"; requestQuotaCode := Some "L-396C5302" |};
        globalCrossRegion := None |}).2.

Definition LLAMA3_1_70B_INSTRUCT : ModelConfig :=
  (createModelConfig
     {| modelId := "meta.llama3-1-70b-instruct-v1:0";
        outputTokenBurndownRate := 1;
        supportedEndpoints := [regional_ep; cross_region_ep];
        regional := Some {| tokenQuotaCode := Some "L-48E55E59"; requestQuotaCode := Some "L-ECA5B974" |};
        crossRegion := Some {| tokenQuotaCode := Some "L-92E68994"; requestQuotaCode := Some "L-29644EB3" |};
        globalCrossRegion := None |}).2.

Definition LLAMA3_3_70B_INSTRUCT : ModelConfig :=
  (createModelConfig
     {| modelId := "meta.llama3-3-70b-instruct-v1:0";
        outputTokenBurndownRate := 1;
        supportedEndpoints := [cross_region_ep];
        regional := None;
        crossRegion := Some {| tokenQuotaCode := Some "L-0E7AA8B7"; requestQuotaCode := Some "L-DEDE703C" |};
        globalCrossRegion := None |}).2.

Definition LLAMA4_SCOUT_17B_INSTRUCT : ModelConfig :=
  (createModelConfig
     {| modelId := "meta.llama4-scout-17b-instruct-v1:0";
        outputTokenBurndownRate := 1;
        supportedEndpoints := [cross_region_ep];
        regional := None;
        crossRegion := Some {| tokenQuotaCode := Some "L-532E6630"; requestQuotaCode := Some "L-751B753A" |};
        globalCrossRegion := None |}).2.

Definition LLAMA4_MAVERICK_17B_INSTRUCT : ModelConfig :=
  (createModelConfig
     {| modelId := "meta.llama4-maverick-17b-instruct-v1:0";
        outputTokenBurndownRate := 1;
        supportedEndpoints := [cross_region_ep];
        regional := None;
        crossRegion := Some {| tokenQuotaCode := Some "L-DE3FBBF4"; requestQuotaCode := Some "L-4F18EF2F" |};
        globalCrossRegion := None |}).2.

End META.

Module MISTRAL.

Definition MISTRAL_7B_INSTRUCT : ModelConfig :=
  (createModelConfig
     {| modelId := "mistral.mistral-7b-instruct-v0:2";
        outputTokenBurndownRate := 1;
        supportedEndpoints := [regional_ep];
        regional := Some {| tokenQuotaCode := Some "L-02D831F1"; requestQuotaCode := Some "L-D9A35062" |};
        crossRegion := None;
        globalCrossRegion := None |}).2.

Definition MISTRAL_SMALL_2402 : ModelConfig :=
  (createModelConfig
     {| modelId := "mistral.mistral-small-2402-v1:0";
        outputTokenBurndownRate := 1;
        supportedEndpoints := [regional_ep];
        regional := Some {| tokenQuotaCode := Some "L-82C15FA8"; requestQuotaCode := Some "L-1CBB0490" |};
        crossRegion := None;
        globalCrossRegion := None |}).2.

Definition MISTRAL_LARGE_2402 : ModelConfig :=
  (createModelConfig
     {| modelId := "mistral.mistral-large-2402-v1:0";
        outputTokenBurndownRate := 1;
        supportedEndpoints := [regional_ep];
        regional := Some {| tokenQuotaCode := Some "L-01447289"; requestQuotaCode := Some "L-3AF844DB" |};
        crossRegion := None;
        globalCrossRegion := None |}).2.

Definition MISTRAL_LARGE_2407 : ModelConfig :=
  (createModelConfig
     {| modelId := "mistral.mistral-large-2407-v1:0";
        outputTokenBurndownRate := 1;
        supportedEndpoints := [regional_ep];
        regional := Some {| tokenQuotaCode := Some "L-01447289"; requestQuotaCode := Some "L-3AF844DB" |};
        crossRegion := None;
        globalCrossRegion := None |}).2.

Definition MISTRAL_LARGE_3 : ModelConfig :=
  (createModelConfig
     {| modelId := "mistral.mistral-large-3-675b-instruct";
        outputTokenBurndownRate := 1;
        supportedEndpoints := [regional_ep];
        regional := Some {| tokenQuotaCode := Some "L-C709F563"; requestQuotaCode := Some "L-5B274E24" |};
        crossRegion := None;
        globalCrossRegion := None |}).2.

Definition MINISTRAL_3B : ModelConfig :=
  (createModelConfig
     {| modelId := "mistral.ministral-3-3b-instruct";
        outputTokenBurndownRate := 1;
        supportedEndpoints := [regional_ep];
        regional := Some {| tokenQuotaCode := Some "L-8A4BEE90"; requestQuotaCode := Some "L-DCA37E91" |};
        crossRegion := None;
        globalCrossRegion := None |}).2.

Definition MINISTRAL_8B : ModelConfig :=
  (createModelConfig
     {| modelId := "mistral.ministral-3-8b-instruct";
        outputTokenBurndownRate := 1;
        supportedEndpoints := [regional_ep];
        regional := Some {| tokenQuotaCode := Some "L-3B98F300"; requestQuotaCode := Some "L-2BDF9A55" |};
        crossRegion := None;
        globalCrossRegion := None |}).2.

Definition MINISTRAL_14B : ModelConfig :=
  (createModelConfig
     {| modelId := "mistral.ministral-3-14b-instruct";
        outputTokenBurndownRate := 1;
        supportedEndpoints := [regional_ep];
        regional := Some {| tokenQuotaCode := Some "L-334E5409"; requestQuotaCode := Some "L-99F7BDBC" |};
        crossRegion := None;
        globalCrossRegion := None |}).2.

Definition VOXTRAL_MINI : ModelConfig :=
  (createModelConfig
     {| modelId := "mistral.voxtral-mini-3b-2507";
        outputTokenBurndownRate := 1;
        supportedEndpoints := [regional_ep];
        regional := Some {| tokenQuotaCode := Some "L-0B767044"; requestQuotaCode := Some "L-17AE85BD" |};
        crossRegion := None;
        globalCrossRegion := None |}).2.

Definition VOXTRAL_SMALL : ModelConfig :=
  (createModelConfig
     {| modelId := "mistral.voxtral-small-24b-2507";
        outputTokenBurndownRate := 1;
        supportedEndpoints := [regional_ep];
        regional := Some {| tokenQuotaCode := Some "L-930E2896"; requestQuotaCode := Some "L-ACB2FB6A" |};
        crossRegion := None;
        globalCrossRegion := None |}).2.

End MISTRAL.

Module COHERE.

Definition COMMAND_R : ModelConfig :=
  (createModelConfig
     {| modelId := "cohere.command-r-v1:0";
        outputTokenBurndownRate := 1;
        supportedEndpoints := [regional_ep];
        regional := Some {| tokenQuotaCode := Some "L-17F95AA4"; requestQuotaCode := Some "L-A49CA90F" |};
        crossRegion := None;
        globalCrossRegion := None |}).2.

Definition COMMAND_R_PLUS : ModelConfig :=
  (createModelConfig
     {| modelId := "cohere.command-r-plus-v1:0";
        outputTokenBurndownRate := 1;
        supportedEndpoints := [regional_ep];
        regional := Some {| tokenQuotaCode := Some "L-FEE1DCB6"; requestQuotaCode := Some "L-ADB4B3D7" |};
        crossRegion := None;
        globalCrossRegion := None |}).2.

Definition EMBED_ENGLISH_V3 : ModelConfig :=
  (createModelConfig
     {| modelId := "cohere.embed-english-v3";
        outputTokenBurndownRate := 1;
        supportedEndpoints := [regional_ep];
        regional := Some {| tokenQuotaCode := Some "L-A2BE277A"; requestQuotaCode := Some "L-FF8E7864" |};
        crossRegion := None;
        globalCrossRegion := None |}).2.

Definition EMBED_MULTILINGUAL_V3 : ModelConfig :=
  (createModelConfig
     {| modelId := "cohere.embed-multilingual-v3";
        outputTokenBurndownRate := 1;
        supportedEndpoints := [regional_ep];
        regional := Some {| tokenQuotaCode := Some "L-C2F86908"; requestQuotaCode := Some "L-9E5BD0C6" |};
        crossRegion := None;
        globalCrossRegion := None |}).2.

Definition EMBED_V4 : ModelConfig :=
  (createModelConfig
     {| modelId := "cohere.embed-v4:0";
        outputTokenBurndownRate := 1;
        supportedEndpoints := [regional_ep; cross_region_ep; global_cross_region_ep];
        regional := Some {| tokenQuotaCode := Some "L-C47B85D5"; requestQuotaCode := Some "L-BE5FD99B" |};
        crossRegion := Some {| tokenQuotaCode := Some "L-4C3F0FE6"; requestQuotaCode := Some "L-EB8C1F30" |};
        globalCrossRegion := Some {| tokenQuotaCode := Some "L-02DFBB76"; requestQuotaCode := Some "L-7089DC7D" |} |}).2.

End COHERE.

Module AI21.

Definition JAMBA_1_5_LARGE : ModelConfig :=
  (createModelConfig
     {| modelId := "ai21.jamba-1-5-large-v1:0";
        outputTokenBurndownRate := 1;
        supportedEndpoints := [regional_ep];
        regional := Some {| tokenQuotaCode := Some "L-CFAB19FF"; requestQuotaCode := Some "L-F4CAA0FD" |};
        crossRegion := None;
        globalCrossRegion := None |}).2.

Definition JAMBA_1_5_MINI : ModelConfig :=
  (createModelConfig
     {| modelId := "ai21.jamba-1-5-mini-v1:0";
        outputTokenBurndownRate := 1;
        supportedEndpoints := [regional_ep];
        regional := Some {| tokenQuotaCode := Some "L-5A778346"; requestQuotaCode := Some "L-0449ADC5" |};
        crossRegion := None;
        globalCrossRegion := None |}).2.

End AI21.

Module DEEPSEEK.

Definition DEEPSEEK_R1 : ModelConfig :=
  (createModelConfig
     {| modelId := "deepseek.r1-v1:0";
        outputTokenBurndownRate := 1;
        supportedEndpoints := [cross_region_ep];
        regional := None;
        crossRegion := Some {| tokenQuotaCode := Some "L-06B03968"; requestQuotaCode := Some "L-F52323AB" |};
        globalCrossRegion := None |}).2.

End DEEPSEEK.

Module QWEN.

Definition QWEN3_NEXT_80B : ModelConfig :=
  (createModelConfig
     {| modelId := "qwen.qwen3-next-80b-a3b";
        outputTokenBurndownRate := 1;
        supportedEndpoints := [regional_ep];
        regional := Some {| tokenQuotaCode := Some "L-37AB702E"; requestQuotaCode := Some "L-07B3CEEA" |};
        crossRegion := None;
        globalCrossRegion := None |}).2.

Definition QWEN3_32B : ModelConfig :=
  (createModelConfig
     {| modelId := "qwen.qwen3-32b-v1:0";
        outputTokenBurndownRate := 1;
        supportedEndpoints := [regional_ep];
        regional := Some {| tokenQuotaCode := Some "L-B7C52139"; requestQuotaCode := Some "L-E880C759" |};
        crossRegion := None;
        globalCrossRegion := None |}).2.

Definition QWEN3_CODER_30B : ModelConfig :=
  (createModelConfig
     {| modelId := "qwen.qwen3-coder-480b-a35b-v1:0";
        outputTokenBurndownRate := 1;
        supportedEndpoints := [regional_ep];
        regional := Some {| tokenQuotaCode := Some "L-92F81E14"; requestQuotaCode := Some "L-66EE6E0B" |};
        crossRegion := None;
        globalCrossRegion := None |}).2.

Definition QWEN3_VL_235B : ModelConfig :=
  (createModelConfig
     {| modelId := "qwen.qwen3-235b-a22b-2507-v1:0";
        outputTokenBurndownRate := 1;
        supportedEndpoints := [regional_ep];
        regional := Some {| tokenQuotaCode := Some "L-46063925"; requestQuotaCode := Some "L-11B56FB0" |};
        crossRegion := None;
        globalCrossRegion := None |}).2.

End QWEN.

Module GOOGLE.

Definition GEMMA_3_4B : ModelConfig :=
  (createModelConfig
     {| modelId := "google.gemma-3-4b-it";
        outputTokenBurndownRate := 1;
        supportedEndpoints := [regional_ep];
        regional := Some {| tokenQuotaCode := Some "L-73FB8466"; requestQuotaCode := Some "L-3056DF33" |};
        crossRegion := None;
        globalCrossRegion := None |}).2.

Definition GEMMA_3_12B : ModelConfig :=
  (createModelConfig
     {| modelId := "google.gemma-3-12b-it";
        outputTokenBurndownRate := 1;
        supportedEndpoints := [regional_ep];
        regional := Some {| tokenQuotaCode := Some "L-3FD4A73E"; requestQuotaCode := Some "L-999037CA" |};
        crossRegion := None;
        globalCrossRegion := None |}).2.

Definition GEMMA_3_27B : ModelConfig :=
  (createModelConfig
     {| modelId := "google.gemma-3-27b-it";
        outputTokenBurndownRate := 1;
        supportedEndpoints := [regional_ep];
        regional := Some {| tokenQuotaCode := Some "L-F8729E94"; requestQuotaCode := Some "L-5D46C7AF" |};
        crossRegion := None;
        globalCrossRegion := None |}).2.

End GOOGLE.

Module NVIDIA.

Definition NEMOTRON_NANO_2 : ModelConfig :=
  (createModelConfig
     {| modelId := "nvidia.nemotron-nano-9b-v2";
        outputTokenBurndownRate := 1;
        supportedEndpoints := [regional_ep];
        regional := Some {| tokenQuotaCode := Some "L-33D3627D"; requestQuotaCode := Some "L-AC7B3FB9" |};
        crossRegion := None;
        globalCrossRegion := None |}).2.

Definition NEMOTRON_NANO_2_VL : ModelConfig :=
  (createModelConfig
     {| modelId := "nvidia.nemotron-nano-12b-v2";
        outputTokenBurndownRate := 1;
        supportedEndpoints := [regional_ep];
        regional := Some {| tokenQuotaCode := Some "L-A05A5476"; requestQuotaCode := Some "L-30B384EA" |};
        crossRegion := None;
        globalCrossRegion := None |}).2.

End NVIDIA.

Module OPENAI.

Definition GPT_OSS_20B : ModelConfig :=
  (createModelConfig
     {| modelId := "openai.gpt-oss-20b-1:0";
        outputTokenBurndownRate := 1;
        supportedEndpoints := [regional_ep];
        regional := Some {| tokenQuotaCode := Some "L-036E14D8"; requestQuotaCode := Some "L-AF7F0545" |};
        crossRegion := None;
        globalCrossRegion := None |}).2.

Definition GPT_OSS_120B : ModelConfig :=
  (createModelConfig
     {| modelId := "openai.gpt-oss-120b-1:0";
        outputTokenBurndownRate := 1;
        supportedEndpoints := [regional_ep];
        regional := Some {| tokenQuotaCode := Some "L-9DC5F595"; requestQuotaCode := Some "L-25B50707" |};
        crossRegion := None;
        globalCrossRegion := None |}).2.

Definition GPT_OSS_SAFEGUARD_20B : ModelConfig :=
  (createModelConfig
     {| modelId := "openai.gpt-oss-safeguard-20b";
        outputTokenBurndownRate := 1;
        supportedEndpoints := [regional_ep];
        regional := Some {| tokenQuotaCode := Some "L-5D8F2F54"; requestQuotaCode := Some "L-65833D55" |};
        crossRegion := None;
        globalCrossRegion := None |}).2.

Definition GPT_OSS_SAFEGUARD_120B : ModelConfig :=
  (createModelConfig
     {| modelId := "openai.gpt-oss-safeguard-120b";
        outputTokenBurndownRate := 1;
        supportedEndpoints := [regional_ep];
        regional := Some {| tokenQuotaCode := Some "L-594C7AC9"; requestQuotaCode := Some "L-C4E013EF" |};
        crossRegion := None;
        globalCrossRegion := None |}).2.

End OPENAI.

Module KIMI.

Definition K2_THINKING : ModelConfig :=
  (createModelConfig
     {| modelId := "moonshot.kimi-k2-thinking";
        outputTokenBurndownRate := 1;
        supportedEndpoints := [regional_ep];
        regional := Some {| tokenQuotaCode := Some "L-03579AC2"; requestQuotaCode := Some "L-02572418" |};
        crossRegion := None;
        globalCrossRegion := None |}).2.

End KIMI.

Module MINIMAX.

Definition M2 : ModelConfig :=
  (createModelConfig
     {| modelId := "minimax.minimax-m2";
        outputTokenBurndownRate := 1;
        supportedEndpoints := [regional_ep];
        regional := Some {| tokenQuotaCode := Some "L-A81B7C40"; requestQuotaCode := Some "L-828C986E" |};
        crossRegion := None;
        globalCrossRegion := None |}).2.

End MINIMAX.

(** Every model descriptor of the table, in declaration order. *)
Definition BEDROCK_MODELS : list ModelConfig :=
  [ AMAZON.NOVA_MICRO_V1;
    AMAZON.NOVA_LITE_V1;
    AMAZON.NOVA_PRO_V1;
    AMAZON.NOVA_PREMIER_V1;
    AMAZON.NOVA_2_LITE_V1;
    AMAZON.NOVA_CANVAS_V1;
    ANTHROPIC.CLAUDE_3_HAIKU;
    ANTHROPIC.CLAUDE_3_SONNET;
    ANTHROPIC.CLAUDE_3_OPUS;
    ANTHROPIC.CLAUDE_3_5_SONNET_20240620;
    ANTHROPIC.CLAUDE_3_5_SONNET_20241022;
    ANTHROPIC.CLAUDE_3_5_HAIKU;
    ANTHROPIC.CLAUDE_3_7_SONNET;
    ANTHROPIC.CLAUDE_HAIKU_4_5;
    ANTHROPIC.CLAUDE_SONNET_4;
    ANTHROPIC.CLAUDE_SONNET_4_5;
    ANTHROPIC.CLAUDE_SONNET_4_6;
    ANTHROPIC.CLAUDE_SONNET_4_6_1M;
    ANTHROPIC.CLAUDE_OPUS_4;
    ANTHROPIC.CLAUDE_OPUS_4_1;
    ANTHROPIC.CLAUDE_OPUS_4_5;
    ANTHROPIC.CLAUDE_OPUS_4_6;
    ANTHROPIC.CLAUDE_OPUS_4_6_1M;
    META.LLAMA3_8B_INSTRUCT;
    META.LLAMA3_70B_INSTRUCT;
    META.LLAMA3_2_1B_INSTRUCT;
    META.LLAMA3_2_3B_INSTRUCT;
    META.LLAMA3_2_11B_INSTRUCT;
    META.LLAMA3_2_90B_INSTRUCT;
    META.LLAMA3_1_8B_INSTRUCT;
    META.LLAMA3_1_70B_INSTRUCT;
    META.LLAMA3_3_70B_INSTRUCT;
    META.LLAMA4_SCOUT_17B_INSTRUCT;
    META.LLAMA4_MAVERICK_17B_INSTRUCT;
    MISTRAL.MISTRAL_7B_INSTRUCT;
    MISTRAL.MISTRAL_SMALL_2402;
    MISTRAL.MISTRAL_LARGE_2402;
    MISTRAL.MISTRAL_LARGE_2407;
    MISTRAL.MISTRAL_LARGE_3;
    MISTRAL.MINISTRAL_3B;
    MISTRAL.MINISTRAL_8B;
    MISTRAL.MINISTRAL_14B;
    MISTRAL.VOXTRAL_MINI;
    MISTRAL.VOXTRAL_SMALL;
    COHERE.COMMAND_R;
    COHERE.COMMAND_R_PLUS;
    COHERE.EMBED_ENGLISH_V3;
    COHERE.EMBED_MULTILINGUAL_V3;
    COHERE.EMBED_V4;
    AI21.JAMBA_1_5_LARGE;
    AI21.JAMBA_1_5_MINI;
    DEEPSEEK.DEEPSEEK_R1;
    QWEN.QWEN3_NEXT_80B;
    QWEN.QWEN3_32B;
    QWEN.QWEN3_CODER_30B;
    QWEN.QWEN3_VL_235B;
    GOOGLE.GEMMA_3_4B;
    GOOGLE.GEMMA_3_12B;
    GOOGLE.GEMMA_3_27B;
    NVIDIA.NEMOTRON_NANO_2;
    NVIDIA.NEMOTRON_NANO_2_VL;
    OPENAI.GPT_OSS_20B;
    OPENAI.GPT_OSS_120B;
    OPENAI.GPT_OSS_SAFEGUARD_20B;
    OPENAI.GPT_OSS_SAFEGUARD_120B;
    KIMI.K2_THINKING;
    MINIMAX.M2 ].

End UsEast1.

(** [lib/bedrock-registries.ts] re-exports the table of the active region:
    [export * from './bedrock-registries/us-east-1']. *)
Definition BEDROCK_MODELS : list ModelConfig := UsEast1.BEDROCK_MODELS.

(** ** [cdk-quota-dashboards-stack.ts]: configuration and validation *)

Record DashboardConfig : Type := mkDashboardConfig {
  modelConfig : ModelConfig;
  endpointType : EndpointType;
  applicationProfileIds : option (list string)
}.

(** A statement either completes normally or throws an [Error] carrying a
    message. *)
Inductive completion (A : Type) : Type :=
  | Normal (a : A)
  | Throw (message : string).
Arguments Normal {A} a.
Arguments Throw {A} message.

Inductive ConsoleLevel : Type := console_log | console_warn | console_error.
Definition LogEntry : Type := ConsoleLevel * string.

(** The body of the [forEach] callback of [validateAllDashboardConfigs]:
    the line pushed onto [errors] for one configuration, if any. *)
Definition configError (index : nat) (config : DashboardConfig) : option string :=
  if negb (validateModelEndpointSupport (modelConfig config) (endpointType config)) then
    let supported := getSupportedEndpointTypes (modelConfig config) in
    if Nat.eqb (length supported) 0 then
      Some ("Config " +:+ pretty index +:+ ": Model '" +:+ modelId (modelConfig config)
            +:+ "' not found in quota registry")
    else
      Some ("Config " +:+ pretty index +:+ ": Model '" +:+ modelId (modelConfig config)
            +:+ "' does not support endpoint type '" +:+ EndpointType_str (endpointType config)
            +:+ "'. Supported types: " +:+ join ", " (map EndpointType_str supported))
  else None.

(** The array [errors] once the [forEach] has run. *)
Definition validationErrors (configs : list DashboardConfig) : list string :=
  omap id (imap configError configs).

Definition invalidConfigurationsMessage (errors : list string) : string :=
  "Invalid dashboard configurations found:" +:+ nl +:+ join nl errors +:+ nl +:+ nl
  +:+ "Please check the quota mappings in the region-specific registry file for valid model/endpoint combinations.".

Definition validateAllDashboardConfigs (configs : list DashboardConfig) : completion unit :=
  let errors := validationErrors configs in
  if Nat.ltb 0 (length errors) then Throw (invalidConfigurationsMessage errors)
  else Normal tt.

Definition getFullModelId (modelConfig : ModelConfig) (endpointType : EndpointType) : string :=
  let modelId := modelId modelConfig in
  match endpointType with
  | regional_ep => modelId
  | cross_region_ep => "us." +:+ modelId
  | global_cross_region_ep => "global." +:+ modelId
  end.

(** ** The model lists handed to the quota fetcher *)

Module FetcherModel.
Record t : Type := mk {
  modelId : string;
  tokenQuotaCode : option string;
  requestQuotaCode : option string
}.
End FetcherModel.

(** The callback of [dashboardConfigs.map] that prepares the EventBridge
    payload: the mapped value ([None] for [null]) and what it logs. *)
Definition eventBridgeModel (config : DashboardConfig)
  : option FetcherModel.t * list LogEntry :=
  let quotaCodes := getQuotaCodes (modelConfig config) (endpointType config) in
  let fullModelId := getFullModelId (modelConfig config) (endpointType config) in
  match quotaCodes with
  | None =>
      (None,
       [(console_warn,
         "[EVENTBRIDGE_WARNING] Excluding model '" +:+ modelId (modelConfig config) +:+ "' ("
         +:+ EndpointType_str (endpointType config)
         +:+ ") from scheduled quota refresh - missing quota codes")])
  | Some quotaCodes =>
      (Some {| FetcherModel.modelId := fullModelId;
               FetcherModel.tokenQuotaCode := tokenQuotaCode quotaCodes;
               FetcherModel.requestQuotaCode := requestQuotaCode quotaCodes |},
       [])
  end.

(** [dashboardConfigs.map(...).filter(Boolean)] followed by the summary
    line; the result is the list and the console output. *)
Definition eventBridgeModels (dashboardConfigs : list DashboardConfig)
  : list FetcherModel.t * list LogEntry :=
  let mapped := map eventBridgeModel dashboardConfigs in
  let models := omap fst mapped in
  (models,
   concat (map snd mapped)
   ++ [if Nat.eqb (length models) 0
       then (console_error,
             "[EVENTBRIDGE_ERROR] No models available for scheduled quota refresh due to missing quota codes")
       else (console_log,
             "[EVENTBRIDGE_SUCCESS] Configured scheduled quota refresh for "
             +:+ pretty (length models) +:+ " models")]).

Definition customResourceModel (config : DashboardConfig)
  : option FetcherModel.t * list LogEntry :=
  let quotaCodes := getQuotaCodes (modelConfig config) (endpointType config) in
  let fullModelId := getFullModelId (modelConfig config) (endpointType config) in
  match quotaCodes with
  | None =>
      (None,
       [(console_warn,
         "[CUSTOM_RESOURCE_WARNING] Excluding model '" +:+ modelId (modelConfig config) +:+ "' ("
         +:+ EndpointType_str (endpointType config)
         +:+ ") from initial quota fetch - missing quota codes")])
  | Some quotaCodes =>
      (Some {| FetcherModel.modelId := fullModelId;
               FetcherModel.tokenQuotaCode := tokenQuotaCode quotaCodes;
               FetcherModel.requestQuotaCode := requestQuotaCode quotaCodes |},
       [])
  end.

Definition customResourceModels (dashboardConfigs : list DashboardConfig)
  : list FetcherModel.t * list LogEntry :=
  let mapped := map customResourceModel dashboardConfigs in
  let models := omap fst mapped in
  (models,
   concat (map snd mapped)
   ++ [if Nat.eqb (length models) 0
       then (console_error,
             "[CUSTOM_RESOURCE_ERROR] No models available for initial quota fetch due to missing quota codes")
       else (console_log,
             "[CUSTOM_RESOURCE_SUCCESS] Configured initial quota fetch for "
             +:+ pretty (length models) +:+ " models")]).

(** The event handed to the fetcher by the schedule,
    [{ source: 'aws.events', models: eventBridgeModels }], and the
    properties of the [InitialQuotaFetch] custom resource,
    [{ models: customResourceModels }]. *)
Record RuleTargetInput : Type := mkRuleTargetInput {
  event_source : string;
  event_models : list FetcherModel.t
}.

Record CustomResourceProperties : Type := mkCustomResourceProperties {
  properties_models : list FetcherModel.t
}.

(** ** CloudWatch metrics and metric-math expressions *)

Inductive Statistic : Type := Sum | Maximum.

Inductive Color : Type := RED.

(** [new cloudwatch.Metric({...})].  Every metric of the stack has the
    period [cdk.Duration.minutes(1)], recorded in minutes. *)
Record Metric : Type := mkMetric {
  namespace : string;
  metricName : string;
  dimensionsMap : list (string * string);
  statistic : Statistic;
  period : nat;
  metric_label : option string;
  metric_color : option Color
}.

(** The metric-math expressions the stack writes.  [render] gives the text
    of the [expression] property; [EParen] keeps the parentheses the
    template literals write. *)

Definition MAX_SAFE_INTEGER : N := 9007199254740991.

(** The text a template literal gives a number.  JavaScript prints an
    integer up to [Number.MAX_SAFE_INTEGER] in full, in decimal; the text of
    a larger number depends on its floating-point neighbours and is not
    given here. *)
Definition numberToString (n : N) : option string :=
  if (n <=? MAX_SAFE_INTEGER)%N then Some (pretty n) else None.

Inductive mexpr : Type :=
  | EVar (id : string)
  | ENum (n : N)
  | EAdd (a b : mexpr)
  | EMul (a b : mexpr)
  | EParen (a : mexpr)
  | EFillRepeat (a : mexpr).

Fixpoint render (e : mexpr) : option string :=
  match e with
  | EVar id => Some id
  | ENum n => numberToString n
  | EAdd a b =>
      match render a, render b with
      | Some a', Some b' => Some (a' +:+ " + " +:+ b')
      | _, _ => None
      end
  | EMul a b =>
      match render a, render b with
      | Some a', Some b' => Some (a' +:+ " * " +:+ b')
      | _, _ => None
      end
  | EParen a => (fun a' => "(" +:+ a' +:+ ")") <$> render a
  | EFillRepeat a => (fun a' => "FILL(" +:+ a' +:+ ", REPEAT)") <$> render a
  end.

(** [new cloudwatch.MathExpression({...})]. *)
Record MathExpression : Type := mkMathExpression {
  expression : mexpr;
  usingMetrics : gmap string Metric;
  label : string;
  color : option Color;
  math_period : nat
}.

Inductive IMetric : Type :=
  | IMetric_Metric (m : Metric)
  | IMetric_Math (m : MathExpression).

(** *** What the metrics store returns for them

    The expressions are evaluated by the metrics store (CloudWatch), which
    is not part of the repository.  Its read side is modelled from the
    specification (sections 3, 4.3, 4.4, 6 and 8): a series is read per time
    bucket under a statistic; the usage counters are read under [Sum], the
    sum of the points published in the bucket, so a counter without points
    in a bucket adds nothing to a formula; a limit is read under [Maximum],
    its readings are sparse, and it is drawn by forward-filling the last
    known reading.  Token and request counts are integers. *)

(** Modelled from the spec: the time buckets of the metrics store. *)
Definition TimeBucket : Type := nat.

(** Modelled from the spec: the metrics store, which holds for a series
    name (namespace and metric name), a set of dimensions and a time bucket
    the points published in that bucket. *)
Definition MetricStore : Type :=
  string -> string -> list (string * string) -> TimeBucket -> list Z.

(** Modelled from the spec: the read of the metrics store under a
    statistic.  [Sum] is the sum of the bucket's points, zero when there are
    none (a formula over counters then "degrades silently" to its other
    terms); [Maximum] is the largest point and is absent in a bucket without
    a reading. *)
Definition applyStatistic (s : Statistic) (points : list Z) : option Z :=
  match s with
  | Sum => Some (foldr Z.add 0%Z points)
  | Maximum =>
      match points with
      | [] => None
      | p :: ps => Some (foldl Z.max p ps)
      end
  end.

(** Modelled from the spec: the value of a metric in a bucket of the
    metrics store. *)
Definition metricValue (store : MetricStore) (m : Metric) (t : TimeBucket) : option Z :=
  applyStatistic (statistic m) (store (namespace m) (metricName m) (dimensionsMap m) t).

(** Modelled from the spec: the forward fill of the metrics store, which
    carries the last known reading over the buckets without one. *)
Fixpoint fillRepeat (series : TimeBucket -> option Z) (t : TimeBucket) : option Z :=
  match series t with
  | Some v => Some v
  | None =>
      match t with
      | O => None
      | S t' => fillRepeat series t'
      end
  end.

(** Modelled from the spec: an operator of a formula of the metrics store,
    applied to the values of its operands in one bucket. *)
Definition lift2 (op : Z -> Z -> Z) (x y : option Z) : option Z :=
  match x, y with
  | Some a, Some b => Some (op a b)
  | _, _ => None
  end.

(** Modelled from the spec: the value the metrics store gives a formula in
    a bucket, composed from the values of its metrics at read time. *)
Fixpoint evalExpr (store : MetricStore) (usingMetrics : gmap string Metric) (e : mexpr)
  : TimeBucket -> option Z :=
  match e with
  | EVar id =>
      fun t => match usingMetrics !! id with
               | Some m => metricValue store m t
               | None => None
               end
  | ENum n => fun _ => Some (Z.of_N n)
  | EAdd a b => fun t => lift2 Z.add (evalExpr store usingMetrics a t) (evalExpr store usingMetrics b t)
  | EMul a b => fun t => lift2 Z.mul (evalExpr store usingMetrics a t) (evalExpr store usingMetrics b t)
  | EParen a => evalExpr store usingMetrics a
  | EFillRepeat a => fillRepeat (evalExpr store usingMetrics a)
  end.

(** Modelled from the spec: the value the metrics store gives a series of a
    graph in a bucket. *)
Definition seriesValue (store : MetricStore) (m : IMetric) (t : TimeBucket) : option Z :=
  match m with
  | IMetric_Metric m => metricValue store m t
  | IMetric_Math m => evalExpr store (usingMetrics m) (expression m) t
  end.

(** ** The dashboard renderer *)

Definition getModelFamily (modelId : string) : string :=
  if startsWith modelId "amazon.nova-" then "Amazon Nova"
  else if startsWith modelId "amazon.titan-" then "Amazon Titan"
  else if startsWith modelId "anthropic.claude" then "Anthropic Claude"
  else if startsWith modelId "meta" then "Meta"
  else if startsWith modelId "mistral." then "Mistral AI"
  else if startsWith modelId "cohere." then "Cohere"
  else if startsWith modelId "ai21." then "AI21 Labs"
  else if startsWith modelId "deepseek." then "DeepSeek"
  else if startsWith modelId "google." then "Google"
  else if startsWith modelId "nvidia." then "NVIDIA"
  else if startsWith modelId "openai." then "OpenAI"
  else if startsWith modelId "qwen." then "Qwen"
  else if startsWith modelId "kimi." then "Kimi"
  else if startsWith modelId "minimax." then "Minimax"
  else if startsWith modelId "magistral." then "Magistral"
  else "Other Models".

Record YAxisProps : Type := mkYAxisProps {
  axis_label : string;
  axis_min : Z
}.

Inductive Widget : Type :=
  | TextWidget (markdown : string) (width height : nat)
  | GraphWidget (title : string) (left : list IMetric) (width height : nat)
                (leftYAxis : YAxisProps) (period : nat).

(** [config.applicationProfileIds && config.applicationProfileIds.length > 0]. *)
Definition hasApplicationProfiles (config : DashboardConfig) : bool :=
  match applicationProfileIds config with
  | Some (_ :: _) => true
  | _ => false
  end.

Definition allProfileIds (config : DashboardConfig) : list string :=
  let fullModelId := getFullModelId (modelConfig config) (endpointType config) in
  match applicationProfileIds config with
  | Some ((_ :: _) as ids) => fullModelId :: ids
  | _ => [fullModelId]
  end.

Definition tokenQuotaMetric (fullModelId : string) : Metric :=
  {| namespace := "Bedrock/Quotas";
     metricName := "TokenQuota";
     dimensionsMap := [("ModelId", fullModelId)];
     statistic := Maximum;
     period := 1;
     metric_label := Some "Quota Limit";
     metric_color := Some RED |}.

Definition requestQuotaMetric (fullModelId : string) : Metric :=
  {| namespace := "Bedrock/Quotas";
     metricName := "RequestQuota";
     dimensionsMap := [("ModelId", fullModelId)];
     statistic := Maximum;
     period := 1;
     metric_label := Some "Quota Limit";
     metric_color := Some RED |}.

Record ProfileMetrics : Type := mkProfileMetrics {
  inputTokens : Metric;
  cacheWriteTokens : Metric;
  outputTokens : Metric;
  maxTokens : Metric;
  invocations : Metric
}.

Definition usageMetric (namespace metricName profileId : string) : Metric :=
  {| namespace := namespace;
     metricName := metricName;
     dimensionsMap := [("ModelId", profileId)];
     statistic := Sum;
     period := 1;
     metric_label := None;
     metric_color := None |}.

Definition createProfileMetrics (profileId : string) : ProfileMetrics :=
  {| inputTokens := usageMetric "AWS/Bedrock" "InputTokenCount" profileId;
     cacheWriteTokens := usageMetric "AWS/Bedrock" "CacheWriteInputTokenCount" profileId;
     outputTokens := usageMetric "AWS/Bedrock" "OutputTokenCount" profileId;
     maxTokens := usageMetric "Bedrock/Quotas" "MaxTokens" profileId;
     invocations := usageMetric "AWS/Bedrock" "Invocations" profileId |}.

Record ProfileEntry : Type := mkProfileEntry {
  profile_id : string;
  metrics : ProfileMetrics;
  suffix : string
}.

(** [index === 0 ? '' : `_${index}`]. *)
Definition profileSuffix (index : nat) : string :=
  if Nat.eqb index 0 then str_empty else "_" +:+ pretty index.

Definition allProfileMetrics (config : DashboardConfig) : list ProfileEntry :=
  imap (fun index id =>
          {| profile_id := id;
             metrics := createProfileMetrics id;
             suffix := profileSuffix index |})
       (allProfileIds config).

(** The five assignments [usingMetrics[key] = ...] of one iteration of
    [allProfileMetrics.forEach]. *)
Definition registerProfile (usingMetrics : gmap string Metric) (p : ProfileEntry)
  : gmap string Metric :=
  <[ "invocations" +:+ suffix p := invocations (metrics p) ]>
  (<[ "maxTokens" +:+ suffix p := maxTokens (metrics p) ]>
  (<[ "outputTokens" +:+ suffix p := outputTokens (metrics p) ]>
  (<[ "cacheWriteTokens" +:+ suffix p := cacheWriteTokens (metrics p) ]>
  (<[ "inputTokens" +:+ suffix p := inputTokens (metrics p) ]> usingMetrics)))).

Definition aggregatedUsingMetrics (profiles : list ProfileEntry) : gmap string Metric :=
  foldl registerProfile ∅ profiles.

(** The arrays [inputParts], [cacheParts], ... after the [forEach]. *)
Definition partsOf (name : string) (profiles : list ProfileEntry) : list string :=
  map (fun p => name +:+ suffix p) profiles.

(** [parts.join(' + ')] as an expression: the sum of the named metrics,
    associated to the left. *)
Definition sumOfParts (parts : list string) : mexpr :=
  match parts with
  | [] => EVar str_empty
  | p :: rest => foldl (fun acc key => EAdd acc (EVar key)) (EVar p) rest
  end.

(** The three series of one dashboard entry. *)
Record EntrySeries : Type := mkEntrySeries {
  actualConsumption : IMetric;
  initialReservation : IMetric;
  totalInvocations : IMetric
}.

Definition profilesLabel (what : string) (config : DashboardConfig) : string :=
  what +:+ " (" +:+ pretty (length (allProfileIds config)) +:+ " profiles)".

Definition entrySeries (config : DashboardConfig) : EntrySeries :=
  let burndownRate := outputTokenBurndownRate (modelConfig config) in
  let allProfileMetrics := allProfileMetrics config in
  if hasApplicationProfiles config then
    let usingMetrics := aggregatedUsingMetrics allProfileMetrics in
    let inputSum := sumOfParts (partsOf "inputTokens" allProfileMetrics) in
    let cacheSum := sumOfParts (partsOf "cacheWriteTokens" allProfileMetrics) in
    let outputSum := sumOfParts (partsOf "outputTokens" allProfileMetrics) in
    let maxTokensSum := sumOfParts (partsOf "maxTokens" allProfileMetrics) in
    let invocationSum := sumOfParts (partsOf "invocations" allProfileMetrics) in
    {| actualConsumption :=
         IMetric_Math
           {| expression :=
                EAdd (EAdd (EParen inputSum) (EParen cacheSum))
                     (EParen (EMul (EParen outputSum) (ENum burndownRate)));
              usingMetrics := usingMetrics;
              label := profilesLabel "Actual Consumption" config;
              color := None;
              math_period := 1 |};
       initialReservation :=
         IMetric_Math
           {| expression :=
                EAdd (EAdd (EParen inputSum) (EParen cacheSum)) (EParen maxTokensSum);
              usingMetrics := usingMetrics;
              label := profilesLabel "Initial Reservation" config;
              color := None;
              math_period := 1 |};
       totalInvocations :=
         IMetric_Math
           {| expression := invocationSum;
              usingMetrics := usingMetrics;
              label := profilesLabel "Total Invocations" config;
              color := None;
              math_period := 1 |} |}
  else
    (* [allProfileMetrics[0]]: the entry of [fullModelId] *)
    let metrics :=
      createProfileMetrics (getFullModelId (modelConfig config) (endpointType config)) in
    {| actualConsumption :=
         IMetric_Math
           {| expression :=
                EAdd (EAdd (EVar "inputTokens") (EVar "cacheWriteTokens"))
                     (EParen (EMul (EVar "outputTokens") (ENum burndownRate)));
              usingMetrics :=
                {[ "inputTokens" := inputTokens metrics;
                   "cacheWriteTokens" := cacheWriteTokens metrics;
                   "outputTokens" := outputTokens metrics ]};
              label := "Actual Consumption";
              color := None;
              math_period := 1 |};
       initialReservation :=
         IMetric_Math
           {| expression :=
                EAdd (EAdd (EVar "inputTokens") (EVar "cacheWriteTokens")) (EVar "maxTokens");
              usingMetrics :=
                {[ "inputTokens" := inputTokens metrics;
                   "cacheWriteTokens" := cacheWriteTokens metrics;
                   "maxTokens" := maxTokens metrics ]};
              label := "Initial Reservation";
              color := None;
              math_period := 1 |};
       totalInvocations := IMetric_Metric (invocations metrics) |}.

Definition tokenQuotaLine (fullModelId : string) : IMetric :=
  IMetric_Math
    {| expression := EFillRepeat (EVar "tokenQuota");
       usingMetrics := {[ "tokenQuota" := tokenQuotaMetric fullModelId ]};
       label := "Quota Limit (Tokens)";
       color := Some RED;
       math_period := 1 |}.

Definition requestQuotaLine (fullModelId : string) : IMetric :=
  IMetric_Math
    {| expression := EFillRepeat (EVar "requestQuota");
       usingMetrics := {[ "requestQuota" := requestQuotaMetric fullModelId ]};
       label := "Quota Limit (Requests)";
       color := Some RED;
       math_period := 1 |}.

Definition titleSuffix (config : DashboardConfig) : string :=
  if hasApplicationProfiles config
  then " (" +:+ pretty (length (allProfileIds config)) +:+ " profiles aggregated)"
  else str_empty.

(** The row of three graphs added for one entry. *)
Definition graphRow (config : DashboardConfig) : list Widget :=
  let fullModelId := getFullModelId (modelConfig config) (endpointType config) in
  let series := entrySeries config in
  [ GraphWidget (fullModelId +:+ " - Initial Reservation" +:+ titleSuffix config)
      [initialReservation series; tokenQuotaLine fullModelId] 8 6
      {| axis_label := "Quota Units (Tokens/min)"; axis_min := 0 |} 1;
    GraphWidget (fullModelId +:+ " - Actual Consumption" +:+ titleSuffix config)
      [actualConsumption series; tokenQuotaLine fullModelId] 8 6
      {| axis_label := "Quota Units (Tokens/min) - Does not include ongoing requests";
         axis_min := 0 |} 1;
    GraphWidget (fullModelId +:+ " - Request Quota Consumption" +:+ titleSuffix config)
      [totalInvocations series; requestQuotaLine fullModelId] 8 6
      {| axis_label := "Quota Units (Requests/min)"; axis_min := 0 |} 1 ].

Definition bannerRow (modelFamily : string) : list Widget :=
  [ TextWidget ("# " +:+ modelFamily) 24 1 ].

(** The variables the [dashboardConfigs.forEach] callback mutates: the
    family of the last banner, the rows added to the dashboard so far
    (one per [dashboard.addWidgets] call), the skipped models and the
    console output. *)
Record RenderState : Type := mkRenderState {
  currentFamily : option string;
  dashboardRows : list (list Widget);
  modelsWithMissingQuotas : list string;
  consoleOutput : list LogEntry
}.

Definition initialRenderState : RenderState :=
  {| currentFamily := None;
     dashboardRows := [];
     modelsWithMissingQuotas := [];
     consoleOutput := [] |}.

(** One call of the [forEach] callback. *)
Definition renderConfig (st : RenderState) (config : DashboardConfig) : RenderState :=
  let fullModelId := getFullModelId (modelConfig config) (endpointType config) in
  let quotaCodes := getQuotaCodes (modelConfig config) (endpointType config) in
  let modelFamily := getModelFamily (modelId (modelConfig config)) in
  match quotaCodes with
  | None =>
      {| currentFamily := currentFamily st;
         dashboardRows := dashboardRows st;
         modelsWithMissingQuotas :=
           modelsWithMissingQuotas st
           ++ [modelId (modelConfig config) +:+ " (" +:+ EndpointType_str (endpointType config)
               +:+ ")"];
         consoleOutput :=
           consoleOutput st
           ++ [(console_warn,
                "[QUOTA_ERROR] Model '" +:+ modelId (modelConfig config)
                +:+ "' does not support endpoint type '"
                +:+ EndpointType_str (endpointType config)
                +:+ "' or quota codes are missing")] |}
  | Some _ =>
      let newFamily := negb (bool_decide (Some modelFamily = currentFamily st)) in
      {| currentFamily := if newFamily then Some modelFamily else currentFamily st;
         dashboardRows :=
           dashboardRows st
           ++ (if newFamily then [bannerRow modelFamily] else [])
           ++ [graphRow config];
         modelsWithMissingQuotas := modelsWithMissingQuotas st;
         consoleOutput :=
           consoleOutput st
           ++ (if hasApplicationProfiles config
               then [(console_log,
                      "[PROFILE_AGGREGATION] " +:+ fullModelId +:+ ": Aggregating "
                      +:+ pretty (length (allProfileIds config))
                      +:+ " profiles (1 system + "
                      +:+ pretty (length (default [] (applicationProfileIds config)))
                      +:+ " application)")]
               else []) |}
  end.

Definition renderDashboard (dashboardConfigs : list DashboardConfig) : RenderState :=
  foldl renderConfig initialRenderState dashboardConfigs.

(** The summary logged once the [forEach] is over. *)
Definition dashboardSummaryLog (dashboardConfigs : list DashboardConfig) (st : RenderState)
  : list LogEntry :=
  let totalConfigured := length dashboardConfigs in
  let totalSkipped := length (modelsWithMissingQuotas st) in
  let totalCreated := (totalConfigured - totalSkipped)%nat in
  (if Nat.ltb 0 (length (modelsWithMissingQuotas st)) then
     [(console_warn,
       "[DASHBOARD_GENERATION_WARNING] Skipped " +:+ pretty (length (modelsWithMissingQuotas st))
       +:+ " dashboard widget(s) due to missing quota codes:")]
     ++ map (fun model => (console_warn, "  - " +:+ model)) (modelsWithMissingQuotas st)
     ++ [(console_warn,
          "Dashboard generation continued with remaining models. To fix this, ensure the model supports the specified endpoint type in the region-specific registry file.")]
   else [])
  ++ [if Nat.ltb 0 totalSkipped
      then (console_warn,
            "[DASHBOARD_GENERATION_SUMMARY] Created " +:+ pretty totalCreated
            +:+ " dashboard widgets, skipped " +:+ pretty totalSkipped
            +:+ " due to missing data (" +:+ pretty totalConfigured +:+ " total configured)")
      else (console_log,
            "[DASHBOARD_GENERATION_SUCCESS] Successfully created " +:+ pretty totalCreated
            +:+ " dashboard widgets for all configured models")].

(** ** The stack constructor

    [allDashboardConfigs] is the list the constructor declares; it is a
    parameter here so that other lists can be validated and rendered.  What
    is kept of the constructor is what it derives from the list: the two
    fetcher payloads, the dashboard rows and the console output.

    The constructs themselves belong to aws-cdk-lib, whose source is not
    part of the repository, and each of them may throw (a metric, for one,
    refuses an empty dimension value).  The library is a parameter: the
    outcome of [super(scope, id, props)], which runs before the validation,
    and the outcome of creating the constructs after it, which the library
    decides from what the constructor hands it. *)

Record CdkLibrary : Type := mkCdkLibrary {
  stackSuper : completion unit;
  createConstructs :
    RuleTargetInput -> CustomResourceProperties -> list (list Widget) -> completion unit
}.

Record StackOutput : Type := mkStackOutput {
  scheduledRefreshInput : RuleTargetInput;
  initialQuotaFetch : CustomResourceProperties;
  dashboardName : string;
  dashboard : list (list Widget);
  stackLog : list LogEntry
}.

Definition CdkQuotaDashboardsStack (cdk : CdkLibrary)
    (allDashboardConfigs : list DashboardConfig) : completion StackOutput :=
  match stackSuper cdk with
  | Throw message => Throw message
  | Normal _ =>
      match validateAllDashboardConfigs allDashboardConfigs with
      | Throw message => Throw message
      | Normal _ =>
          let dashboardConfigs := allDashboardConfigs in
          let eventBridge := eventBridgeModels dashboardConfigs in
          let customResource := customResourceModels dashboardConfigs in
          let rendered := renderDashboard dashboardConfigs in
          let scheduled := {| event_source := "aws.events"; event_models := eventBridge.1 |} in
          let initial := {| properties_models := customResource.1 |} in
          match createConstructs cdk scheduled initial (dashboardRows rendered) with
          | Throw message => Throw message
          | Normal _ =>
              Normal
                {| scheduledRefreshInput := scheduled;
                   initialQuotaFetch := initial;
                   dashboardName := "BedrockQuotaConsumptionByModel";
                   dashboard := dashboardRows rendered;
                   stackLog := eventBridge.2 ++ customResource.2 ++ consoleOutput rendered
                               ++ dashboardSummaryLog dashboardConfigs rendered |}
          end
      end
  end.

(** The list the constructor declares. *)
Definition allDashboardConfigs : list DashboardConfig :=
  [ {| modelConfig := UsEast1.AMAZON.NOVA_2_LITE_V1; endpointType := cross_region_ep;
       applicationProfileIds := None |};
    {| modelConfig := UsEast1.ANTHROPIC.CLAUDE_HAIKU_4_5; endpointType := cross_region_ep;
       applicationProfileIds := None |};
    {| modelConfig := UsEast1.ANTHROPIC.CLAUDE_SONNET_4_5;
       endpointType := global_cross_region_ep; applicationProfileIds := None |};
    {| modelConfig := UsEast1.ANTHROPIC.CLAUDE_SONNET_4_6;
       endpointType := global_cross_region_ep; applicationProfileIds := None |};
    {| modelConfig := UsEast1.ANTHROPIC.CLAUDE_SONNET_4_6_1M;
       endpointType := global_cross_region_ep; applicationProfileIds := None |};
    {| modelConfig := UsEast1.ANTHROPIC.CLAUDE_OPUS_4_5;
       endpointType := global_cross_region_ep; applicationProfileIds := None |};
    {| modelConfig := UsEast1.ANTHROPIC.CLAUDE_OPUS_4_6;
       endpointType := global_cross_region_ep; applicationProfileIds := None |};
    {| modelConfig := UsEast1.ANTHROPIC.CLAUDE_OPUS_4_6_1M;
       endpointType := global_cross_region_ep; applicationProfileIds := None |} ].

(** ** The registry invariant in decidable form *)

(** A quota-code pair holds at least one identifier. *)
Definition hasQuotaIdentifier (qc : QuotaCodes) : bool :=
  truthy_str (tokenQuotaCode qc) || truthy_str (requestQuotaCode qc).

(** [supports] and [lookup] agree on one model and one endpoint kind. *)
Definition selfConsistent (m : ModelConfig) (k : EndpointType) : bool :=
  eqb (validateModelEndpointSupport m k)
      (match getQuotaCodes m k with
       | Some qc => hasQuotaIdentifier qc
       | None => false
       end).

Definition tableSelfConsistent (table : list ModelConfig) : bool :=
  forallb (fun m => forallb (selfConsistent m) all_endpoint_types) table.

(** ** The tuples of the fetcher lists *)

(** The tuple both fetcher lists hold for an entry, absent when the entry
    has no quota codes. *)
Definition fetcherTuple (config : DashboardConfig) : option FetcherModel.t :=
  match getQuotaCodes (modelConfig config) (endpointType config) with
  | Some quotaCodes =>
      Some {| FetcherModel.modelId := getFullModelId (modelConfig config) (endpointType config);
              FetcherModel.tokenQuotaCode := tokenQuotaCode quotaCodes;
              FetcherModel.requestQuotaCode := requestQuotaCode quotaCodes |}
  | None => None
  end.

(** ** The expression texts, as the template literals of the stack build them *)

Definition singleActualConsumptionText (burndownRate : N) : option string :=
  (fun rate => "inputTokens + cacheWriteTokens + (outputTokens * " +:+ rate +:+ ")")
    <$> numberToString burndownRate.

Definition singleInitialReservationText : string :=
  "inputTokens + cacheWriteTokens + maxTokens".

Definition aggregatedActualConsumptionText (inputParts cacheParts outputParts : list string)
    (burndownRate : N) : option string :=
  let inputSum := join " + " inputParts in
  let cacheSum := join " + " cacheParts in
  let outputSum := join " + " outputParts in
  (fun rate =>
     "(" +:+ inputSum +:+ ") + (" +:+ cacheSum +:+ ") + ((" +:+ outputSum +:+ ") * "
     +:+ rate +:+ ")")
    <$> numberToString burndownRate.

Definition aggregatedInitialReservationText (inputParts cacheParts maxTokensParts : list string)
  : string :=
  let inputSum := join " + " inputParts in
  let cacheSum := join " + " cacheParts in
  let maxTokensSum := join " + " maxTokensParts in
  "(" +:+ inputSum +:+ ") + (" +:+ cacheSum +:+ ") + (" +:+ maxTokensSum +:+ ")".

(** The text of a series' [expression], when it is a math expression whose
    numbers have a text. *)
Definition expressionText (s : IMetric) : option string :=
  match s with
  | IMetric_Metric _ => None
  | IMetric_Math m => render (expression m)
  end.

(** ** The usage counters behind the estimator's series *)

(** The five metrics [createProfileMetrics] builds for an identity. *)
Inductive UsageField : Type :=
  | inputTokens_field
  | cacheWriteTokens_field
  | outputTokens_field
  | maxTokens_field
  | invocations_field.

(** The property name, also the stem of the expression variable. *)
Definition fieldKey (f : UsageField) : string :=
  match f with
  | inputTokens_field => "inputTokens"
  | cacheWriteTokens_field => "cacheWriteTokens"
  | outputTokens_field => "outputTokens"
  | maxTokens_field => "maxTokens"
  | invocations_field => "invocations"
  end.

Definition fieldMetric (f : UsageField) (metrics : ProfileMetrics) : Metric :=
  match f with
  | inputTokens_field => inputTokens metrics
  | cacheWriteTokens_field => cacheWriteTokens metrics
  | outputTokens_field => outputTokens metrics
  | maxTokens_field => maxTokens metrics
  | invocations_field => invocations metrics
  end.

(** The series under which a usage counter is published: the four
    counters of the monitored service in the namespace [AWS/Bedrock], and
    the requested maximum output, which an instrumented caller publishes as
    [MaxTokens] in the namespace [Bedrock/Quotas]. *)
Definition counterNamespace (f : UsageField) : string :=
  match f with
  | maxTokens_field => "Bedrock/Quotas"
  | _ => "AWS/Bedrock"
  end.

Definition counterMetricName (f : UsageField) : string :=
  match f with
  | inputTokens_field => "InputTokenCount"
  | cacheWriteTokens_field => "CacheWriteInputTokenCount"
  | outputTokens_field => "OutputTokenCount"
  | maxTokens_field => "MaxTokens"
  | invocations_field => "Invocations"
  end.

(** The points published in bucket [t] for a usage counter of an identity. *)
Definition counterPoints (store : MetricStore) (f : UsageField) (id : string)
    (t : TimeBucket) : list Z :=
  store (counterNamespace f) (counterMetricName f) [("ModelId", id)] t.

Definition sumZ (l : list Z) : Z := foldr Z.add 0%Z l.

(** The sum of a counter's points in bucket [t], over a list of identities. *)
Definition bucketTotal (store : MetricStore) (f : UsageField) (ids : list string)
    (t : TimeBucket) : Z :=
  sumZ (map (fun id => sumZ (counterPoints store f id t)) ids).

(** The value of a usage counter of an identity in bucket [t]: the [Sum]
    statistic of its points. *)
Definition counterValue (store : MetricStore) (f : UsageField) (id : string)
    (t : TimeBucket) : option Z :=
  applyStatistic Sum (counterPoints store f id t).

(** A sum of series values, as the expression evaluator computes it: it has
    a value only where every term has one. *)
Definition sumOption (terms : list (option Z)) : option Z :=
  match terms with
  | [] => None
  | x :: xs => foldl (lift2 Z.add) x xs
  end.

(** The summed counter of an entry over all its profile identities. *)
Definition entryCounter (store : MetricStore) (f : UsageField) (config : DashboardConfig)
    (t : TimeBucket) : option Z :=
  sumOption (map (fun id => counterValue store f id t) (allProfileIds config)).

(** ** Which stored metrics a widget reads *)

Definition readsMetric (s : IMetric) (m : Metric) : Prop :=
  match s with
  | IMetric_Metric m' => m' = m
  | IMetric_Math e => exists key, usingMetrics e !! key = Some m
  end.

(** The metric variables an expression mentions. *)
Fixpoint exprVars (e : mexpr) : list string :=
  match e with
  | EVar id => [id]
  | ENum _ => []
  | EAdd a b => exprVars a ++ exprVars b
  | EMul a b => exprVars a ++ exprVars b
  | EParen a => exprVars a
  | EFillRepeat a => exprVars a
  end.

(** The metrics the value of a series is computed from: the metric itself,
    or the metrics bound to the variables its expression mentions. *)
Definition evaluatesMetric (s : IMetric) (m : Metric) : Prop :=
  match s with
  | IMetric_Metric m' => m' = m
  | IMetric_Math e =>
      exists key, key ∈ exprVars (expression e) /\ usingMetrics e !! key = Some m
  end.

Definition widgetReads (w : Widget) (m : Metric) : Prop :=
  match w with
  | TextWidget _ _ _ => False
  | GraphWidget _ series _ _ _ _ => exists s, s ∈ series /\ readsMetric s m
  end.

(** One of the five usage metrics of a profile identity. *)
Definition isProfileMetric (id : string) (m : Metric) : Prop :=
  m = inputTokens (createProfileMetrics id)
  \/ m = cacheWriteTokens (createProfileMetrics id)
  \/ m = outputTokens (createProfileMetrics id)
  \/ m = maxTokens (createProfileMetrics id)
  \/ m = invocations (createProfileMetrics id).

(** ** The family classification and the layout as the specification words them *)

(** The prefixes tested by [getModelFamily], with their banners. *)
Definition familyPrefixes : list (string * string) :=
  [ ("amazon.nova-", "Amazon Nova");
    ("amazon.titan-", "Amazon Titan");
    ("anthropic.claude", "Anthropic Claude");
    ("meta", "Meta");
    ("mistral.", "Mistral AI");
    ("cohere.", "Cohere");
    ("ai21.", "AI21 Labs");
    ("deepseek.", "DeepSeek");
    ("google.", "Google");
    ("nvidia.", "NVIDIA");
    ("openai.", "OpenAI");
    ("qwen.", "Qwen");
    ("kimi.", "Kimi");
    ("minimax.", "Minimax");
    ("magistral.", "Magistral") ].



(** The first entry of a table whose prefix starts [s]. *)
Definition firstMatch (s : string) (table : list (string * string)) : option (string * string) :=
  find (fun e => startsWith s e.1) table.


(** The specification's layout rule, read literally: every entry of the
    list appears, in declaration order, and a banner precedes an entry when
    its family differs from the family of the entry before it in the list. *)
Fixpoint spec_layout (previous : option string) (entries : list DashboardConfig)
  : list (list Widget) :=
  match entries with
  | [] => []
  | config :: rest =>
      let family := getModelFamily (modelId (modelConfig config)) in
      (if bool_decide (Some family = previous) then [] else [bannerRow family])
      ++ [graphRow config]
      ++ spec_layout (Some family) rest
  end.

(** The entries the renderer does not skip. *)
Definition hasQuotaCodes (config : DashboardConfig) : bool :=
  bool_decide (is_Some (getQuotaCodes (modelConfig config) (endpointType config))).

(** ** The quota fetcher *)

(** The limits service, as the fetcher sees it: a query for a quota code
    returns the current limit or throws. *)
Definition LimitsService : Type := string -> completion Z.

(** A point published to the metrics store. *)
Record LimitPoint : Type := mkLimitPoint {
  point_metricName : string;
  point_modelId : string;
  point_value : Z
}.

Record FetcherState : Type := mkFetcherState {
  published : list LimitPoint;
  fetcherLog : list LogEntry
}.

(** Modelled from the spec: the fetcher's handling of one quota identifier
    (the Lambda source [lib/lambda/quota-fetcher-lambda.py] is not among
    the sources).  An undefined identifier is skipped; a defined one is
    queried, and either its value is published under the given limit kind,
    scoped to the model identity, or the failure is logged. *)
Definition refreshIdentifier (service : LimitsService) (kind : string)
    (modelId : string) (code : option string) (st : FetcherState) : FetcherState :=
  match code with
  | None => st
  | Some code =>
      match service code with
      | Normal value =>
          {| published := published st
                          ++ [{| point_metricName := kind; point_modelId := modelId;
                                 point_value := value |}];
             fetcherLog := fetcherLog st |}
      | Throw message =>
          {| published := published st;
             fetcherLog := fetcherLog st
                           ++ [(console_error,
                                "Failed to fetch " +:+ kind +:+ " " +:+ code +:+ " for "
                                +:+ modelId +:+ ": " +:+ message)] |}
      end
  end.

(** Modelled from the spec: the handling of one tuple of the batch, token
    identifier first, then request identifier (the Lambda source is not
    among the sources). *)
Definition refreshTuple (service : LimitsService) (st : FetcherState) (m : FetcherModel.t)
  : FetcherState :=
  refreshIdentifier service "RequestQuota" (FetcherModel.modelId m)
    (FetcherModel.requestQuotaCode m)
    (refreshIdentifier service "TokenQuota" (FetcherModel.modelId m)
       (FetcherModel.tokenQuotaCode m) st).

Definition emptyFetcherState : FetcherState := {| published := []; fetcherLog := [] |}.

(** Modelled from the spec: [refresh(modelList)], the loop over the batch
    (the Lambda source is not among the sources). *)
Definition refresh (service : LimitsService) (models : list FetcherModel.t) : FetcherState :=
  foldl (refreshTuple service) emptyFetcherState models.

(** A query of the tuple fails. *)
Definition tupleFails (service : LimitsService) (m : FetcherModel.t) : bool :=
  let fails code :=
    match code with
    | Some code => match service code with Throw _ => true | Normal _ => false end
    | None => false
    end in
  fails (FetcherModel.tokenQuotaCode m) || fails (FetcherModel.requestQuotaCode m).

(** The points a tuple publishes when none of its queries fails. *)
Definition expectedPoints (service : LimitsService) (m : FetcherModel.t) : list LimitPoint :=
  let point kind code :=
    match code with
    | Some code =>
        match service code with
        | Normal value =>
            [{| point_metricName := kind; point_modelId := FetcherModel.modelId m;
                point_value := value |}]
        | Throw _ => []
        end
    | None => []
    end in
  point "TokenQuota" (FetcherModel.tokenQuotaCode m)
  ++ point "RequestQuota" (FetcherModel.requestQuotaCode m).

(** ** Example configurations, stores and batches *)

(** A store built from a finite list of published points
    (namespace, metric name, [ModelId], bucket, value). *)
Definition storeOf (points : list (string * string * string * TimeBucket * Z)) : MetricStore :=
  fun ns name dims t =>
    omap (fun '(ns', name', id, t', v) =>
            if bool_decide (ns' = ns /\ name' = name /\ [("ModelId", id)] = dims /\ t' = t)
            then Some v else None)
         points.

(** Two entries whose endpoint kind the model does not support, around a
    valid one. *)
Definition twoInvalidConfigs : list DashboardConfig :=
  [ {| modelConfig := UsEast1.AMAZON.NOVA_PREMIER_V1; endpointType := regional_ep;
       applicationProfileIds := None |};
    {| modelConfig := UsEast1.ANTHROPIC.CLAUDE_SONNET_4_5; endpointType := cross_region_ep;
       applicationProfileIds := None |};
    {| modelConfig := UsEast1.META.LLAMA3_8B_INSTRUCT; endpointType := cross_region_ep;
       applicationProfileIds := None |} ].

(** A model that declares the regional endpoint without quota codes for it. *)
Definition modelWithoutCodes : ModelConfig :=
  (createModelConfig
     {| modelId := "meta.llama3-example-v1:0";
        outputTokenBurndownRate := 1;
        supportedEndpoints := [regional_ep];
        regional := None;
        crossRegion := None;
        globalCrossRegion := None |}).2.

(** An entry without quota codes between two entries of one family. *)
Definition skippedEntryConfigs : list DashboardConfig :=
  [ {| modelConfig := UsEast1.ANTHROPIC.CLAUDE_HAIKU_4_5; endpointType := cross_region_ep;
       applicationProfileIds := None |};
    {| modelConfig := modelWithoutCodes; endpointType := regional_ep;
       applicationProfileIds := None |};
    {| modelConfig := UsEast1.ANTHROPIC.CLAUDE_SONNET_4_5; endpointType := cross_region_ep;
       applicationProfileIds := None |} ].

(** Two entries of one family separated by an entry of another family. *)
Definition interleavedConfigs : list DashboardConfig :=
  [ {| modelConfig := UsEast1.ANTHROPIC.CLAUDE_HAIKU_4_5; endpointType := cross_region_ep;
       applicationProfileIds := None |};
    {| modelConfig := UsEast1.AMAZON.NOVA_2_LITE_V1; endpointType := cross_region_ep;
       applicationProfileIds := None |};
    {| modelConfig := UsEast1.ANTHROPIC.CLAUDE_SONNET_4_5; endpointType := cross_region_ep;
       applicationProfileIds := None |} ].

(** An entry of a model with burndown rate 5 and no application profiles. *)
Definition sonnetConfig : DashboardConfig :=
  {| modelConfig := UsEast1.ANTHROPIC.CLAUDE_SONNET_4_5; endpointType := cross_region_ep;
     applicationProfileIds := None |}.

(** One bucket with InputTokens = 1000, CacheWriteTokens = 0 and
    OutputTokens = 100 for that entry, and no MaxTokens point. *)
Definition sonnetStore : MetricStore :=
  storeOf
    [ ("AWS/Bedrock", "InputTokenCount", "us.anthropic.claude-sonnet-4-5-20250929-v1:0",
       0%nat, 1000%Z);
      ("AWS/Bedrock", "CacheWriteInputTokenCount",
       "us.anthropic.claude-sonnet-4-5-20250929-v1:0", 0%nat, 0%Z);
      ("AWS/Bedrock", "OutputTokenCount", "us.anthropic.claude-sonnet-4-5-20250929-v1:0",
       0%nat, 100%Z) ].

(** The same bucket with a published MaxTokens point of 4000. *)
Definition sonnetStoreWithMaxTokens : MetricStore :=
  fun ns name dims t =>
    sonnetStore ns name dims t
    ++ storeOf [ ("Bedrock/Quotas", "MaxTokens",
                  "us.anthropic.claude-sonnet-4-5-20250929-v1:0", 0%nat, 4000%Z) ]
               ns name dims t.

(** An entry of a model with burndown rate 1 and one application profile. *)
Definition novaAggregatedConfig : DashboardConfig :=
  {| modelConfig := UsEast1.AMAZON.NOVA_2_LITE_V1; endpointType := cross_region_ep;
     applicationProfileIds := Some ["grjihoh0los8"] |}.

(** One bucket with (Input, Cache, Output) = (500, 0, 50) for the primary
    identity and (300, 0, 20) for the application profile. *)
Definition novaAggregatedStore : MetricStore :=
  storeOf
    [ ("AWS/Bedrock", "InputTokenCount", "us.amazon.nova-2-lite-v1:0", 0%nat, 500%Z);
      ("AWS/Bedrock", "CacheWriteInputTokenCount", "us.amazon.nova-2-lite-v1:0", 0%nat, 0%Z);
      ("AWS/Bedrock", "OutputTokenCount", "us.amazon.nova-2-lite-v1:0", 0%nat, 50%Z);
      ("AWS/Bedrock", "InputTokenCount", "grjihoh0los8", 0%nat, 300%Z);
      ("AWS/Bedrock", "CacheWriteInputTokenCount", "grjihoh0los8", 0%nat, 0%Z);
      ("AWS/Bedrock", "OutputTokenCount", "grjihoh0los8", 0%nat, 20%Z) ].


(** An example of a library: it accepts the stack, and refuses the
    constructs when a tuple handed to the schedule carries an empty model
    identity (the value of a metric dimension, which the library does not
    accept empty). *)
Definition exampleCdk : CdkLibrary :=
  {| stackSuper := Normal tt;
     createConstructs := fun scheduled _ _ =>
       if existsb (fun m => String.eqb (FetcherModel.modelId m) str_empty)
                  (event_models scheduled)
       then Throw "empty dimension value"
       else Normal tt |}.

(** A limits service whose query for one quota code throws. *)
Definition failingService : LimitsService :=
  fun code =>
    if String.eqb code "L-58BE175A" then Throw "TooManyRequestsException"
    else Normal 1000000%Z.

(** A batch of three tuples; the token query of the second one fails under
    [failingService]. *)
Definition threeTuples : list FetcherModel.t :=
  [ {| FetcherModel.modelId := "us.amazon.nova-2-lite-v1:0";
       FetcherModel.tokenQuotaCode := Some "L-C6F5908D";
       FetcherModel.requestQuotaCode := Some "L-F06F1187" |};
    {| FetcherModel.modelId := "us.anthropic.claude-haiku-4-5-20251001-v1:0";
       FetcherModel.tokenQuotaCode := Some "L-58BE175A";
       FetcherModel.requestQuotaCode := None |};
    {| FetcherModel.modelId := "global.anthropic.claude-sonnet-4-5-20250929-v1:0";
       FetcherModel.tokenQuotaCode := Some "L-27C57EE8";
       FetcherModel.requestQuotaCode := Some "L-DB84CE56" |} ].

(** ** Further notions about the dashboard *)

Definition widgetWidth (w : Widget) : nat :=
  match w with
  | TextWidget _ width _ => width
  | GraphWidget _ _ width _ _ _ => width
  end.

Definition widgetHeight (w : Widget) : nat :=
  match w with
  | TextWidget _ _ height => height
  | GraphWidget _ _ _ height _ _ => height
  end.

(** The width a row of widgets takes on the dashboard grid. *)
Definition rowWidth (row : list Widget) : nat := foldr Nat.add 0%nat (map widgetWidth row).

(** A row that holds a family banner. *)
Definition isBannerRow (row : list Widget) : bool :=
  match row with
  | [TextWidget _ _ _] => true
  | _ => false
  end.

(** Every variable of a math expression is a key of its [usingMetrics]. *)
Definition seriesClosed (s : IMetric) : Prop :=
  match s with
  | IMetric_Metric _ => True
  | IMetric_Math m => forall id, id ∈ exprVars (expression m) -> is_Some (usingMetrics m !! id)
  end.

Definition widgetSeries (w : Widget) : list IMetric :=
  match w with
  | TextWidget _ _ _ => []
  | GraphWidget _ series _ _ _ _ => series
  end.

(** Every banner row is immediately followed by a row of graphs. *)
Fixpoint bannersLeadGraphs (rows : list (list Widget)) : bool :=
  match rows with
  | [] => true
  | row :: rest =>
      (if isBannerRow row
       then match rest with
            | next :: _ => negb (isBannerRow next)
            | [] => false
            end
       else true)
      && bannersLeadGraphs rest
  end.

(** The rows of graphs of a dashboard, without the banners. *)
Definition graphRows (rows : list (list Widget)) : list (list Widget) :=
  filter (fun row => isBannerRow row = false) rows.

(** The label under which the renderer records a skipped entry. *)
Definition skippedLabel (config : DashboardConfig) : string :=
  modelId (modelConfig config) +:+ " (" +:+ EndpointType_str (endpointType config) +:+ ")".

(** The quota codes a model lists, over all endpoint kinds. *)
Definition listedQuotaCodes (m : ModelConfig) : list string :=
  flat_map (fun k => match getQuotaCodes m k with
                     | Some qc => omap id [tokenQuotaCode qc; requestQuotaCode qc]
                     | None => []
                     end)
           all_endpoint_types.

(** The invariants every entry of the registry tables satisfies, in
    decidable form: at least one supported endpoint and none listed twice, a
    burndown rate of 1 or 5, quota codes of the form [L-] followed by eight
    characters. *)
Definition wellFormedEntry (m : ModelConfig) : bool :=
  negb (Nat.eqb (length (supportedEndpoints m)) 0)
  && bool_decide (NoDup (supportedEndpoints m))
  && (N.eqb (outputTokenBurndownRate m) 1 || N.eqb (outputTokenBurndownRate m) 5)
  && forallb (fun code => String.prefix "L-" code && Nat.eqb (String.length code) 10)
             (listedQuotaCodes m).

(** ** Further example stores *)

(** Two readings of the token limit of one identity, the second one
    published twice in its bucket, and one reading of its request limit. *)
Definition quotaReadingsStore : MetricStore :=
  storeOf
    [ ("Bedrock/Quotas", "TokenQuota", "us.anthropic.claude-sonnet-4-5-20250929-v1:0",
       2%nat, 200000%Z);
      ("Bedrock/Quotas", "TokenQuota", "us.anthropic.claude-sonnet-4-5-20250929-v1:0",
       5%nat, 400000%Z);
      ("Bedrock/Quotas", "TokenQuota", "us.anthropic.claude-sonnet-4-5-20250929-v1:0",
       5%nat, 400000%Z);
      ("Bedrock/Quotas", "RequestQuota", "us.anthropic.claude-sonnet-4-5-20250929-v1:0",
       2%nat, 200%Z) ].

(** ** [scripts/get-quota-codes.ts]: listing the service's quota codes

    The script asks the Service Quotas service for every quota of the
    [bedrock] service, page by page, prints a table and saves it to a file.
    What lies outside the script is a parameter: the environment variable,
    the client's [send] for a region, the clock and the file system.  A
    rejected promise and a failing [writeFileSync] are [Throw] outcomes.
    The pagination loop has no bound of its own, so it runs on fuel: [None]
    stands for a loop that has not ended within the fuel.  A quota's numeric
    [Value] is recorded by the text [toString] gives for it.  Strings are
    taken to hold one-byte characters, for which [padEnd] counts what
    [String.length] counts. *)

Record ServiceQuota : Type := mkServiceQuota {
  QuotaCode : option string;
  Value : option string;
  QuotaName : option string
}.

Record ListServiceQuotasCommand : Type := mkListServiceQuotasCommand {
  ServiceCode : string;
  command_NextToken : option string;
  MaxResults : nat
}.

Record ListServiceQuotasCommandOutput : Type := mkListServiceQuotasCommandOutput {
  Quotas : option (list ServiceQuota);
  NextToken : option string
}.

Record ScriptEnv : Type := mkScriptEnv {
  AWS_DEFAULT_REGION : option string;
  (* [new ServiceQuotasClient({ region }).send(command)] *)
  clientSend : string -> ListServiceQuotasCommand -> completion ListServiceQuotasCommandOutput;
  (* [new Date().toISOString()] *)
  toISOString : string;
  writeFileSync : string -> string -> completion unit;
  (* Node's [util.format] on a first argument that holds a percent sign,
     followed by the other arguments *)
  utilFormat : string -> list string -> string
}.

(** What a run leaves behind: the console output and the files written. *)
Record ScriptRun : Type := mkScriptRun {
  scriptLog : list LogEntry;
  filesWritten : list (string * string)
}.

(** The character [c] occurs in [s]. *)
Fixpoint occursIn (c : ascii) (s : string) : bool :=
  match s with
  | EmptyString => false
  | String a rest => Ascii.eqb a c || occursIn c rest
  end.

(** [console.log(first, ...rest)] on strings.  Node formats the arguments
    with [util.format]: a first argument without a percent sign holds no
    format directive, and the arguments are written separated by a space;
    otherwise what is written is Node's to decide. *)
Definition consoleLogText (env : ScriptEnv) (first : string) (rest : list string) : string :=
  if occursIn "%" first then utilFormat env first rest else join " " (first :: rest).

(** [a || b] on an optional string and a string. *)
Definition orElse (a : option string) (b : string) : string :=
  match a with
  | Some (String c s) => String c s
  | _ => b
  end.

(** [String.prototype.repeat]. *)
Fixpoint repeatString (s : string) (count : nat) : string :=
  match count with
  | O => str_empty
  | S count' => s +:+ repeatString s count'
  end.

(** [String.prototype.padEnd] with the default fill, a space. *)
Definition padEnd (s : string) (targetLength : nat) : string :=
  s +:+ repeatString " " (targetLength - String.length s).

(** [s.split(c)[0]]: the text before the first [c], all of [s] without one. *)
Fixpoint beforeFirst (c : ascii) (s : string) : string :=
  match s with
  | EmptyString => EmptyString
  | String a rest => if Ascii.eqb a c then EmptyString else String a (beforeFirst c rest)
  end.

(** [s.replace(/c/g, '')]. *)
Fixpoint removeAll (c : ascii) (s : string) : string :=
  match s with
  | EmptyString => EmptyString
  | String a rest => if Ascii.eqb a c then removeAll c rest else String a (removeAll c rest)
  end.

(** The [do ... while (nextToken)] loop, from the token and the quotas it
    holds when an iteration starts. *)
Fixpoint listAllQuotas (fuel : nat)
    (send : ListServiceQuotasCommand -> completion ListServiceQuotasCommandOutput)
    (nextToken : option string) (allQuotas : list ServiceQuota)
  : option (completion (list ServiceQuota)) :=
  match fuel with
  | O => None
  | S fuel' =>
      match send {| ServiceCode := "bedrock"; command_NextToken := nextToken;
                    MaxResults := 100 |} with
      | Throw error => Some (Throw error)
      | Normal response =>
          let allQuotas :=
            match Quotas response with
            | Some quotas => allQuotas ++ quotas
            | None => allQuotas
            end in
          if truthy_str (NextToken response)
          then listAllQuotas fuel' send (NextToken response) allQuotas
          else Some (Normal allQuotas)
      end
  end.

(** The three columns of a quota's row. *)
Definition codeColumn (quota : ServiceQuota) : string := padEnd (orElse (QuotaCode quota) "N/A") 15.
Definition valueColumn (quota : ServiceQuota) : string := padEnd (orElse (Value quota) "N/A") 15.
Definition nameColumn (quota : ServiceQuota) : string := orElse (QuotaName quota) "N/A".

(** The row written to the console for a quota. *)
Definition consoleRow (env : ScriptEnv) (quota : ServiceQuota) : LogEntry :=
  (console_log, consoleLogText env (codeColumn quota) [valueColumn quota; nameColumn quota]).

(** The line appended to [output] for a quota. *)
Definition fileRow (quota : ServiceQuota) : string :=
  codeColumn quota +:+ " " +:+ valueColumn quota +:+ " " +:+ nameColumn quota +:+ nl.

(** The [catch] block. *)
Definition catchBlock (error : string) : list LogEntry :=
  [ (console_error, "Error fetching quotas: " +:+ error);
    (console_log, nl +:+ "Make sure you have:");
    (console_log, "1. AWS credentials configured");
    (console_log, "2. Permissions for service-quotas:ListServiceQuotas");
    (console_log, "3. Bedrock service available in your region") ].

Definition targetRegionOf (env : ScriptEnv) (region : option string) : string :=
  orElse region (orElse (AWS_DEFAULT_REGION env) "us-east-1").

Definition fetchingLine (targetRegion : string) : string :=
  "Fetching all Bedrock Service Quotas for region: " +:+ targetRegion +:+ "..." +:+ nl.

Definition quotaFileName (env : ScriptEnv) (region : option string) : string :=
  let timestamp := removeAll "-" (beforeFirst "T" (toISOString env)) in
  let regionSuffix := if truthy_str region then "-" +:+ default str_empty region else str_empty in
  "bedrock-quota-codes-" +:+ timestamp +:+ regionSuffix +:+ ".txt".

Definition quotaFileHeading (targetRegion : string) (allQuotas : list ServiceQuota) : string :=
  ((((fetchingLine targetRegion +:+ nl)
     +:+ ("Found " +:+ pretty (length allQuotas) +:+ " total quotas" +:+ nl +:+ nl))
    +:+ ("All Bedrock Quotas:" +:+ nl +:+ nl))
   +:+ (padEnd "Code" 15 +:+ " " +:+ padEnd "Value" 15 +:+ " Name" +:+ nl))
  +:+ (repeatString "-" 100 +:+ nl).

Definition getAllBedrockQuotas (fuel : nat) (env : ScriptEnv) (region : option string)
  : option ScriptRun :=
  let targetRegion := targetRegionOf env region in
  let fetching := (console_log, fetchingLine targetRegion) in
  match listAllQuotas fuel (clientSend env targetRegion) None [] with
  | None => None
  | Some (Throw error) =>
      Some {| scriptLog := fetching :: catchBlock error; filesWritten := [] |}
  | Some (Normal allQuotas) =>
      if Nat.eqb (length allQuotas) 0 then
        Some {| scriptLog := [fetching; (console_log, "No quotas found for Bedrock service.")];
                filesWritten := [] |}
      else
        let printed :=
          [ fetching;
            (console_log,
             "Found " +:+ pretty (length allQuotas) +:+ " total Bedrock quotas" +:+ nl);
            (console_log, "All Bedrock Quotas:" +:+ nl);
            (console_log, consoleLogText env (padEnd "Code" 15) [padEnd "Value" 15; "Name"]);
            (console_log, repeatString "-" 100) ]
          ++ map (consoleRow env) allQuotas in
        let filename := quotaFileName env region in
        let output :=
          foldl (fun output quota => output +:+ fileRow quota)
                (quotaFileHeading targetRegion allQuotas) allQuotas in
        match writeFileSync env filename output with
        | Throw error =>
            Some {| scriptLog := printed ++ catchBlock error; filesWritten := [] |}
        | Normal _ =>
            Some {| scriptLog :=
                      printed ++ [(console_log, nl +:+ "Quotas saved to: " +:+ filename)];
                    filesWritten := [(filename, output)] |}
        end
  end.

(** The end of the script: the usage text for [--help] or [-h] anywhere on
    the command line, and otherwise the call with [process.argv[2]]. *)
Definition scriptMain (fuel : nat) (env : ScriptEnv) (argv : list string) : option ScriptRun :=
  if bool_decide ("--help" ∈ argv) || bool_decide ("-h" ∈ argv) then
    Some {| scriptLog :=
              [ (console_log, "Usage: npx ts-node scripts/get-quota-codes.ts [region]");
                (console_log,
                 nl +:+ "Fetches all AWS Bedrock service quotas and saves them to a timestamped file.");
                (console_log,
                 nl +:+ "Optional region parameter (defaults to us-east-1 or AWS_DEFAULT_REGION)");
                (console_log,
                 nl +:+ "Output file format: bedrock-quota-codes-YYYYMMDD-[region].txt") ];
            filesWritten := [] |}
  else getAllBedrockQuotas fuel env (argv !! 2%nat).

(** The pages a service hands out from a token on: each page but the last
    carries the token of the next one. *)
Inductive pageChain
    (send : ListServiceQuotasCommand -> completion ListServiceQuotasCommandOutput)
  : option string -> list ListServiceQuotasCommandOutput -> Prop :=
  | pageChain_last (token : option string) (response : ListServiceQuotasCommandOutput) :
      send {| ServiceCode := "bedrock"; command_NextToken := token; MaxResults := 100 |}
      = Normal response ->
      truthy_str (NextToken response) = false ->
      pageChain send token [response]
  | pageChain_more (token : option string) (response : ListServiceQuotasCommandOutput)
      (rest : list ListServiceQuotasCommandOutput) :
      send {| ServiceCode := "bedrock"; command_NextToken := token; MaxResults := 100 |}
      = Normal response ->
      truthy_str (NextToken response) = true ->
      pageChain send (NextToken response) rest ->
      pageChain send token (response :: rest).

(** The quotas of a list of pages, in order. *)
Definition quotasOfPages (pages : list ListServiceQuotasCommandOutput) : list ServiceQuota :=
  concat (map (fun response => default [] (Quotas response)) pages).

(** A service with two pages (the second without a token), a clock and a
    file system that accepts every write. *)
Definition twoPageSend (command : ListServiceQuotasCommand)
  : completion ListServiceQuotasCommandOutput :=
  match command_NextToken command with
  | None =>
      Normal {| Quotas := Some [ {| QuotaCode := Some "L-C6F5908D"; Value := Some "2000000";
                                    QuotaName := Some "Cross-region tokens per minute" |} ];
                NextToken := Some "page-2" |}
  | Some _ =>
      Normal {| Quotas := Some [ {| QuotaCode := Some "L-F06F1187"; Value := None;
                                    QuotaName := None |} ];
                NextToken := None |}
  end.

Definition exampleScriptEnv : ScriptEnv :=
  {| AWS_DEFAULT_REGION := Some "eu-west-1";
     clientSend := fun _ => twoPageSend;
     toISOString := "2026-01-15T10:20:30.000Z";
     writeFileSync := fun _ _ => Normal tt;
     utilFormat := fun first _ => first |}.

(** A service whose second page is rejected. *)
Definition failingPageSend (command : ListServiceQuotasCommand)
  : completion ListServiceQuotasCommandOutput :=
  match command_NextToken command with
  | None => twoPageSend command
  | Some _ => Throw "ThrottlingException"
  end.

(** The two pages of [twoPageSend]. *)
Definition twoPages : list ListServiceQuotasCommandOutput :=
  [ {| Quotas := Some [ {| QuotaCode := Some "L-C6F5908D"; Value := Some "2000000";
                           QuotaName := Some "Cross-region tokens per minute" |} ];
       NextToken := Some "page-2" |};
    {| Quotas := Some [ {| QuotaCode := Some "L-F06F1187"; Value := None;
                           QuotaName := None |} ];
       NextToken := None |} ].

Definition failingScriptEnv : ScriptEnv :=
  {| AWS_DEFAULT_REGION := None;
     clientSend := fun _ => failingPageSend;
     toISOString := "2026-01-15T10:20:30.000Z";
     writeFileSync := fun _ _ => Normal tt;
     utilFormat := fun first _ => first |}.

(** ** The client wrapper that publishes MaxTokens (README, Python)

    [BedrockClientWithMetrics.converse] publishes the [maxTokens] of a
    request as a custom metric and then calls the wrapped client.  The two
    boto3 clients are parameters; an exception raised by a client is a
    [Throw] outcome.  A Python value is [None], an integer, or something
    else, known by the text an f-string prints for it.  The keyword
    arguments are the two the wrapper reads and the rest, which it only
    passes on. *)

Inductive PyValue : Type :=
  | PyNone
  | PyInt (n : Z)
  | PyOther (repr : string).

(** The text an f-string prints for a value. *)
Definition py_str (v : PyValue) : string :=
  match v with
  | PyNone => "None"
  | PyInt n => pretty n
  | PyOther repr => repr
  end.

Record ConverseKwargs (Rest : Type) : Type := mkConverseKwargs {
  kw_modelId : option string;
  kw_inferenceConfig : option (gmap string PyValue);
  kw_rest : Rest
}.
Arguments mkConverseKwargs {Rest} _ _ _.
Arguments kw_modelId {Rest} _.
Arguments kw_inferenceConfig {Rest} _.
Arguments kw_rest {Rest} _.

Record MetricDatum : Type := mkMetricDatum {
  datum_MetricName : string;
  datum_Dimensions : list (string * string);
  datum_Value : PyValue;
  datum_Unit : string
}.

Record PutMetricDataInput : Type := mkPutMetricDataInput {
  put_Namespace : string;
  put_MetricData : list MetricDatum
}.

Record WrapperClients (Rest Response : Type) : Type := mkWrapperClients {
  bedrock_client_converse : ConverseKwargs Rest -> completion Response;
  cloudwatch_client_put_metric_data : PutMetricDataInput -> completion unit
}.
Arguments bedrock_client_converse {Rest Response} _ _.
Arguments cloudwatch_client_put_metric_data {Rest Response} _ _.

Inductive PyLogLevel : Type := logger_info | logger_error.

(** What a call leaves behind besides its result: the [put_metric_data]
    calls it made, those among them that CloudWatch accepted, and the log. *)
Record WrapperEffects : Type := mkWrapperEffects {
  putCalls : list PutMetricDataInput;
  acceptedPuts : list PutMetricDataInput;
  loggerOutput : list (PyLogLevel * string)
}.

Definition noEffects : WrapperEffects :=
  {| putCalls := []; acceptedPuts := []; loggerOutput := [] |}.

Definition maxTokensInput (model_id : string) (max_tokens : PyValue) : PutMetricDataInput :=
  {| put_Namespace := "Bedrock/Quotas";
     put_MetricData :=
       [ {| datum_MetricName := "MaxTokens";
            datum_Dimensions := [("ModelId", model_id)];
            datum_Value := max_tokens;
            datum_Unit := "None" |} ] |}.

Definition _publish_max_tokens_metric {Rest Response : Type}
    (self : WrapperClients Rest Response) (model_id : string) (max_tokens : PyValue)
  : WrapperEffects :=
  let publishing :=
    (logger_info,
     "Publishing metric: ModelId=" +:+ model_id +:+ ", MaxTokens=" +:+ py_str max_tokens) in
  match cloudwatch_client_put_metric_data self (maxTokensInput model_id max_tokens) with
  | Normal _ =>
      {| putCalls := [maxTokensInput model_id max_tokens];
         acceptedPuts := [maxTokensInput model_id max_tokens];
         loggerOutput := [publishing; (logger_info, "Metric published successfully!")] |}
  | Throw e =>
      {| putCalls := [maxTokensInput model_id max_tokens];
         acceptedPuts := [];
         loggerOutput :=
           [publishing; (logger_error, "Failed to publish max_tokens metric: " +:+ e)] |}
  end.

(** Truthiness of [kwargs.get('inferenceConfig', {})]: a missing or empty
    dictionary is falsy. *)
Definition truthy_dict (d : option (gmap string PyValue)) : bool :=
  match d with
  | Some d => negb (bool_decide (d = ∅))
  | None => false
  end.

Definition converse {Rest Response : Type} (self : WrapperClients Rest Response)
    (kwargs : ConverseKwargs Rest) : completion Response * WrapperEffects :=
  let model_id := kw_modelId kwargs in
  let inference_config := kw_inferenceConfig kwargs in
  let effects :=
    if truthy_dict inference_config && truthy_str model_id then
      (* [inference_config.get('maxTokens')] *)
      match default ∅ inference_config !! "maxTokens" with
      | None | Some PyNone => noEffects
      | Some max_tokens =>
          _publish_max_tokens_metric self (default str_empty model_id) max_tokens
      end
    else noEffects in
  (bedrock_client_converse self kwargs, effects).

(** Modelled from the spec: the write side of the metrics store, which
    "accepts a named series scoped by a small set of string dimensions plus
    a numeric value and implicit current timestamp"; the integer values of
    an accepted call become points of the bucket in which it arrives. *)
Definition recordPut (t : TimeBucket) (store : MetricStore) (input : PutMetricDataInput)
  : MetricStore :=
  fun ns name dims t' =>
    store ns name dims t'
    ++ omap (fun datum =>
               match datum_Value datum with
               | PyInt v =>
                   if bool_decide (put_Namespace input = ns /\ datum_MetricName datum = name
                                   /\ datum_Dimensions datum = dims /\ t = t')
                   then Some v else None
               | _ => None
               end)
            (put_MetricData input).

(** Modelled from the spec: the write side of the metrics store, for a
    list of accepted calls. *)
Definition recordPuts (t : TimeBucket) (store : MetricStore) (inputs : list PutMetricDataInput)
  : MetricStore :=
  foldl (recordPut t) store inputs.

(** A wrapped client that answers every call and a CloudWatch client that
    accepts every put. *)
Definition echoClients : WrapperClients unit string :=
  {| bedrock_client_converse := fun kwargs => Normal (default "no model" (kw_modelId kwargs));
     cloudwatch_client_put_metric_data := fun _ => Normal tt |}.

(** The request of the README's example, for the entry [sonnetConfig]. *)
Definition sonnetKwargs : ConverseKwargs unit :=
  {| kw_modelId := Some "us.anthropic.claude-sonnet-4-5-20250929-v1:0";
     kw_inferenceConfig := Some {[ "maxTokens" := PyInt 4096; "temperature" := PyOther "0.7" ]};
     kw_rest := tt |}.

Global Instance UsageField_eq_dec : EqDecision UsageField.
Proof. solve_decision. Defined.

(** * Verified properties *)

(** ** The registry's unit tests *)

Example test_getQuotaCodes_supported :
  exists token request,
    getQuotaCodes UsEast1.AMAZON.NOVA_PREMIER_V1 cross_region_ep
    = Some {| tokenQuotaCode := Some token; requestQuotaCode := Some request |}.
Proof. eexists _, _. reflexivity. Qed.

Example test_getQuotaCodes_unsupported :
  getQuotaCodes UsEast1.AMAZON.NOVA_PREMIER_V1 regional_ep = None.
Proof. reflexivity. Qed.

Example test_validateModelEndpointSupport :
  validateModelEndpointSupport UsEast1.AMAZON.NOVA_PREMIER_V1 cross_region_ep = true
  /\ validateModelEndpointSupport UsEast1.AMAZON.NOVA_PREMIER_V1 regional_ep = false.
Proof. split; reflexivity. Qed.

Example test_getSupportedEndpointTypes :
  getSupportedEndpointTypes UsEast1.AMAZON.NOVA_PREMIER_V1 = [cross_region_ep].
Proof. reflexivity. Qed.

Example test_model_properties :
  modelId UsEast1.AMAZON.NOVA_LITE_V1 = "amazon.nova-lite-v1:0"
  /\ outputTokenBurndownRate UsEast1.AMAZON.NOVA_LITE_V1 = 1%N.
Proof. split; reflexivity. Qed.

(** Every entry of both tables respects the typing of the quota properties. *)
Example tables_typed :
  forallb quotaPropertiesTyped UsEast1.BEDROCK_MODELS = true
  /\ forallb quotaPropertiesTyped UsWest2.BEDROCK_MODELS = true.
Proof. split; vm_compute; reflexivity. Qed.

(** Building the us-west-2 table logs nothing; building the us-east-1 table
    logs one warning, for the image model that has no token quota. *)
Example tables_warnings :
  flat_map (fun m => (createModelConfig m).1) UsWest2.BEDROCK_MODELS = []
  /\ flat_map (fun m => (createModelConfig m).1) UsEast1.BEDROCK_MODELS
     = ["[Quota Config Warning] Model amazon.nova-canvas-v1:0: Missing tokenQuotaCode. Consider adding for complete token usage monitoring."].
Proof. split; vm_compute; reflexivity. Qed.

(** The list the constructor declares is valid and, with a library that
    accepts its constructs, yields two banners and eight rows of graphs. *)
Example declared_dashboard :
  exists out,
    CdkQuotaDashboardsStack exampleCdk allDashboardConfigs = Normal out
    /\ map length (dashboard out) = [1; 3; 1; 3; 3; 3; 3; 3; 3; 3]%nat
    /\ omap (fun row => match row with
                        | [TextWidget markdown _ _] => Some markdown
                        | _ => None
                        end) (dashboard out)
       = ["# Amazon Nova"; "# Anthropic Claude"].
Proof. eexists. repeat split; vm_compute; reflexivity. Qed.

(** ** Registry lookups *)

Lemma all_endpoint_types_complete (k : EndpointType) : In k all_endpoint_types.
Proof. destruct k; simpl; auto. Qed.

Lemma selfConsistent_spec (m : ModelConfig) (k : EndpointType) :
  selfConsistent m k = true ->
  (validateModelEndpointSupport m k = true <->
   exists qc, getQuotaCodes m k = Some qc /\ hasQuotaIdentifier qc = true).
Proof.
  unfold selfConsistent. intros H. apply eqb_prop in H. rewrite H.
  destruct (getQuotaCodes m k) as [qc|].
  - split; [intros Hq; exists qc; auto | intros (qc' & [= <-] & Hq); exact Hq].
  - split; [discriminate | intros (qc' & [=] & _)].
Qed.

(** C4: in the table of the active region (us-east-1), and in the us-west-2
    table as well, a model supports an endpoint kind exactly when the
    lookup for that kind returns a quota-code pair holding at least one of
    the two identifiers. *)
Theorem registry_self_consistency (table : list ModelConfig) (m : ModelConfig)
    (k : EndpointType) :
  table = BEDROCK_MODELS \/ table = UsWest2.BEDROCK_MODELS ->
  In m table ->
  (validateModelEndpointSupport m k = true <->
   exists qc, getQuotaCodes m k = Some qc /\ hasQuotaIdentifier qc = true).
Proof.
  intros Htable Hm. apply selfConsistent_spec.
  assert (Hall : tableSelfConsistent table = true)
    by (destruct Htable as [-> | ->]; vm_compute; reflexivity).
  unfold tableSelfConsistent in Hall. rewrite forallb_forall in Hall.
  specialize (Hall m Hm). rewrite forallb_forall in Hall.
  apply Hall, all_endpoint_types_complete.
Qed.

Lemma registry_self_consistency_witness :
  (validateModelEndpointSupport UsEast1.AMAZON.NOVA_CANVAS_V1 regional_ep = true <->
   exists qc, getQuotaCodes UsEast1.AMAZON.NOVA_CANVAS_V1 regional_ep = Some qc
              /\ hasQuotaIdentifier qc = true)
  /\ (validateModelEndpointSupport UsWest2.AMAZON.NOVA_PREMIER_V1 regional_ep = true <->
      exists qc, getQuotaCodes UsWest2.AMAZON.NOVA_PREMIER_V1 regional_ep = Some qc
                 /\ hasQuotaIdentifier qc = true).
Proof.
  split.
  - apply (registry_self_consistency BEDROCK_MODELS); [left; reflexivity |].
    vm_compute. tauto.
  - apply (registry_self_consistency UsWest2.BEDROCK_MODELS); [right; reflexivity |].
    vm_compute. tauto.
Defined.






(** ** The full model identity *)

Lemma isProfileMetric_dimension (id : string) (m : Metric) :
  isProfileMetric id m -> dimensionsMap m = [("ModelId", id)].
Proof. intros [-> | [-> | [-> | [-> | ->]]]]; reflexivity. Qed.

Lemma registerProfile_lookup_inv (m0 : gmap string Metric) (p : ProfileEntry)
    (key : string) (m : Metric) :
  registerProfile m0 p !! key = Some m ->
  m0 !! key = Some m
  \/ m = inputTokens (metrics p) \/ m = cacheWriteTokens (metrics p)
  \/ m = outputTokens (metrics p) \/ m = maxTokens (metrics p)
  \/ m = invocations (metrics p).
Proof.
  unfold registerProfile. intros H.
  repeat (apply lookup_insert_Some in H as [[_ <-] | [_ H]]; [tauto |]).
  tauto.
Qed.

Lemma aggregated_lookup_inv (profiles : list ProfileEntry) (m0 : gmap string Metric)
    (key : string) (m : Metric) :
  foldl registerProfile m0 profiles !! key = Some m ->
  m0 !! key = Some m
  \/ exists p, p ∈ profiles
               /\ (m = inputTokens (metrics p) \/ m = cacheWriteTokens (metrics p)
                   \/ m = outputTokens (metrics p) \/ m = maxTokens (metrics p)
                   \/ m = invocations (metrics p)).
Proof.
  revert m0. induction profiles as [|p ps IH]; intros m0; simpl.
  - auto.
  - intros H. apply IH in H as [H | (q & Hq & H)].
    + apply registerProfile_lookup_inv in H as [H | H]; [auto |].
      right. exists p. split; [left | exact H].
    + right. exists q. split; [by right | exact H].
Qed.

Lemma allProfileMetrics_elem (config : DashboardConfig) (p : ProfileEntry) :
  p ∈ allProfileMetrics config ->
  profile_id p ∈ allProfileIds config /\ metrics p = createProfileMetrics (profile_id p).
Proof.
  unfold allProfileMetrics. intros H.
  apply elem_of_lookup_imap_1 in H as (i & id & -> & Hid). simpl.
  split; [eapply list_elem_of_lookup_2; eauto | reflexivity].
Qed.

Lemma aggregatedUsingMetrics_reads (config : DashboardConfig) (key : string) (m : Metric) :
  aggregatedUsingMetrics (allProfileMetrics config) !! key = Some m ->
  exists id, id ∈ allProfileIds config /\ isProfileMetric id m.
Proof.
  unfold aggregatedUsingMetrics. intros H.
  apply aggregated_lookup_inv in H as [H | (p & Hp & H)].
  - rewrite lookup_empty in H. discriminate.
  - apply allProfileMetrics_elem in Hp as [Hid Hm]. exists (profile_id p).
    split; [exact Hid |]. unfold isProfileMetric. rewrite <- Hm. exact H.
Qed.

Lemma allProfileIds_head (config : DashboardConfig) :
  head (allProfileIds config) = Some (getFullModelId (modelConfig config) (endpointType config)).
Proof. unfold allProfileIds. destruct (applicationProfileIds config) as [[|]|]; reflexivity. Qed.

Lemma allProfileIds_single (config : DashboardConfig) :
  hasApplicationProfiles config = false ->
  allProfileIds config = [getFullModelId (modelConfig config) (endpointType config)].
Proof.
  unfold allProfileIds, hasApplicationProfiles.
  destruct (applicationProfileIds config) as [[|]|]; [reflexivity | discriminate | reflexivity].
Qed.

Lemma entrySeries_reads (config : DashboardConfig) (s : IMetric) (m : Metric) :
  s = initialReservation (entrySeries config) \/ s = actualConsumption (entrySeries config)
  \/ s = totalInvocations (entrySeries config) ->
  readsMetric s m ->
  exists id, id ∈ allProfileIds config /\ dimensionsMap m = [("ModelId", id)].
Proof.
  intros Hs Hm. unfold entrySeries in Hs.
  destruct (hasApplicationProfiles config) eqn:Hagg.
  - assert (exists key, aggregatedUsingMetrics (allProfileMetrics config) !! key = Some m)
      as [key Hkey] by (destruct Hs as [-> | [-> | ->]]; exact Hm).
    apply aggregatedUsingMetrics_reads in Hkey as (id & Hid & Hmid).
    exists id. split; [exact Hid | by apply isProfileMetric_dimension].
  - exists (getFullModelId (modelConfig config) (endpointType config)).
    split; [rewrite allProfileIds_single by exact Hagg; by left |].
    destruct Hs as [-> | [-> | ->]]; simpl in Hm.
    + destruct Hm as [key Hkey].
      repeat (apply lookup_insert_Some in Hkey as [[_ <-] | [_ Hkey]]; [reflexivity |]).
      apply lookup_singleton_Some in Hkey as [_ <-]. reflexivity.
    + destruct Hm as [key Hkey].
      repeat (apply lookup_insert_Some in Hkey as [[_ <-] | [_ Hkey]]; [reflexivity |]).
      apply lookup_singleton_Some in Hkey as [_ <-]. reflexivity.
    + subst m. reflexivity.
Qed.

Lemma quotaLine_reads (fullModelId : string) (s : IMetric) (m : Metric) :
  s = tokenQuotaLine fullModelId \/ s = requestQuotaLine fullModelId ->
  readsMetric s m ->
  dimensionsMap m = [("ModelId", fullModelId)].
Proof.
  intros [-> | ->] [key Hkey]; simpl in Hkey;
    apply lookup_singleton_Some in Hkey as [_ <-]; reflexivity.
Qed.


(** ** The two fetcher inputs *)

Lemma eventBridgeModel_tuple (config : DashboardConfig) :
  (eventBridgeModel config).1 = fetcherTuple config.
Proof.
  unfold eventBridgeModel, fetcherTuple.
  destruct (getQuotaCodes (modelConfig config) (endpointType config)); reflexivity.
Qed.

Lemma customResourceModel_tuple (config : DashboardConfig) :
  (customResourceModel config).1 = fetcherTuple config.
Proof.
  unfold customResourceModel, fetcherTuple.
  destruct (getQuotaCodes (modelConfig config) (endpointType config)); reflexivity.
Qed.

Lemma omap_fst_map {A B C : Type} (f : A -> option B * C) (g : A -> option B) (l : list A) :
  (forall a, (f a).1 = g a) -> omap fst (map f l) = omap g l.
Proof.
  intros Hfg. induction l as [|a l IH]; [reflexivity |].
  cbn [map omap list_omap]. rewrite Hfg. fold (omap fst (map f l)) (omap g l).
  rewrite IH. reflexivity.
Qed.

Lemma eventBridgeModels_tuples (configs : list DashboardConfig) :
  (eventBridgeModels configs).1 = omap fetcherTuple configs.
Proof. apply omap_fst_map, eventBridgeModel_tuple. Qed.

Lemma customResourceModels_tuples (configs : list DashboardConfig) :
  (customResourceModels configs).1 = omap fetcherTuple configs.
Proof. apply omap_fst_map, customResourceModel_tuple. Qed.

(** C8: the list prepared for the scheduled refresh and the list prepared
    for the initial fetch are the same list: for every entry with quota
    codes, in declaration order, the tuple of its full model identity and
    its two quota codes, and nothing for an entry without quota codes.  The
    stack hands exactly these two equal lists to the schedule's event and to
    the custom resource, whatever the library is with which it is built. *)
Theorem fetcher_inputs_identical (configs : list DashboardConfig) :
  (eventBridgeModels configs).1 = (customResourceModels configs).1
  /\ (eventBridgeModels configs).1 = omap fetcherTuple configs
  /\ (forall cdk out, CdkQuotaDashboardsStack cdk configs = Normal out ->
        event_models (scheduledRefreshInput out) = properties_models (initialQuotaFetch out)
        /\ event_models (scheduledRefreshInput out) = omap fetcherTuple configs).
Proof.
  assert (Hsame : (eventBridgeModels configs).1 = (customResourceModels configs).1)
    by (by rewrite eventBridgeModels_tuples, customResourceModels_tuples).
  split; [exact Hsame |].
  split; [apply eventBridgeModels_tuples |].
  intros cdk out. unfold CdkQuotaDashboardsStack.
  destruct (stackSuper cdk); [| discriminate].
  destruct (validateAllDashboardConfigs configs); [| discriminate].
  destruct (createConstructs cdk _ _ _); [| discriminate].
  intros [= <-]. split; [exact Hsame | apply eventBridgeModels_tuples].
Qed.

Lemma fetcher_inputs_identical_witness :
  exists out, CdkQuotaDashboardsStack exampleCdk allDashboardConfigs = Normal out
    /\ event_models (scheduledRefreshInput out) = properties_models (initialQuotaFetch out)
    /\ length (event_models (scheduledRefreshInput out)) = 8.
Proof.
  destruct (CdkQuotaDashboardsStack exampleCdk allDashboardConfigs) as [out|] eqn:Hout;
    [| vm_compute in Hout; discriminate].
  exists out. split; [reflexivity |].
  destruct (fetcher_inputs_identical allDashboardConfigs) as (_ & _ & Hstack).
  destruct (Hstack exampleCdk out Hout) as [Heq Htuples].
  split; [exact Heq |]. rewrite Htuples. reflexivity.
Defined.

(** ** Validation of the configuration list *)

Lemma append_assoc (a b c : string) : (a +:+ b) +:+ c = a +:+ b +:+ c.
Proof.
  induction a as [|ch a IH]; [reflexivity |].
  change (String ch ((a +:+ b) +:+ c) = String ch (a +:+ b +:+ c)). by rewrite IH.
Qed.

Lemma append_empty_r (a : string) : a +:+ str_empty = a.
Proof.
  induction a as [|ch a IH]; [reflexivity |].
  change (String ch (a +:+ str_empty) = String ch a). by rewrite IH.
Qed.

Lemma join_elem (sep : string) (l : list string) (x : string) :
  x ∈ l -> exists pre post, join sep l = pre +:+ x +:+ post.
Proof.
  induction l as [|y l IH]; intros Hx; [by apply elem_of_nil in Hx |].
  apply elem_of_cons in Hx as [-> | Hx].
  - exists str_empty. destruct l as [|z l].
    + exists str_empty. symmetry. apply append_empty_r.
    + exists (sep +:+ join sep (z :: l)). reflexivity.
  - destruct (IH Hx) as (pre & post & Heq). destruct l as [|z l].
    + by apply elem_of_nil in Hx.
    + exists (y +:+ sep +:+ pre), post.
      change (join sep (y :: z :: l)) with (y +:+ sep +:+ join sep (z :: l)).
      rewrite Heq, !append_assoc. reflexivity.
Qed.

Lemma validationErrors_elem (configs : list DashboardConfig) (line : string) :
  line ∈ validationErrors configs <->
  exists i config, configs !! i = Some config /\ configError i config = Some line.
Proof.
  unfold validationErrors. rewrite list_elem_of_omap. split.
  - intros (o & Ho & Hline). apply elem_of_lookup_imap_1 in Ho as (i & c & -> & Hc).
    exists i, c. auto.
  - intros (i & c & Hc & Hline). exists (Some line). split; [| reflexivity].
    rewrite <- Hline. by apply elem_of_lookup_imap_2.
Qed.

Lemma configError_valid (i : nat) (config : DashboardConfig) :
  configError i config = None <->
  validateModelEndpointSupport (modelConfig config) (endpointType config) = true.
Proof.
  unfold configError.
  destruct (validateModelEndpointSupport (modelConfig config) (endpointType config)); simpl.
  - tauto.
  - destruct (length _ =? 0)%nat; split; discriminate.
Qed.

Lemma configError_names (i : nat) (config : DashboardConfig) :
  validateModelEndpointSupport (modelConfig config) (endpointType config) = false ->
  exists rest,
    configError i config =
      Some ("Config " +:+ pretty i +:+ ": Model '" +:+ modelId (modelConfig config) +:+ "'"
            +:+ rest).
Proof.
  unfold configError. intros ->. simpl.
  destruct (length _ =? 0)%nat; eexists; rewrite ?append_assoc; reflexivity.
Qed.

Lemma validationErrors_nil (configs : list DashboardConfig) :
  validationErrors configs = [] <->
  forall i config, configs !! i = Some config ->
    validateModelEndpointSupport (modelConfig config) (endpointType config) = true.
Proof.
  split.
  - intros Hnil i c Hc. apply (configError_valid i).
    destruct (configError i c) as [line|] eqn:Hline; [| reflexivity].
    assert (line ∈ validationErrors configs) as Hin
      by (apply validationErrors_elem; eauto).
    rewrite Hnil in Hin. by apply elem_of_nil in Hin.
  - intros Hall. apply elem_of_nil_inv. intros line Hin.
    apply validationErrors_elem in Hin as (i & c & Hc & Hline).
    apply Hall, (configError_valid i) in Hc. congruence.
Qed.


Lemma invalidConfigurationsMessage_names (errors : list string) (line : string) :
  line ∈ errors ->
  exists pre post, invalidConfigurationsMessage errors = pre +:+ line +:+ post.
Proof.
  intros Hin. destruct (join_elem nl errors line Hin) as (pre & post & Hjoin).
  unfold invalidConfigurationsMessage. rewrite Hjoin.
  exists ("Invalid dashboard configurations found:" +:+ nl +:+ pre).
  eexists. rewrite !append_assoc. reflexivity.
Qed.

Lemma omap_imap_length (f : nat -> DashboardConfig -> option string)
    (configs : list DashboardConfig) :
  (forall i config, f i config = None <->
     validateModelEndpointSupport (modelConfig config) (endpointType config) = true) ->
  length (omap id (imap f configs)) =
    length (filter (fun config =>
                      validateModelEndpointSupport (modelConfig config) (endpointType config)
                      = false) configs).
Proof.
  revert f. induction configs as [|c configs IH]; intros f Hf; [reflexivity |].
  rewrite imap_cons. cbn [omap list_omap]. fold (omap id (imap (f ∘ S) configs)).
  destruct (validateModelEndpointSupport (modelConfig c) (endpointType c)) eqn:Hc.
  - rewrite (proj2 (Hf 0%nat c) Hc). cbn [id].
    rewrite filter_cons_False by congruence.
    apply IH. intros i config. apply Hf.
  - destruct (f 0%nat c) as [line|] eqn:Hline.
    + cbn [id]. rewrite filter_cons_True by exact Hc. cbn [length]. f_equal.
      apply IH. intros i config. apply Hf.
    + apply Hf in Hline. congruence.
Qed.

Lemma validationErrors_length (configs : list DashboardConfig) :
  length (validationErrors configs) =
    length (filter (fun config =>
                      validateModelEndpointSupport (modelConfig config) (endpointType config)
                      = false) configs).
Proof. apply omap_imap_length. intros i config. apply configError_valid. Qed.

(** C3: when every entry's endpoint kind is supported by its model the
    validation completes normally: it raises no error, and an error of the
    constructor can then only come from the library, with whose constructs
    the stack is built when the library accepts them.  When at least one
    entry is invalid, the validation throws one error; the constructor,
    which validates before it creates any construct or logs anything, ends
    with that same error once [super] has returned, and yields no output
    whatever the library does; and for every invalid entry of the list the
    message of that error contains the line that starts with the entry's
    index and its model identifier; the message lists one line per invalid
    entry between its heading and its closing advice. *)
Theorem validation_reports_every_invalid_entry (cdk : CdkLibrary)
    (configs : list DashboardConfig) :
  ((forall i config, configs !! i = Some config ->
      validateModelEndpointSupport (modelConfig config) (endpointType config) = true) ->
   validateAllDashboardConfigs configs = Normal tt
   /\ (forall message, CdkQuotaDashboardsStack cdk configs = Throw message ->
         stackSuper cdk = Throw message
         \/ exists scheduled initial rows,
              createConstructs cdk scheduled initial rows = Throw message)
   /\ (stackSuper cdk = Normal tt ->
       (forall scheduled initial rows, createConstructs cdk scheduled initial rows = Normal tt) ->
       exists out, CdkQuotaDashboardsStack cdk configs = Normal out
                   /\ dashboard out = dashboardRows (renderDashboard configs)))
  /\ ((exists i config, configs !! i = Some config
         /\ validateModelEndpointSupport (modelConfig config) (endpointType config) = false) ->
      exists message errors,
        validateAllDashboardConfigs configs = Throw message
        /\ (stackSuper cdk = Normal tt -> CdkQuotaDashboardsStack cdk configs = Throw message)
        /\ (forall out, CdkQuotaDashboardsStack cdk configs <> Normal out)
        /\ message = invalidConfigurationsMessage errors
        /\ length errors =
             length (filter (fun config =>
                               validateModelEndpointSupport (modelConfig config)
                                 (endpointType config) = false) configs)
        /\ forall i config, configs !! i = Some config ->
             validateModelEndpointSupport (modelConfig config) (endpointType config) = false ->
             exists rest pre post,
               message =
                 pre +:+ ("Config " +:+ pretty i +:+ ": Model '"
                          +:+ modelId (modelConfig config) +:+ "'" +:+ rest) +:+ post).
Proof.
  split.
  - intros Hall. apply validationErrors_nil in Hall.
    assert (Hok : validateAllDashboardConfigs configs = Normal tt)
      by (unfold validateAllDashboardConfigs; rewrite Hall; reflexivity).
    split; [exact Hok |]. unfold CdkQuotaDashboardsStack. rewrite Hok. split.
    + intros message. destruct (stackSuper cdk) as [[]|e]; [| intros [= <-]; by left].
      destruct (createConstructs cdk _ _ _) as [[]|e] eqn:Hlib; [discriminate |].
      intros [= <-]. right. eauto.
    + intros -> Haccept. rewrite Haccept. eexists. split; reflexivity.
  - intros (i0 & c0 & Hc0 & Hbad0).
    assert (Hne : (0 <? length (validationErrors configs))%nat = true).
    { apply Nat.ltb_lt. destruct (validationErrors configs) eqn:Herr; [| simpl; lia].
      assert (Hvalid := proj1 (validationErrors_nil configs) Herr i0 c0 Hc0). congruence. }
    exists (invalidConfigurationsMessage (validationErrors configs)), (validationErrors configs).
    assert (Hthrow : validateAllDashboardConfigs configs
                     = Throw (invalidConfigurationsMessage (validationErrors configs)))
      by (unfold validateAllDashboardConfigs; rewrite Hne; reflexivity).
    split; [exact Hthrow |].
    split; [intros Hsuper; unfold CdkQuotaDashboardsStack; rewrite Hsuper, Hthrow;
            reflexivity |].
    split; [intros out; unfold CdkQuotaDashboardsStack; rewrite Hthrow;
            destruct (stackSuper cdk); discriminate |].
    split; [reflexivity |]. split; [apply validationErrors_length |].
    intros i c Hc Hbad. destruct (configError_names i c Hbad) as (rest & Hline).
    exists rest. apply invalidConfigurationsMessage_names.
    apply validationErrors_elem. eauto.
Qed.

Lemma validation_reports_every_invalid_entry_witness :
  validateAllDashboardConfigs allDashboardConfigs = Normal tt
  /\ exists message,
       CdkQuotaDashboardsStack exampleCdk twoInvalidConfigs = Throw message
       /\ (exists rest pre post,
             message = pre +:+ ("Config 0: Model 'amazon.nova-premier-v1:0'" +:+ rest) +:+ post)
       /\ (exists rest pre post,
             message = pre +:+ ("Config 2: Model 'meta.llama3-8b-instruct-v1:0'" +:+ rest)
                       +:+ post).
Proof.
  split.
  - destruct (validation_reports_every_invalid_entry exampleCdk allDashboardConfigs)
      as [Hvalid _].
    apply Hvalid. intros i config Hconfig.
    do 8 (destruct i as [|i]; [injection Hconfig as <-; reflexivity |]).
    discriminate.
  - destruct (validation_reports_every_invalid_entry exampleCdk twoInvalidConfigs)
      as [_ Hinvalid].
    destruct Hinvalid as (message & errors & _ & Hstack & _ & _ & _ & Hnames).
    { exists 0%nat. eexists. split; reflexivity. }
    exists message. split; [exact (Hstack eq_refl) |]. split.
    + exact (Hnames 0%nat _ eq_refl eq_refl).
    + exact (Hnames 2%nat _ eq_refl eq_refl).
Defined.

Example twoInvalidConfigs_message :
  validateAllDashboardConfigs twoInvalidConfigs =
    Throw ("Invalid dashboard configurations found:" +:+ nl
           +:+ "Config 0: Model 'amazon.nova-premier-v1:0' does not support endpoint type 'regional'. Supported types: cross-region"
           +:+ nl
           +:+ "Config 2: Model 'meta.llama3-8b-instruct-v1:0' does not support endpoint type 'cross-region'. Supported types: regional"
           +:+ nl +:+ nl
           +:+ "Please check the quota mappings in the region-specific registry file for valid model/endpoint combinations.").
Proof. vm_compute. reflexivity. Qed.


(** ** Family banners *)




Lemma getModelFamily_firstMatch (modelId : string) :
  getModelFamily modelId =
    match firstMatch modelId familyPrefixes with
    | Some e => e.2
    | None => "Other Models"
    end.
Proof.
  unfold getModelFamily, firstMatch, familyPrefixes. cbn [find fst snd].
  repeat (match goal with
          | |- context [startsWith modelId ?p] => destruct (startsWith modelId p)
          end; [reflexivity |]).
  reflexivity.
Qed.


Lemma filter_hasQuotaCodes_cons (config : DashboardConfig) (configs : list DashboardConfig) :
  filter (fun c => hasQuotaCodes c = true) (config :: configs) =
    if hasQuotaCodes config then config :: filter (fun c => hasQuotaCodes c = true) configs
    else filter (fun c => hasQuotaCodes c = true) configs.
Proof.
  destruct (hasQuotaCodes config) eqn:H.
  - by rewrite filter_cons_True.
  - rewrite filter_cons_False; [reflexivity | congruence].
Qed.

Lemma renderDashboard_rows (configs : list DashboardConfig) (st : RenderState) :
  dashboardRows (foldl renderConfig st configs) =
    dashboardRows st
    ++ spec_layout (currentFamily st) (filter (fun c => hasQuotaCodes c = true) configs).
Proof.
  revert st. induction configs as [|config configs IH]; intros st.
  - simpl. by rewrite app_nil_r.
  - cbn [foldl]. rewrite IH, filter_hasQuotaCodes_cons.
    unfold renderConfig, hasQuotaCodes.
    destruct (getQuotaCodes (modelConfig config) (endpointType config)) as [qc|]; simpl.
    + destruct (bool_decide (Some _ = currentFamily st)) eqn:Hfam; simpl.
      * apply bool_decide_eq_true in Hfam. rewrite <- Hfam, <- app_assoc. reflexivity.
      * rewrite <- !app_assoc. reflexivity.
    + reflexivity.
Qed.



(** The grouping follows the order of the list: a family that comes back
    after another one gets a second banner. *)
Example banners_are_order_dependent :
  omap (fun row => match row with
                   | [TextWidget markdown _ _] => Some markdown
                   | _ => None
                   end) (dashboardRows (renderDashboard interleavedConfigs))
  = ["# Anthropic Claude"; "# Amazon Nova"; "# Anthropic Claude"].
Proof. vm_compute. reflexivity. Qed.

(** Declaring a supported endpoint without quota codes is accepted without
    even a warning. *)
Example modelWithoutCodes_accepted :
  createModelConfig modelWithoutCodes = ([], modelWithoutCodes)
  /\ validateModelEndpointSupport modelWithoutCodes regional_ep = true
  /\ getQuotaCodes modelWithoutCodes regional_ep = None.
Proof. repeat split. Qed.



(** ** The estimator's expressions *)

Lemma fieldKey_suffix_inj (f g : UsageField) (i j : nat) :
  fieldKey f +:+ profileSuffix i = fieldKey g +:+ profileSuffix j -> f = g /\ i = j.
Proof.
  assert (Hsuffix : forall i j, profileSuffix i = profileSuffix j -> i = j).
  { clear. intros i j. unfold profileSuffix.
    destruct (Nat.eqb_spec i 0) as [-> |], (Nat.eqb_spec j 0) as [-> |];
      try done; try discriminate.
    intros H. apply (inj (String.append "_")) in H. by apply (inj pretty) in H. }
  intros H.
  destruct f, g;
    try (apply (inj (String.append _)) in H; split; [reflexivity | by apply Hsuffix]);
    exfalso; cbv [fieldKey String.append] in H;
    discriminate H.
Qed.

(** Reads the five property names as [fieldKey]s. *)
Ltac fold_field_keys :=
  change "invocations" with (fieldKey invocations_field);
  change "maxTokens" with (fieldKey maxTokens_field);
  change "outputTokens" with (fieldKey outputTokens_field);
  change "cacheWriteTokens" with (fieldKey cacheWriteTokens_field);
  change "inputTokens" with (fieldKey inputTokens_field).

Lemma registerProfile_lookup (m0 : gmap string Metric) (p : ProfileEntry)
    (f : UsageField) (i j : nat) :
  suffix p = profileSuffix j ->
  registerProfile m0 p !! (fieldKey f +:+ profileSuffix i) =
    if decide (i = j) then Some (fieldMetric f (metrics p))
    else m0 !! (fieldKey f +:+ profileSuffix i).
Proof.
  intros Hp. unfold registerProfile. rewrite Hp. fold_field_keys.
  destruct (decide (i = j)) as [-> | Hij].
  - destruct f; cbn [fieldMetric];
      repeat first [ rewrite lookup_insert_eq; reflexivity
                   | rewrite lookup_insert_ne
                       by (intros H; apply fieldKey_suffix_inj in H as [[=] _]) ].
  - repeat (rewrite lookup_insert_ne
              by (intros H; apply fieldKey_suffix_inj in H as [_ ?]; congruence)).
    reflexivity.
Qed.

Lemma aggregatedUsingMetrics_lookup (ids : list string) (f : UsageField) (i : nat) :
  aggregatedUsingMetrics
    (imap (fun index id =>
             {| profile_id := id; metrics := createProfileMetrics id;
                suffix := profileSuffix index |}) ids)
    !! (fieldKey f +:+ profileSuffix i)
  = (fun id => fieldMetric f (createProfileMetrics id)) <$> ids !! i.
Proof.
  unfold aggregatedUsingMetrics.
  induction ids as [|id ids IH] using rev_ind.
  - simpl. rewrite lookup_empty. reflexivity.
  - rewrite imap_app. cbn [imap]. rewrite foldl_snoc.
    rewrite (registerProfile_lookup _ _ f i (length ids + 0))
      by (cbn [suffix]; reflexivity).
    rewrite Nat.add_0_r. destruct (decide (i = length ids)) as [-> | Hne].
    + rewrite lookup_app_r, Nat.sub_diag by lia. reflexivity.
    + rewrite IH. destruct (decide (i < length ids)%nat) as [Hlt | Hge].
      * by rewrite lookup_app_l.
      * rewrite !lookup_ge_None_2; [reflexivity | | lia].
        rewrite length_app. simpl. lia.
Qed.

Lemma partsOf_imap (f : UsageField) (ids : list string) :
  partsOf (fieldKey f)
    (imap (fun index id =>
             {| profile_id := id; metrics := createProfileMetrics id;
                suffix := profileSuffix index |}) ids)
  = imap (fun index _ => fieldKey f +:+ profileSuffix index) ids.
Proof.
  unfold partsOf. change (map ?g ?l) with (g <$> l). rewrite fmap_imap. reflexivity.
Qed.

Lemma applyStatistic_Sum (points : list Z) :
  applyStatistic Sum points = Some (sumZ points).
Proof. reflexivity. Qed.

Lemma foldl_lift2_Some (a : Z) (values : list Z) :
  foldl (lift2 Z.add) (Some a) (map Some values) = Some (a + sumZ values)%Z.
Proof.
  revert a. induction values as [|v vs IH]; intros a; simpl.
  - f_equal. unfold sumZ. simpl. lia.
  - rewrite IH. f_equal. unfold sumZ. simpl. lia.
Qed.

Lemma sumOption_Some (values : list Z) :
  values <> [] -> sumOption (map Some values) = Some (sumZ values).
Proof.
  destruct values as [|v vs]; [done |]. intros _. simpl.
  rewrite foldl_lift2_Some. reflexivity.
Qed.

Lemma allProfileIds_aggregated (config : DashboardConfig) :
  hasApplicationProfiles config = true -> allProfileIds config <> [].
Proof. unfold allProfileIds. destruct (applicationProfileIds config) as [[|]|]; done. Qed.

Lemma allProfileIds_primary_first (config : DashboardConfig) :
  allProfileIds config =
    getFullModelId (modelConfig config) (endpointType config)
    :: default [] (applicationProfileIds config).
Proof. unfold allProfileIds. destruct (applicationProfileIds config) as [[|]|]; reflexivity. Qed.

(** Every metric of an identity is read under [Sum] with the dashboard's
    period. *)
Lemma isProfileMetric_statistic (id : string) (m : Metric) :
  isProfileMetric id m -> statistic m = Sum /\ period m = 1.
Proof. intros [-> | [-> | [-> | [-> | ->]]]]; split; reflexivity. Qed.

(** *** The expression texts *)

Lemma render_foldl_EAdd (e : mexpr) (keys : list string) :
  render (foldl (fun acc key => EAdd acc (EVar key)) e keys) =
    (fun text => text +:+ foldr (fun key acc => " + " +:+ key +:+ acc) str_empty keys)
      <$> render e.
Proof.
  revert e. induction keys as [|k keys IH]; intros e; cbn [foldl foldr].
  - destruct (render e) as [text|]; cbn; [| reflexivity].
    f_equal. symmetry. apply append_empty_r.
  - rewrite IH. cbn [render]. destruct (render e) as [text|]; cbn; [| reflexivity].
    f_equal. rewrite !append_assoc. reflexivity.
Qed.

Lemma join_cons (sep p : string) (rest : list string) :
  join sep (p :: rest) = p +:+ foldr (fun key acc => sep +:+ key +:+ acc) str_empty rest.
Proof.
  revert p. induction rest as [|q rest IH]; intros p.
  - symmetry. apply append_empty_r.
  - change (join sep (p :: q :: rest)) with (p +:+ sep +:+ join sep (q :: rest)).
    rewrite IH. reflexivity.
Qed.

Lemma render_sumOfParts (parts : list string) :
  render (sumOfParts parts) = Some (join " + " parts).
Proof.
  destruct parts as [|p rest]; [reflexivity |].
  unfold sumOfParts. rewrite render_foldl_EAdd, join_cons. reflexivity.
Qed.

(** The [expression] of each series is the text the template literals of
    the stack produce. *)
Lemma entrySeries_expression_text (config : DashboardConfig) :
  let rate := outputTokenBurndownRate (modelConfig config) in
  let profiles := allProfileMetrics config in
  expressionText (actualConsumption (entrySeries config)) =
    (if hasApplicationProfiles config
     then aggregatedActualConsumptionText (partsOf "inputTokens" profiles)
            (partsOf "cacheWriteTokens" profiles) (partsOf "outputTokens" profiles) rate
     else singleActualConsumptionText rate)
  /\ expressionText (initialReservation (entrySeries config)) =
       Some (if hasApplicationProfiles config
             then aggregatedInitialReservationText (partsOf "inputTokens" profiles)
                    (partsOf "cacheWriteTokens" profiles) (partsOf "maxTokens" profiles)
             else singleInitialReservationText).
Proof.
  intros rate profiles. subst rate profiles. unfold entrySeries.
  destruct (hasApplicationProfiles config);
    cbn [expressionText actualConsumption initialReservation expression render];
    rewrite ?render_sumOfParts;
    unfold aggregatedActualConsumptionText, aggregatedInitialReservationText,
      singleActualConsumptionText, singleInitialReservationText;
    cbn [fmap option_fmap option_map];
    (split; [destruct (numberToString _) as [rate|]; cbn; [f_equal |] |
             f_equal]);
    rewrite ?append_assoc; reflexivity.
Qed.

Lemma sumZ_cons (x : Z) (l : list Z) : sumZ (x :: l) = (x + sumZ l)%Z.
Proof. reflexivity. Qed.

Lemma sumZ_singleton (x : Z) : sumZ [x] = x.
Proof. unfold sumZ. cbn [foldr]. lia. Qed.


(** *** The value of the series in one bucket of one store *)

Section Estimator.

Context (store : MetricStore) (t : TimeBucket).

(** The metric [createProfileMetrics] builds for a counter is read from the
    counter's namespace and metric name, with the identity as its only
    dimension, under [Sum]. *)
Lemma counterValue_metricValue (f : UsageField) (id : string) :
  metricValue store (fieldMetric f (createProfileMetrics id)) t = counterValue store f id t.
Proof. destruct f; reflexivity. Qed.

Lemma counterValue_sum (f : UsageField) (id : string) :
  counterValue store f id t = Some (sumZ (counterPoints store f id t)).
Proof. reflexivity. Qed.

Lemma counterValue_missing (f : UsageField) (id : string) :
  counterPoints store f id t = [] -> counterValue store f id t = Some 0%Z.
Proof. unfold counterValue. intros ->. reflexivity. Qed.

Lemma entryCounter_total (f : UsageField) (config : DashboardConfig) :
  entryCounter store f config t = Some (bucketTotal store f (allProfileIds config) t).
Proof.
  unfold entryCounter, bucketTotal.
  rewrite <- sumOption_Some.
  - f_equal. rewrite map_map. reflexivity.
  - rewrite allProfileIds_primary_first. discriminate.
Qed.

Lemma bucketTotal_missing (f : UsageField) (ids : list string) :
  Forall (fun id => counterPoints store f id t = []) ids ->
  bucketTotal store f ids t = 0%Z.
Proof.
  unfold bucketTotal. induction 1 as [|id ids Hid _ IH]; [reflexivity |].
  cbn [map]. rewrite sumZ_cons, IH, Hid. reflexivity.
Qed.

Lemma evalExpr_foldl_EAdd (metrics : gmap string Metric) (e : mexpr) (keys : list string) :
  evalExpr store metrics (foldl (fun acc key => EAdd acc (EVar key)) e keys) t =
    foldl (lift2 Z.add) (evalExpr store metrics e t)
          (map (fun key => evalExpr store metrics (EVar key) t) keys).
Proof.
  revert e. induction keys as [|k keys IH]; intros e; simpl; [reflexivity |].
  rewrite IH. reflexivity.
Qed.

Lemma evalExpr_sumOfParts (metrics : gmap string Metric) (keys : list string) :
  keys <> [] ->
  evalExpr store metrics (sumOfParts keys) t =
    sumOption (map (fun key => evalExpr store metrics (EVar key) t) keys).
Proof.
  destruct keys as [|k keys]; [done |]. intros _.
  unfold sumOfParts. rewrite evalExpr_foldl_EAdd. reflexivity.
Qed.

Lemma evalExpr_aggregated_sum (ids : list string) (f : UsageField) :
  ids <> [] ->
  let profiles :=
    imap (fun index id =>
            {| profile_id := id; metrics := createProfileMetrics id;
               suffix := profileSuffix index |}) ids in
  evalExpr store (aggregatedUsingMetrics profiles)
           (sumOfParts (partsOf (fieldKey f) profiles)) t
  = sumOption (map (fun id => counterValue store f id t) ids).
Proof.
  intros Hne profiles. subst profiles. rewrite partsOf_imap.
  rewrite evalExpr_sumOfParts
    by (destruct ids; [done | discriminate]).
  f_equal. apply list_eq. intros i.
  change (map ?g ?l) with (g <$> l).
  rewrite !list_lookup_fmap, list_lookup_imap.
  destruct (ids !! i) as [id|] eqn:Hid; [| reflexivity].
  cbn [fmap option_fmap option_map evalExpr].
  rewrite aggregatedUsingMetrics_lookup, Hid. cbn [fmap option_fmap option_map].
  rewrite counterValue_metricValue. reflexivity.
Qed.

Lemma entryCounter_single (f : UsageField) (config : DashboardConfig) :
  hasApplicationProfiles config = false ->
  entryCounter store f config t =
    counterValue store f (getFullModelId (modelConfig config) (endpointType config)) t.
Proof. intros H. unfold entryCounter. rewrite allProfileIds_single by exact H. reflexivity. Qed.

(** The three series of an entry in terms of its summed counters. *)
Lemma actualConsumption_value (config : DashboardConfig) :
  seriesValue store (actualConsumption (entrySeries config)) t =
    lift2 Z.add
      (lift2 Z.add (entryCounter store inputTokens_field config t)
                   (entryCounter store cacheWriteTokens_field config t))
      (lift2 Z.mul (entryCounter store outputTokens_field config t)
                   (Some (Z.of_N (outputTokenBurndownRate (modelConfig config))))).
Proof.
  unfold entrySeries. destruct (hasApplicationProfiles config) eqn:Hagg.
  - cbn [seriesValue actualConsumption expression usingMetrics evalExpr].
    unfold allProfileMetrics. fold_field_keys.
    rewrite (evalExpr_aggregated_sum (allProfileIds config) inputTokens_field),
      (evalExpr_aggregated_sum (allProfileIds config) cacheWriteTokens_field),
      (evalExpr_aggregated_sum (allProfileIds config) outputTokens_field)
      by (by apply allProfileIds_aggregated).
    reflexivity.
  - rewrite !entryCounter_single by exact Hagg.
    cbn [seriesValue actualConsumption expression usingMetrics evalExpr].
    rewrite lookup_insert_eq.
    rewrite lookup_insert_ne, lookup_insert_eq by done.
    rewrite !lookup_insert_ne, lookup_singleton_eq by done.
    reflexivity.
Qed.

Lemma initialReservation_value (config : DashboardConfig) :
  seriesValue store (initialReservation (entrySeries config)) t =
    lift2 Z.add
      (lift2 Z.add (entryCounter store inputTokens_field config t)
                   (entryCounter store cacheWriteTokens_field config t))
      (entryCounter store maxTokens_field config t).
Proof.
  unfold entrySeries. destruct (hasApplicationProfiles config) eqn:Hagg.
  - cbn [seriesValue initialReservation expression usingMetrics evalExpr].
    unfold allProfileMetrics. fold_field_keys.
    rewrite (evalExpr_aggregated_sum (allProfileIds config) inputTokens_field),
      (evalExpr_aggregated_sum (allProfileIds config) cacheWriteTokens_field),
      (evalExpr_aggregated_sum (allProfileIds config) maxTokens_field)
      by (by apply allProfileIds_aggregated).
    reflexivity.
  - rewrite !entryCounter_single by exact Hagg.
    cbn [seriesValue initialReservation expression usingMetrics evalExpr].
    rewrite lookup_insert_eq.
    rewrite lookup_insert_ne, lookup_insert_eq by done.
    rewrite !lookup_insert_ne, lookup_singleton_eq by done.
    reflexivity.
Qed.

Lemma totalInvocations_value (config : DashboardConfig) :
  seriesValue store (totalInvocations (entrySeries config)) t =
    entryCounter store invocations_field config t.
Proof.
  unfold entrySeries. destruct (hasApplicationProfiles config) eqn:Hagg.
  - cbn [seriesValue totalInvocations expression usingMetrics].
    unfold allProfileMetrics. fold_field_keys.
    rewrite (evalExpr_aggregated_sum (allProfileIds config) invocations_field)
      by (by apply allProfileIds_aggregated).
    reflexivity.
  - rewrite !entryCounter_single by exact Hagg. reflexivity.
Qed.

Lemma bucketTotal_distribute (ids : list string) (rate : Z) :
  (bucketTotal store inputTokens_field ids t
   + bucketTotal store cacheWriteTokens_field ids t
   + bucketTotal store outputTokens_field ids t * rate)%Z
  = sumZ (map (fun id =>
                 (sumZ (counterPoints store inputTokens_field id t)
                  + sumZ (counterPoints store cacheWriteTokens_field id t)
                  + sumZ (counterPoints store outputTokens_field id t) * rate)%Z) ids).
Proof.
  unfold bucketTotal. induction ids as [|id ids IH]; [reflexivity |].
  cbn [map]. rewrite !sumZ_cons, <- IH. ring.
Qed.

(** Every metric a series of an entry reads is read under [Sum] with the
    dashboard's period. *)
Lemma entrySeries_statistic (config : DashboardConfig) (s : IMetric) (m : Metric) :
  s = initialReservation (entrySeries config)
  \/ s = actualConsumption (entrySeries config)
  \/ s = totalInvocations (entrySeries config) ->
  readsMetric s m -> statistic m = Sum /\ period m = 1.
Proof.
  intros Hs Hm. unfold entrySeries in Hs.
  destruct (hasApplicationProfiles config) eqn:Hagg.
  - assert (exists key, aggregatedUsingMetrics (allProfileMetrics config) !! key = Some m)
      as [key Hkey] by (destruct Hs as [-> | [-> | ->]]; exact Hm).
    apply aggregatedUsingMetrics_reads in Hkey as (id & _ & Hmid).
    exact (isProfileMetric_statistic id m Hmid).
  - destruct Hs as [-> | [-> | ->]]; simpl in Hm.
    + destruct Hm as [key Hkey].
      repeat (apply lookup_insert_Some in Hkey as [[_ <-] | [_ Hkey]]; [by split |]).
      apply lookup_singleton_Some in Hkey as [_ <-]. by split.
    + destruct Hm as [key Hkey].
      repeat (apply lookup_insert_Some in Hkey as [[_ <-] | [_ Hkey]]; [by split |]).
      apply lookup_singleton_Some in Hkey as [_ <-]. by split.
    + subst m. by split.
Qed.

(** The burndown rates of the registry tables are 1 and 5. *)
Lemma registry_rates (table : list ModelConfig) (m : ModelConfig) :
  table = BEDROCK_MODELS \/ table = UsWest2.BEDROCK_MODELS -> In m table ->
  outputTokenBurndownRate m = 1%N \/ outputTokenBurndownRate m = 5%N.
Proof.
  intros Htable Hm.
  assert (Hall : forallb (fun m => N.eqb (outputTokenBurndownRate m) 1
                                   || N.eqb (outputTokenBurndownRate m) 5) table = true)
    by (destruct Htable as [-> | ->]; vm_compute; reflexivity).
  rewrite forallb_forall in Hall. specialize (Hall m Hm).
  apply orb_true_iff in Hall as [H | H]; apply N.eqb_eq in H; tauto.
Qed.

(** *** Actual Consumption *)

(** C1: for every dashboard entry and every time bucket the Actual
    Consumption series is the input tokens plus the cache-write tokens plus
    the output tokens times the burndown rate of the entry's model, where
    each counter is the [Sum] statistic of [AWS/Bedrock]
    [InputTokenCount], [CacheWriteInputTokenCount] and [OutputTokenCount]
    in that same bucket, added over the identities of the entry; every
    metric the series reads is read under [Sum] with the same period.  For
    an entry without application profiles the only identity is the full
    model identity, and the expression the stack hands to the store reads
    [inputTokens + cacheWriteTokens + (outputTokens * rate)] with the rate
    printed as a number (for a rate up to 2^53 - 1, its decimal digits;
    the rates of the registry tables are 1 and 5).
    With InputTokens = 1000, CacheWriteTokens = 0, OutputTokens = 100 and
    burndown rate 5 the value is 1500. *)
Theorem actual_consumption_formula (config : DashboardConfig) :
  let fullModelId := getFullModelId (modelConfig config) (endpointType config) in
  let rate := outputTokenBurndownRate (modelConfig config) in
  let sumOf metricName id := sumZ (store "AWS/Bedrock" metricName [("ModelId", id)] t) in
  let total metricName := sumZ (map (sumOf metricName) (allProfileIds config)) in
  seriesValue store (actualConsumption (entrySeries config)) t =
    Some (total "InputTokenCount" + total "CacheWriteInputTokenCount"
          + total "OutputTokenCount" * Z.of_N rate)%Z
  /\ (forall m, readsMetric (actualConsumption (entrySeries config)) m ->
        statistic m = Sum /\ period m = 1)
  /\ (hasApplicationProfiles config = false ->
      allProfileIds config = [fullModelId]
      /\ seriesValue store (actualConsumption (entrySeries config)) t =
           Some (sumOf "InputTokenCount" fullModelId
                 + sumOf "CacheWriteInputTokenCount" fullModelId
                 + sumOf "OutputTokenCount" fullModelId * Z.of_N rate)%Z
      /\ expressionText (actualConsumption (entrySeries config))
         = (fun printed => "inputTokens + cacheWriteTokens + (outputTokens * "
                           +:+ printed +:+ ")") <$> numberToString rate)
  /\ (forall table m,
        table = BEDROCK_MODELS \/ table = UsWest2.BEDROCK_MODELS -> In m table ->
        (outputTokenBurndownRate m = 1%N \/ outputTokenBurndownRate m = 5%N)
        /\ numberToString (outputTokenBurndownRate m)
           = Some (pretty (outputTokenBurndownRate m)))
  /\ (outputTokenBurndownRate (modelConfig sonnetConfig) = 5%N
      /\ allProfileIds sonnetConfig = ["us.anthropic.claude-sonnet-4-5-20250929-v1:0"]
      /\ map (fun metricName =>
                sonnetStore "AWS/Bedrock" metricName
                  [("ModelId", "us.anthropic.claude-sonnet-4-5-20250929-v1:0")] 0)
             ["InputTokenCount"; "CacheWriteInputTokenCount"; "OutputTokenCount"]
         = [[1000%Z]; [0%Z]; [100%Z]]
      /\ seriesValue sonnetStore (actualConsumption (entrySeries sonnetConfig)) 0
         = Some 1500%Z).
Proof.
  intros fullModelId rate sumOf total.
  assert (Hvalue :
    seriesValue store (actualConsumption (entrySeries config)) t =
      Some (total "InputTokenCount" + total "CacheWriteInputTokenCount"
            + total "OutputTokenCount" * Z.of_N rate)%Z).
  { rewrite actualConsumption_value, !entryCounter_total. reflexivity. }
  split; [exact Hvalue | split; [| split; [| split]]].
  - intros m Hm.
    apply (entrySeries_statistic config (actualConsumption (entrySeries config)) m);
      [| exact Hm].
    right. by left.
  - intros Hsingle.
    assert (Hids : allProfileIds config = [fullModelId])
      by (by apply allProfileIds_single).
    split; [exact Hids | split].
    + rewrite Hvalue. subst total. cbv beta. rewrite Hids. cbn [map].
      rewrite !sumZ_singleton. reflexivity.
    + destruct (entrySeries_expression_text config) as [Htext _].
      rewrite Htext, Hsingle. reflexivity.
  - intros table m Htable Hm.
    pose proof (registry_rates table m Htable Hm) as Hrate.
    split; [exact Hrate |]. destruct Hrate as [-> | ->]; reflexivity.
  - repeat split; vm_compute; reflexivity.
Qed.

(** *** Aggregation over application profiles *)

(** C2: for an entry with N application profiles the identities summed are
    the full model identity followed by the N profile identifiers, and in
    every time bucket each of the three derived series first adds the
    corresponding per-identity counters over all of them: Actual
    Consumption is the summed input tokens plus the summed cache-write
    tokens plus the summed output tokens times the primary model's burndown
    rate (which is also the sum over the identities of each identity's own
    formula at that one rate), Initial Reservation is the summed input
    tokens plus the summed cache-write tokens plus the summed MaxTokens,
    and the request series is the summed invocations.  The counters are the
    [Sum] statistic of [AWS/Bedrock] [InputTokenCount],
    [CacheWriteInputTokenCount], [OutputTokenCount] and [Invocations] and of
    [Bedrock/Quotas] [MaxTokens], each with the identity as its [ModelId]
    dimension.  The Actual Consumption expression is the text the stack
    joins from the per-identity variable names.  A primary with (500, 0, 50)
    and one profile with (300, 0, 20) at burndown rate 1 give Actual
    Consumption 870. *)
Theorem aggregated_series_formula (config : DashboardConfig) :
  let ids := allProfileIds config in
  let rate := Z.of_N (outputTokenBurndownRate (modelConfig config)) in
  let sumOf namespace metricName id :=
    sumZ (store namespace metricName [("ModelId", id)] t) in
  let total namespace metricName := sumZ (map (sumOf namespace metricName) ids) in
  ids = getFullModelId (modelConfig config) (endpointType config)
        :: default [] (applicationProfileIds config)
  /\ seriesValue store (actualConsumption (entrySeries config)) t =
       Some (total "AWS/Bedrock" "InputTokenCount"
             + total "AWS/Bedrock" "CacheWriteInputTokenCount"
             + total "AWS/Bedrock" "OutputTokenCount" * rate)%Z
  /\ (total "AWS/Bedrock" "InputTokenCount"
      + total "AWS/Bedrock" "CacheWriteInputTokenCount"
      + total "AWS/Bedrock" "OutputTokenCount" * rate)%Z
     = sumZ (map (fun id =>
                    (sumOf "AWS/Bedrock" "InputTokenCount" id
                     + sumOf "AWS/Bedrock" "CacheWriteInputTokenCount" id
                     + sumOf "AWS/Bedrock" "OutputTokenCount" id * rate)%Z) ids)
  /\ seriesValue store (initialReservation (entrySeries config)) t =
       Some (total "AWS/Bedrock" "InputTokenCount"
             + total "AWS/Bedrock" "CacheWriteInputTokenCount"
             + total "Bedrock/Quotas" "MaxTokens")%Z
  /\ seriesValue store (totalInvocations (entrySeries config)) t =
       Some (total "AWS/Bedrock" "Invocations")
  /\ (forall s m,
        s = initialReservation (entrySeries config)
        \/ s = actualConsumption (entrySeries config)
        \/ s = totalInvocations (entrySeries config) ->
        readsMetric s m -> statistic m = Sum /\ period m = 1)
  /\ (hasApplicationProfiles config = true ->
      exists aux, applicationProfileIds config = Some aux
        /\ ids = getFullModelId (modelConfig config) (endpointType config) :: aux
        /\ expressionText (actualConsumption (entrySeries config))
           = aggregatedActualConsumptionText
               (partsOf "inputTokens" (allProfileMetrics config))
               (partsOf "cacheWriteTokens" (allProfileMetrics config))
               (partsOf "outputTokens" (allProfileMetrics config))
               (outputTokenBurndownRate (modelConfig config)))
  /\ (outputTokenBurndownRate (modelConfig novaAggregatedConfig) = 1%N
      /\ allProfileIds novaAggregatedConfig = ["us.amazon.nova-2-lite-v1:0"; "grjihoh0los8"]
      /\ map (fun id => map (fun metricName =>
                               novaAggregatedStore "AWS/Bedrock" metricName [("ModelId", id)] 0)
                            ["InputTokenCount"; "CacheWriteInputTokenCount"; "OutputTokenCount"])
             (allProfileIds novaAggregatedConfig)
         = [ [[500%Z]; [0%Z]; [50%Z]]; [[300%Z]; [0%Z]; [20%Z]] ]
      /\ seriesValue novaAggregatedStore
           (actualConsumption (entrySeries novaAggregatedConfig)) 0 = Some 870%Z).
Proof.
  intros ids rate sumOf total. subst ids rate.
  split; [apply allProfileIds_primary_first |].
  split; [rewrite actualConsumption_value, !entryCounter_total; reflexivity |].
  split; [exact (bucketTotal_distribute (allProfileIds config) _) |].
  split; [rewrite initialReservation_value, !entryCounter_total; reflexivity |].
  split; [rewrite totalInvocations_value, !entryCounter_total; reflexivity |].
  split; [exact (entrySeries_statistic config) |].
  split.
  - intros Hagg. destruct (entrySeries_expression_text config) as [Htext _].
    rewrite Htext, Hagg. revert Hagg. unfold hasApplicationProfiles, allProfileIds.
    destruct (applicationProfileIds config) as [[|a aux]|]; try discriminate.
    intros _. eauto.
  - repeat split; vm_compute; reflexivity.
Qed.

(** *** Initial Reservation without MaxTokens *)

(** C6: in a time bucket in which no identity of the entry has a published
    MaxTokens point, the Initial Reservation series has a value, and it is
    the input tokens plus the cache-write tokens of that bucket (each the
    [Sum] statistic of the counter, added over the entry's identities).
    The expression the stack builds is
    [inputTokens + cacheWriteTokens + maxTokens], with no branch for a
    missing counter: the value in such a bucket is the one the metrics
    store gives that expression.  With InputTokens = 1000 and
    CacheWriteTokens = 0 and no MaxTokens point the series is 1000; with a
    MaxTokens point of 4000 it is 5000. *)
Theorem initial_reservation_without_max_tokens (config : DashboardConfig) :
  let ids := allProfileIds config in
  let sumOf metricName id := sumZ (store "AWS/Bedrock" metricName [("ModelId", id)] t) in
  let total metricName := sumZ (map (sumOf metricName) ids) in
  Forall (fun id => store "Bedrock/Quotas" "MaxTokens" [("ModelId", id)] t = []) ids ->
  seriesValue store (initialReservation (entrySeries config)) t =
    Some (total "InputTokenCount" + total "CacheWriteInputTokenCount")%Z
  /\ seriesValue store (initialReservation (entrySeries config)) t <> None
  /\ (hasApplicationProfiles config = false ->
      expressionText (initialReservation (entrySeries config))
      = Some "inputTokens + cacheWriteTokens + maxTokens"
      /\ seriesValue store (initialReservation (entrySeries config)) t =
           Some (sumOf "InputTokenCount"
                   (getFullModelId (modelConfig config) (endpointType config))
                 + sumOf "CacheWriteInputTokenCount"
                     (getFullModelId (modelConfig config) (endpointType config)))%Z).
Proof.
  intros ids sumOf total Hmissing.
  assert (Hvalue :
    seriesValue store (initialReservation (entrySeries config)) t =
      Some (total "InputTokenCount" + total "CacheWriteInputTokenCount")%Z).
  { rewrite initialReservation_value, !entryCounter_total.
    rewrite (bucketTotal_missing maxTokens_field (allProfileIds config)) by exact Hmissing.
    cbn [lift2]. f_equal. rewrite Z.add_0_r. reflexivity. }
  split; [exact Hvalue | split; [rewrite Hvalue; discriminate |]].
  intros Hsingle. split.
  - destruct (entrySeries_expression_text config) as [_ Htext].
    rewrite Htext, Hsingle. reflexivity.
  - rewrite Hvalue. subst total ids. cbv beta.
    rewrite (allProfileIds_single config Hsingle). cbn [map].
    rewrite !sumZ_singleton. reflexivity.
Qed.

End Estimator.

Lemma actual_consumption_formula_witness :
  hasApplicationProfiles sonnetConfig = false
  /\ seriesValue sonnetStore (actualConsumption (entrySeries sonnetConfig)) 0 =
       Some (1000 + 0 + 100 * 5)%Z
  /\ expressionText (actualConsumption (entrySeries sonnetConfig))
     = Some "inputTokens + cacheWriteTokens + (outputTokens * 5)".
Proof.
  destruct (actual_consumption_formula sonnetStore 0 sonnetConfig)
    as (_ & _ & Hsingle & _).
  destruct Hsingle as (_ & Hvalue & Htext); [reflexivity |].
  split; [reflexivity | split].
  - rewrite Hvalue. vm_compute. reflexivity.
  - rewrite Htext. vm_compute. reflexivity.
Defined.

Lemma aggregated_series_formula_witness :
  hasApplicationProfiles novaAggregatedConfig = true
  /\ seriesValue novaAggregatedStore (actualConsumption (entrySeries novaAggregatedConfig)) 0
     = Some ((500 + 300) + (0 + 0) + (50 + 20) * 1)%Z
  /\ expressionText (actualConsumption (entrySeries novaAggregatedConfig))
     = Some ("(inputTokens + inputTokens_1) + (cacheWriteTokens + cacheWriteTokens_1)"
             +:+ " + ((outputTokens + outputTokens_1) * 1)").
Proof.
  destruct (aggregated_series_formula novaAggregatedStore 0 novaAggregatedConfig)
    as (_ & Hactual & _ & _ & _ & _ & Hagg & _).
  destruct Hagg as (aux & _ & _ & Htext); [reflexivity |].
  split; [reflexivity | split].
  - rewrite Hactual. vm_compute. reflexivity.
  - rewrite Htext. vm_compute. reflexivity.
Defined.

Lemma initial_reservation_without_max_tokens_witness :
  Forall (fun id => sonnetStore "Bedrock/Quotas" "MaxTokens" [("ModelId", id)] 0 = [])
         (allProfileIds sonnetConfig)
  /\ seriesValue sonnetStore (initialReservation (entrySeries sonnetConfig)) 0
     = Some (1000 + 0)%Z.
Proof.
  assert (Hmissing :
    Forall (fun id => sonnetStore "Bedrock/Quotas" "MaxTokens" [("ModelId", id)] 0 = [])
           (allProfileIds sonnetConfig)).
  { apply Forall_cons. split; [vm_compute; reflexivity | by apply Forall_nil]. }
  split; [exact Hmissing |].
  destruct (initial_reservation_without_max_tokens sonnetStore 0 sonnetConfig Hmissing)
    as (Hvalue & _).
  rewrite Hvalue. vm_compute. reflexivity.
Defined.

(** With a published MaxTokens point of 4000 the same bucket gives 5000. *)
Example initial_reservation_with_max_tokens :
  seriesValue sonnetStoreWithMaxTokens (initialReservation (entrySeries sonnetConfig)) 0
  = Some (1000 + 0 + 4000)%Z.
Proof. vm_compute. reflexivity. Qed.


(** ** The quota reference line *)

Lemma fillRepeat_last (series : TimeBucket -> option Z) (t0 t : TimeBucket) (v : Z) :
  series t0 = Some v ->
  (t0 <= t)%nat ->
  (forall t', (t0 < t' <= t)%nat -> series t' = None) ->
  fillRepeat series t = Some v.
Proof.
  intros Hv Hle Hgap. induction t as [|t IH].
  - assert (t0 = 0%nat) as -> by lia. simpl. rewrite Hv. reflexivity.
  - destruct (decide (t0 = S t)) as [<- | Hne].
    + destruct t0; simpl; rewrite Hv; reflexivity.
    + simpl. rewrite (Hgap (S t)) by lia. apply IH; [lia |].
      intros t' Ht'. apply Hgap. lia.
Qed.

(** The limit line of an entry shows, in every bucket after a reading of
    the token quota, the value of the latest reading. *)
Lemma tokenQuotaLine_forward_fill (store : MetricStore) (fullModelId : string)
    (t0 t : TimeBucket) (v : Z) :
  metricValue store (tokenQuotaMetric fullModelId) t0 = Some v ->
  (t0 <= t)%nat ->
  (forall t', (t0 < t' <= t)%nat ->
     store "Bedrock/Quotas" "TokenQuota" [("ModelId", fullModelId)] t' = []) ->
  seriesValue store (tokenQuotaLine fullModelId) t = Some v.
Proof.
  intros Hv Hle Hgap. unfold tokenQuotaLine, seriesValue.
  cbn [expression usingMetrics evalExpr]. apply (fillRepeat_last _ t0); [| exact Hle |].
  - rewrite lookup_singleton_eq. exact Hv.
  - intros t' Ht'. rewrite lookup_singleton_eq. unfold metricValue. cbn.
    rewrite (Hgap t' Ht'). reflexivity.
Qed.


(** ** The identity under which an entry's series are read *)

Lemma lookup_head {A : Type} (l : list A) : l !! 0%nat = head l.
Proof. by destruct l. Qed.

Lemma exprVars_foldl_EAdd (e : mexpr) (keys : list string) :
  exprVars (foldl (fun acc key => EAdd acc (EVar key)) e keys) = exprVars e ++ keys.
Proof.
  revert e. induction keys as [|k keys IH]; intros e; cbn [foldl].
  - by rewrite app_nil_r.
  - rewrite IH. cbn [exprVars]. by rewrite <- app_assoc.
Qed.

Lemma exprVars_sumOfParts (parts : list string) :
  parts <> [] -> exprVars (sumOfParts parts) = parts.
Proof.
  destruct parts as [|p rest]; [done |]. intros _.
  unfold sumOfParts. rewrite exprVars_foldl_EAdd. reflexivity.
Qed.

Lemma partsOf_head (f : UsageField) (config : DashboardConfig) :
  exists rest,
    partsOf (fieldKey f) (allProfileMetrics config) = (fieldKey f +:+ profileSuffix 0) :: rest.
Proof.
  unfold allProfileMetrics. rewrite allProfileIds_primary_first.
  cbn [imap]. unfold partsOf. cbn [map suffix]. eauto.
Qed.

(** Each series of an entry is computed from a metric of the full model
    identity: a variable its expression mentions is bound to one. *)
Lemma entrySeries_evaluates_primary (config : DashboardConfig) (s : IMetric) :
  s = initialReservation (entrySeries config) \/ s = actualConsumption (entrySeries config)
  \/ s = totalInvocations (entrySeries config) ->
  exists m, evaluatesMetric s m
            /\ dimensionsMap m
               = [("ModelId", getFullModelId (modelConfig config) (endpointType config))].
Proof.
  intros Hs. unfold entrySeries in Hs.
  destruct (hasApplicationProfiles config) eqn:Hagg.
  - assert (Hprimary : forall f,
              aggregatedUsingMetrics (allProfileMetrics config)
                !! (fieldKey f +:+ profileSuffix 0)
              = Some (fieldMetric f (createProfileMetrics
                        (getFullModelId (modelConfig config) (endpointType config))))).
    { intros f. unfold allProfileMetrics.
      rewrite aggregatedUsingMetrics_lookup, lookup_head, allProfileIds_head. reflexivity. }
    assert (Hvars : forall f,
              (fieldKey f +:+ profileSuffix 0)
              ∈ exprVars (sumOfParts (partsOf (fieldKey f) (allProfileMetrics config)))).
    { intros f. destruct (partsOf_head f config) as [rest ->].
      rewrite exprVars_sumOfParts by discriminate. by left. }
    destruct Hs as [-> | [-> | ->]];
      cbn [evaluatesMetric usingMetrics expression exprVars].
    + exists (fieldMetric inputTokens_field
                (createProfileMetrics
                   (getFullModelId (modelConfig config) (endpointType config)))).
      split; [| reflexivity].
      exists (fieldKey inputTokens_field +:+ profileSuffix 0).
      split; [| apply (Hprimary inputTokens_field)].
      apply elem_of_app. left. apply elem_of_app. left. apply (Hvars inputTokens_field).
    + exists (fieldMetric inputTokens_field
                (createProfileMetrics
                   (getFullModelId (modelConfig config) (endpointType config)))).
      split; [| reflexivity].
      exists (fieldKey inputTokens_field +:+ profileSuffix 0).
      split; [| apply (Hprimary inputTokens_field)].
      apply elem_of_app. left. apply elem_of_app. left. apply (Hvars inputTokens_field).
    + exists (fieldMetric invocations_field
                (createProfileMetrics
                   (getFullModelId (modelConfig config) (endpointType config)))).
      split; [| reflexivity].
      exists (fieldKey invocations_field +:+ profileSuffix 0).
      split; [apply (Hvars invocations_field) | apply (Hprimary invocations_field)].
  - destruct Hs as [-> | [-> | ->]];
      cbn [evaluatesMetric usingMetrics expression exprVars].
    + eexists.
      split; [exists "inputTokens"; split; [apply elem_of_cons; by left | apply lookup_insert_eq]
             | reflexivity].
    + eexists.
      split; [exists "inputTokens"; split; [apply elem_of_cons; by left | apply lookup_insert_eq]
             | reflexivity].
    + eexists. split; reflexivity.
Qed.

Lemma evaluatesMetric_reads (s : IMetric) (m : Metric) :
  evaluatesMetric s m -> readsMetric s m.
Proof. destruct s as [m' | e]; [done |]. intros (key & _ & Hkey). by exists key. Qed.

(** C10: the full model identity is the bare [modelId] for a regional
    endpoint, [us.] followed by the [modelId] for a cross-region endpoint
    and [global.] followed by the [modelId] for a global cross-region
    endpoint.  It is the first of the entry's profile identities.  The row
    of an entry has three graphs of two series each, and every one of these
    six series is computed from a metric whose [ModelId] dimension is the
    full model identity (the series is that metric, or its expression
    mentions a variable bound to it); every metric the row reads carries one of the entry's profile
    identities as its [ModelId] dimension, which for an entry without
    application profiles is the full model identity throughout. *)
Theorem getFullModelId_dimension (config : DashboardConfig) :
  let fullModelId := getFullModelId (modelConfig config) (endpointType config) in
  fullModelId =
    match endpointType config with
    | regional_ep => modelId (modelConfig config)
    | cross_region_ep => "us." +:+ modelId (modelConfig config)
    | global_cross_region_ep => "global." +:+ modelId (modelConfig config)
    end
  /\ head (allProfileIds config) = Some fullModelId
  /\ map (fun w => length (widgetSeries w)) (graphRow config) = [2; 2; 2]%nat
  /\ (forall w s, w ∈ graphRow config -> s ∈ widgetSeries w ->
        exists m, evaluatesMetric s m /\ dimensionsMap m = [("ModelId", fullModelId)])
  /\ (forall s m, evaluatesMetric s m -> readsMetric s m)
  /\ (forall w m, w ∈ graphRow config -> widgetReads w m ->
        exists id, id ∈ allProfileIds config /\ dimensionsMap m = [("ModelId", id)])
  /\ (hasApplicationProfiles config = false ->
      forall w m, w ∈ graphRow config -> widgetReads w m ->
        dimensionsMap m = [("ModelId", fullModelId)]).
Proof.
  intros fullModelId.
  assert (Hrow : forall w m, w ∈ graphRow config -> widgetReads w m ->
            exists id, id ∈ allProfileIds config /\ dimensionsMap m = [("ModelId", id)]).
  { intros w m Hw Hread. unfold graphRow in Hw.
    assert (Hfull : fullModelId ∈ allProfileIds config).
    { apply head_Some_elem_of, allProfileIds_head. }
    repeat (apply elem_of_cons in Hw as [-> | Hw]);
      [ | | | by apply elem_of_nil in Hw ];
      destruct Hread as (s & Hs & Hsm);
      (apply elem_of_cons in Hs as [-> | Hs];
       [ eapply entrySeries_reads; [ | exact Hsm]; tauto
       | apply list_elem_of_singleton in Hs as ->;
         exists fullModelId; split; [exact Hfull |];
         eapply quotaLine_reads; [ | exact Hsm]; tauto ]). }
  split; [destruct (endpointType config); reflexivity |].
  split; [apply allProfileIds_head |].
  split; [reflexivity |].
  split.
  { intros w s Hw Hs. unfold graphRow in Hw.
    assert (Hquota : forall q, q = tokenQuotaLine fullModelId \/ q = requestQuotaLine fullModelId ->
              exists m, evaluatesMetric q m /\ dimensionsMap m = [("ModelId", fullModelId)]).
    { intros q [-> | ->]; eexists;
        (split; [eexists; split; [by left | apply lookup_singleton_eq] | reflexivity]). }
    repeat (apply elem_of_cons in Hw as [-> | Hw]);
      [ | | | by apply elem_of_nil in Hw ];
      cbn [widgetSeries] in Hs;
      (apply elem_of_cons in Hs as [-> | Hs];
       [ apply entrySeries_evaluates_primary; tauto
       | apply list_elem_of_singleton in Hs as ->; apply Hquota; tauto ]). }
  split; [exact evaluatesMetric_reads |].
  split; [exact Hrow |].
  intros Hsingle w m Hw Hread.
  destruct (Hrow w m Hw Hread) as (id & Hid & Hdim).
  rewrite allProfileIds_single in Hid by exact Hsingle.
  apply list_elem_of_singleton in Hid as ->. exact Hdim.
Qed.

Lemma getFullModelId_dimension_witness :
  exists m,
    evaluatesMetric (actualConsumption (entrySeries novaAggregatedConfig)) m
    /\ dimensionsMap m = [("ModelId", "us.amazon.nova-2-lite-v1:0")].
Proof.
  destruct (getFullModelId_dimension novaAggregatedConfig) as (_ & _ & _ & Hseries & _).
  apply (Hseries
           (GraphWidget
              ("us.amazon.nova-2-lite-v1:0" +:+ " - Actual Consumption"
               +:+ titleSuffix novaAggregatedConfig)
              [actualConsumption (entrySeries novaAggregatedConfig);
               tokenQuotaLine "us.amazon.nova-2-lite-v1:0"] 8 6
              {| axis_label := "Quota Units (Tokens/min) - Does not include ongoing requests";
                 axis_min := 0 |} 1)).
  - right. left.
  - left.
Defined.


(** ** Isolation of query failures in the fetcher *)

Lemma refreshIdentifier_app (service : LimitsService) (kind modelId : string)
    (code : option string) (st : FetcherState) :
  let alone := refreshIdentifier service kind modelId code emptyFetcherState in
  published (refreshIdentifier service kind modelId code st) = published st ++ published alone
  /\ fetcherLog (refreshIdentifier service kind modelId code st)
     = fetcherLog st ++ fetcherLog alone.
Proof.
  unfold refreshIdentifier. destruct code as [code|]; simpl.
  - destruct (service code); simpl; rewrite ?app_nil_r; auto.
  - rewrite !app_nil_r. auto.
Qed.

Lemma refreshTuple_app (service : LimitsService) (st : FetcherState) (m : FetcherModel.t) :
  published (refreshTuple service st m)
    = published st ++ published (refreshTuple service emptyFetcherState m)
  /\ fetcherLog (refreshTuple service st m)
     = fetcherLog st ++ fetcherLog (refreshTuple service emptyFetcherState m).
Proof.
  unfold refreshTuple.
  destruct (refreshIdentifier_app service "RequestQuota" (FetcherModel.modelId m)
              (FetcherModel.requestQuotaCode m)
              (refreshIdentifier service "TokenQuota" (FetcherModel.modelId m)
                 (FetcherModel.tokenQuotaCode m) st)) as [Hp1 Hl1].
  destruct (refreshIdentifier_app service "RequestQuota" (FetcherModel.modelId m)
              (FetcherModel.requestQuotaCode m)
              (refreshIdentifier service "TokenQuota" (FetcherModel.modelId m)
                 (FetcherModel.tokenQuotaCode m) emptyFetcherState)) as [Hp2 Hl2].
  destruct (refreshIdentifier_app service "TokenQuota" (FetcherModel.modelId m)
              (FetcherModel.tokenQuotaCode m) st) as [Hp3 Hl3].
  rewrite Hp1, Hl1, Hp2, Hl2, Hp3, Hl3, <- !app_assoc. auto.
Qed.

Lemma refresh_foldl (service : LimitsService) (models : list FetcherModel.t)
    (st : FetcherState) :
  published (foldl (refreshTuple service) st models)
    = published st
      ++ concat (map (fun m => published (refreshTuple service emptyFetcherState m)) models)
  /\ fetcherLog (foldl (refreshTuple service) st models)
     = fetcherLog st
       ++ concat (map (fun m => fetcherLog (refreshTuple service emptyFetcherState m)) models).
Proof.
  revert st. induction models as [|m models IH]; intros st; simpl.
  - rewrite !app_nil_r. auto.
  - destruct (IH (refreshTuple service st m)) as [Hp Hl].
    destruct (refreshTuple_app service st m) as [Hp' Hl'].
    rewrite Hp, Hl, Hp', Hl', <- !app_assoc. auto.
Qed.

Lemma refreshTuple_succeeds (service : LimitsService) (m : FetcherModel.t) :
  tupleFails service m = false ->
  published (refreshTuple service emptyFetcherState m) = expectedPoints service m
  /\ fetcherLog (refreshTuple service emptyFetcherState m) = [].
Proof.
  unfold tupleFails, refreshTuple, refreshIdentifier, expectedPoints.
  destruct (FetcherModel.tokenQuotaCode m) as [tc|],
           (FetcherModel.requestQuotaCode m) as [rc|]; simpl;
    repeat match goal with
           | |- context [service ?c] => destruct (service c); simpl
           end;
    try discriminate; auto.
Qed.

(** C9, spec-modelled: the points and the log of a refresh are the
    concatenation, in batch order, of what each tuple publishes and logs on
    its own, so a failing query changes nothing for the other tuples: every
    tuple of the batch whose queries succeed publishes its limit points and
    logs nothing, whatever happens to the others, and every log line belongs
    to a tuple that has a failing query.  With three tuples of which the
    second one's query throws, the first and the third publish their two
    points each and the log holds the single failure of the second. *)
Theorem refresh_isolates_failures (service : LimitsService) (models : list FetcherModel.t) :
  published (refresh service models)
    = concat (map (fun m => published (refreshTuple service emptyFetcherState m)) models)
  /\ fetcherLog (refresh service models)
     = concat (map (fun m => fetcherLog (refreshTuple service emptyFetcherState m)) models)
  /\ (forall m, m ∈ models -> tupleFails service m = false ->
        published (refreshTuple service emptyFetcherState m) = expectedPoints service m
        /\ forall p, p ∈ expectedPoints service m -> p ∈ published (refresh service models))
  /\ (forall line, line ∈ fetcherLog (refresh service models) ->
        exists m, m ∈ models /\ tupleFails service m = true
                  /\ line ∈ fetcherLog (refreshTuple service emptyFetcherState m))
  /\ (map (tupleFails failingService) threeTuples = [false; true; false]
      /\ map point_modelId (published (refresh failingService threeTuples))
         = [ "us.amazon.nova-2-lite-v1:0"; "us.amazon.nova-2-lite-v1:0";
             "global.anthropic.claude-sonnet-4-5-20250929-v1:0";
             "global.anthropic.claude-sonnet-4-5-20250929-v1:0" ]
      /\ length (fetcherLog (refresh failingService threeTuples)) = 1%nat).
Proof.
  destruct (refresh_foldl service models emptyFetcherState) as [Hp Hl].
  simpl in Hp, Hl. fold (refresh service models) in Hp, Hl.
  split; [exact Hp |]. split; [exact Hl |]. split; [| split].
  - intros m Hm Hok. destruct (refreshTuple_succeeds service m Hok) as [Hpoints _].
    split; [exact Hpoints |]. intros p Hp'. rewrite Hp.
    apply list_elem_of_In, in_concat. exists (expectedPoints service m).
    split; [| by apply list_elem_of_In].
    apply in_map_iff. exists m. split; [exact Hpoints | by apply list_elem_of_In].
  - intros line Hline. rewrite Hl in Hline.
    apply list_elem_of_In, in_concat in Hline as (lines & Hlines & Hin).
    apply in_map_iff in Hlines as (m & <- & Hm). exists m.
    split; [by apply list_elem_of_In |].
    destruct (tupleFails service m) eqn:Hfail.
    + split; [reflexivity | by apply list_elem_of_In].
    + destruct (refreshTuple_succeeds service m Hfail) as [_ Hnil].
      rewrite Hnil in Hin. destruct Hin.
  - repeat split; vm_compute; reflexivity.
Qed.

Lemma refresh_isolates_failures_witness :
  {| point_metricName := "RequestQuota";
     point_modelId := "global.anthropic.claude-sonnet-4-5-20250929-v1:0";
     point_value := 1000000 |}
  ∈ published (refresh failingService threeTuples).
Proof.
  destruct (refresh_isolates_failures failingService threeTuples) as (_ & _ & Hok & _).
  apply (Hok {| FetcherModel.modelId := "global.anthropic.claude-sonnet-4-5-20250929-v1:0";
                FetcherModel.tokenQuotaCode := Some "L-27C57EE8";
                FetcherModel.requestQuotaCode := Some "L-DB84CE56" |}).
  - do 2 right. left.
  - reflexivity.
  - right. left.
Defined.


(** * Further properties of the sources *)

(** ** Registry helpers *)

Lemma truthy_str_Some (o : option string) :
  truthy_str o = true <-> exists c, o = Some c /\ c <> str_empty.
Proof.
  destruct o as [[|ch s]|]; simpl; split; try discriminate; try reflexivity.
  - intros (c & [= <-] & Hc). by destruct Hc.
  - intros _. eexists. split; [reflexivity | discriminate].
  - intros (c & [=] & _).
Qed.

Lemma truthy_or_absent (o : option string) (c : string) :
  (if truthy_str o then o else None) = Some c <-> o = Some c /\ c <> str_empty.
Proof.
  destruct (truthy_str o) eqn:H.
  - apply truthy_str_Some in H as (c' & -> & Hne). split.
    + intros [= <-]. auto.
    + intros [[= <-] _]. reflexivity.
  - split; [discriminate |]. intros [-> Hne].
    assert (truthy_str (Some c) = true) by (apply truthy_str_Some; eauto). congruence.
Qed.

(** X1: the two code getters never return the empty string; each returns a
    code exactly when the lookup for the endpoint yields a pair that holds
    that code non-empty, and both are absent when the lookup is absent.  A
    pair passes [validateQuotaCodes] without a warning exactly when both
    getters return a code. *)
Theorem quota_code_getters (m : ModelConfig) (k : EndpointType) :
  getTokenQuotaCode m k <> Some str_empty
  /\ getRequestQuotaCode m k <> Some str_empty
  /\ (forall c, getTokenQuotaCode m k = Some c <->
        exists qc, getQuotaCodes m k = Some qc /\ tokenQuotaCode qc = Some c /\ c <> str_empty)
  /\ (forall c, getRequestQuotaCode m k = Some c <->
        exists qc, getQuotaCodes m k = Some qc /\ requestQuotaCode qc = Some c
                   /\ c <> str_empty)
  /\ (getQuotaCodes m k = None ->
      getTokenQuotaCode m k = None /\ getRequestQuotaCode m k = None)
  /\ (forall qc, getQuotaCodes m k = Some qc ->
        (validateQuotaCodes qc (modelId m) = [] <->
         is_Some (getTokenQuotaCode m k) /\ is_Some (getRequestQuotaCode m k))).
Proof.
  unfold getTokenQuotaCode, getRequestQuotaCode.
  destruct (getQuotaCodes m k) as [qc|] eqn:Hqc.
  - pose proof (truthy_or_absent (tokenQuotaCode qc)) as Htok.
    pose proof (truthy_or_absent (requestQuotaCode qc)) as Hreq.
    split; [intros H; apply Htok in H as [_ H]; by destruct H |].
    split; [intros H; apply Hreq in H as [_ H]; by destruct H |].
    split; [intros c; rewrite Htok; split;
            [intros [? ?]; exists qc; auto | intros (qc' & [= <-] & ? & ?); auto] |].
    split; [intros c; rewrite Hreq; split;
            [intros [? ?]; exists qc; auto | intros (qc' & [= <-] & ? & ?); auto] |].
    split; [discriminate |].
    intros qc' [= <-]. unfold validateQuotaCodes.
    destruct (truthy_str (tokenQuotaCode qc)) eqn:Ht,
             (truthy_str (requestQuotaCode qc)) eqn:Hr; simpl.
    + apply truthy_str_Some in Ht as (c1 & -> & _).
      apply truthy_str_Some in Hr as (c2 & -> & _). split; eauto.
    + split; [discriminate | intros [_ [c [=]]]].
    + split; [discriminate | intros [[c [=]] _]].
    + split; [discriminate | intros [[c [=]] _]].
  - split; [discriminate |]. split; [discriminate |].
    split; [intros c; split; [discriminate | intros (qc & [=] & _)] |].
    split; [intros c; split; [discriminate | intros (qc & [=] & _)] |].
    split; [auto |]. intros qc [=].
Qed.

Lemma quota_code_getters_witness :
  getTokenQuotaCode UsEast1.AMAZON.NOVA_CANVAS_V1 regional_ep = None
  /\ getRequestQuotaCode UsEast1.AMAZON.NOVA_CANVAS_V1 regional_ep = Some "L-3F26CE29".
Proof.
  destruct (quota_code_getters UsEast1.AMAZON.NOVA_CANVAS_V1 regional_ep)
    as (_ & _ & _ & Hreq & _).
  split; [reflexivity |]. apply Hreq. eexists. repeat split. discriminate.
Defined.


Lemma validateQuotaCodes_nil (qc : QuotaCodes) (id : string) :
  validateQuotaCodes qc id = [] <->
  truthy_str (tokenQuotaCode qc) = true /\ truthy_str (requestQuotaCode qc) = true.
Proof.
  unfold validateQuotaCodes.
  destruct (truthy_str (tokenQuotaCode qc)), (truthy_str (requestQuotaCode qc)); simpl;
    split; try discriminate; try tauto; intros [? ?]; discriminate.
Qed.

Lemma validateQuotaCodes_length (qc : QuotaCodes) (id : string) :
  (length (validateQuotaCodes qc id) <= 1)%nat.
Proof.
  unfold validateQuotaCodes.
  destruct (truthy_str (tokenQuotaCode qc)), (truthy_str (requestQuotaCode qc)); simpl; lia.
Qed.

Lemma flat_map_nil {A B : Type} (f : A -> list B) (l : list A) :
  flat_map f l = [] <-> forall x, In x l -> f x = [].
Proof.
  induction l as [|a l IH]; simpl.
  - split; [intros _ x [] | reflexivity].
  - split.
    + intros H. apply app_eq_nil in H as [Ha Hl]. intros x [<- | Hx]; [exact Ha |].
      by apply IH.
    + intros H. rewrite (H a) by auto. apply IH. auto.
Qed.

Lemma flat_map_length_le {A B : Type} (f : A -> list B) (l : list A) :
  (forall x, length (f x) <= 1)%nat -> (length (flat_map f l) <= length l)%nat.
Proof.
  intros Hf. induction l as [|a l IH]; simpl; [lia |].
  rewrite length_app. specialize (Hf a). lia.
Qed.

(** X2: [createModelConfig] returns its argument unchanged and logs at most
    one warning per supported endpoint.  It logs nothing exactly when every
    supported endpoint that has a quota property holds both codes non-empty:
    a supported endpoint without a quota property is passed over in
    silence, and a quota property of an endpoint that is not listed as
    supported is never looked at. *)
Theorem createModelConfig_warnings (config : ModelConfig) :
  (createModelConfig config).2 = config
  /\ (length (createModelConfig config).1 <= length (supportedEndpoints config))%nat
  /\ ((createModelConfig config).1 = [] <->
      forall k qc, k ∈ supportedEndpoints config -> getQuotaCodes config k = Some qc ->
        truthy_str (tokenQuotaCode qc) = true /\ truthy_str (requestQuotaCode qc) = true).
Proof.
  unfold createModelConfig. cbn [fst snd].
  split; [reflexivity |]. split.
  - apply flat_map_length_le. intros k.
    destruct (getQuotaCodes config k) as [qc|]; [| simpl; lia].
    rewrite length_map. apply validateQuotaCodes_length.
  - rewrite flat_map_nil. split.
    + intros H k qc Hk Hqc. specialize (H k (proj1 (list_elem_of_In _ _) Hk)).
      rewrite Hqc in H. apply map_eq_nil in H. by apply validateQuotaCodes_nil in H.
    + intros H k Hk. destruct (getQuotaCodes config k) as [qc|] eqn:Hqc; [| reflexivity].
      apply list_elem_of_In in Hk.
      rewrite (proj2 (validateQuotaCodes_nil qc (modelId config)) (H k qc Hk Hqc)).
      reflexivity.
Qed.

Lemma createModelConfig_warnings_witness :
  (createModelConfig modelWithoutCodes).1 = [].
Proof.
  destruct (createModelConfig_warnings modelWithoutCodes) as (_ & _ & Hsilent).
  apply Hsilent. intros k qc Hk Hqc.
  apply list_elem_of_singleton in Hk as ->. discriminate Hqc.
Defined.


(** ** The dashboard's rows *)

Lemma isBannerRow_graphRow (config : DashboardConfig) : isBannerRow (graphRow config) = false.
Proof. reflexivity. Qed.

Lemma graphRows_spec_layout (previous : option string) (configs : list DashboardConfig) :
  graphRows (spec_layout previous configs) = map graphRow configs.
Proof.
  revert previous. induction configs as [|c configs IH]; intros previous; [reflexivity |].
  cbn [spec_layout map]. unfold graphRows in *.
  destruct (bool_decide (Some _ = previous)); cbn [app].
  - rewrite filter_cons_True by reflexivity. by rewrite IH.
  - rewrite filter_cons_False by (unfold bannerRow; simpl; discriminate).
    rewrite filter_cons_True by reflexivity. by rewrite IH.
Qed.

Lemma renderConfig_skipped (configs : list DashboardConfig) (st : RenderState) :
  modelsWithMissingQuotas (foldl renderConfig st configs) =
    modelsWithMissingQuotas st
    ++ map skippedLabel (filter (fun c => hasQuotaCodes c = false) configs).
Proof.
  revert st. induction configs as [|c configs IH]; intros st.
  - simpl. by rewrite app_nil_r.
  - cbn [foldl]. rewrite IH. unfold renderConfig.
    destruct (getQuotaCodes (modelConfig c) (endpointType c)) as [qc|] eqn:Hqc.
    + rewrite filter_cons_False; [reflexivity |].
      unfold hasQuotaCodes. rewrite Hqc. rewrite bool_decide_eq_true_2 by eauto. discriminate.
    + rewrite filter_cons_True.
      * cbn [modelsWithMissingQuotas map]. rewrite <- app_assoc. reflexivity.
      * unfold hasQuotaCodes. rewrite Hqc. apply bool_decide_eq_false_2. intros [? [=]].
Qed.

Lemma filter_partition_length (configs : list DashboardConfig) :
  (length (filter (fun c => hasQuotaCodes c = true) configs)
   + length (filter (fun c => hasQuotaCodes c = false) configs))%nat = length configs.
Proof.
  induction configs as [|c configs IH]; [reflexivity |].
  destruct (hasQuotaCodes c) eqn:Hc.
  - rewrite filter_cons_True, filter_cons_False by congruence. simpl. lia.
  - rewrite filter_cons_False, filter_cons_True by congruence. simpl. lia.
Qed.

(** X3: the renderer accounts for every entry: the rows of graphs are the
    rows of the entries that have quota codes, in order; the skipped list
    names the entries without quota codes, in order; the two together make
    up the whole list, so the number of created widgets that the summary
    computes as configured minus skipped is the number of rows of graphs on
    the dashboard. *)
Theorem render_accounts_for_every_entry (configs : list DashboardConfig) :
  let st := renderDashboard configs in
  graphRows (dashboardRows st) = map graphRow (filter (fun c => hasQuotaCodes c = true) configs)
  /\ modelsWithMissingQuotas st
     = map skippedLabel (filter (fun c => hasQuotaCodes c = false) configs)
  /\ (length (graphRows (dashboardRows st)) + length (modelsWithMissingQuotas st))%nat
     = length configs
  /\ (length configs - length (modelsWithMissingQuotas st))%nat
     = length (graphRows (dashboardRows st)).
Proof.
  intros st. subst st.
  assert (Hrows : graphRows (dashboardRows (renderDashboard configs))
                  = map graphRow (filter (fun c => hasQuotaCodes c = true) configs)).
  { unfold renderDashboard. rewrite renderDashboard_rows. simpl.
    apply graphRows_spec_layout. }
  assert (Hskipped : modelsWithMissingQuotas (renderDashboard configs)
                     = map skippedLabel (filter (fun c => hasQuotaCodes c = false) configs)).
  { unfold renderDashboard. rewrite renderConfig_skipped. reflexivity. }
  pose proof (filter_partition_length configs) as Hlen.
  rewrite Hrows, Hskipped, !length_map. repeat split; lia.
Qed.


Lemma spec_layout_rows (previous : option string) (configs : list DashboardConfig)
    (row : list Widget) :
  row ∈ spec_layout previous configs ->
  (exists family, row = bannerRow family) \/ (exists config, config ∈ configs /\ row = graphRow config).
Proof.
  revert previous. induction configs as [|c configs IH]; intros previous Hrow.
  - by apply elem_of_nil in Hrow.
  - cbn [spec_layout] in Hrow.
    apply elem_of_app in Hrow as [Hrow | Hrow].
    + destruct (bool_decide (Some _ = previous)); [by apply elem_of_nil in Hrow |].
      apply list_elem_of_singleton in Hrow. eauto.
    + apply elem_of_cons in Hrow as [-> | Hrow].
      * right. exists c. split; [by left | reflexivity].
      * destruct (IH _ Hrow) as [? | (c' & Hc' & ->)]; [by left |].
        right. exists c'. split; [by right | reflexivity].
Qed.

(** X4: every row the renderer adds fills the 24 columns of the dashboard
    grid with widgets of one height: a banner row is a single text widget
    24 wide and 1 high, a row of an entry is three graphs 8 wide and 6 high
    that carry two series each, the entry's series first and its limit line
    second: Initial Reservation and Actual Consumption are each followed by
    the token limit line of the entry's full model identity, the
    invocations by its request limit line. *)
Theorem rows_fill_the_grid (configs : list DashboardConfig) (row : list Widget) :
  row ∈ dashboardRows (renderDashboard configs) ->
  rowWidth row = 24%nat
  /\ (isBannerRow row = true -> map widgetWidth row = [24%nat] /\ map widgetHeight row = [1%nat])
  /\ (isBannerRow row = false ->
      map widgetWidth row = [8; 8; 8]%nat /\ map widgetHeight row = [6; 6; 6]%nat
      /\ map (fun w => length (widgetSeries w)) row = [2; 2; 2]%nat
      /\ exists config,
           config ∈ configs
           /\ map widgetSeries row =
                [ [initialReservation (entrySeries config);
                   tokenQuotaLine (getFullModelId (modelConfig config) (endpointType config))];
                  [actualConsumption (entrySeries config);
                   tokenQuotaLine (getFullModelId (modelConfig config) (endpointType config))];
                  [totalInvocations (entrySeries config);
                   requestQuotaLine (getFullModelId (modelConfig config) (endpointType config))] ]).
Proof.
  unfold renderDashboard. rewrite renderDashboard_rows. simpl. intros Hrow.
  apply spec_layout_rows in Hrow as [(family & ->) | (config & Hconfig & ->)].
  - repeat split; discriminate.
  - apply list_elem_of_filter in Hconfig as [_ Hconfig].
    split; [reflexivity |]. split; [discriminate |]. intros _.
    split; [reflexivity |]. split; [reflexivity |]. split; [reflexivity |].
    exists config. split; [exact Hconfig | reflexivity].
Qed.

Lemma rows_fill_the_grid_witness :
  rowWidth (graphRow sonnetConfig) = 24%nat
  /\ exists config,
       config ∈ [sonnetConfig]
       /\ map widgetSeries (graphRow sonnetConfig) =
            [ [initialReservation (entrySeries config);
               tokenQuotaLine (getFullModelId (modelConfig config) (endpointType config))];
              [actualConsumption (entrySeries config);
               tokenQuotaLine (getFullModelId (modelConfig config) (endpointType config))];
              [totalInvocations (entrySeries config);
               requestQuotaLine (getFullModelId (modelConfig config) (endpointType config))] ].
Proof.
  destruct (rows_fill_the_grid [sonnetConfig] (graphRow sonnetConfig))
    as (Hwidth & _ & Hgraphs).
  - vm_compute. right. left.
  - split; [exact Hwidth |].
    destruct Hgraphs as (_ & _ & _ & Hseries); [reflexivity | exact Hseries].
Defined.

Lemma bannersLeadGraphs_spec_layout (previous : option string)
    (configs : list DashboardConfig) :
  bannersLeadGraphs (spec_layout previous configs) = true.
Proof.
  revert previous. induction configs as [|c configs IH]; intros previous; [reflexivity |].
  cbn [spec_layout]. destruct (bool_decide (Some _ = previous)); cbn [app].
  - cbn [bannersLeadGraphs]. rewrite isBannerRow_graphRow. apply IH.
  - cbn [bannersLeadGraphs]. rewrite isBannerRow_graphRow.
    change (isBannerRow (bannerRow _)) with true. cbn. apply IH.
Qed.

Lemma banner_count_spec_layout (previous : option string) (configs : list DashboardConfig) :
  (length (filter (fun row => isBannerRow row = true) (spec_layout previous configs))
   <= length configs)%nat.
Proof.
  revert previous. induction configs as [|c configs IH]; intros previous; [simpl; lia |].
  cbn [spec_layout]. destruct (bool_decide (Some _ = previous)); cbn [app].
  - rewrite filter_cons_False by (rewrite isBannerRow_graphRow; discriminate).
    specialize (IH (Some (getModelFamily (modelId (modelConfig c))))). simpl. lia.
  - rewrite filter_cons_True by reflexivity.
    rewrite filter_cons_False by (rewrite isBannerRow_graphRow; discriminate).
    specialize (IH (Some (getModelFamily (modelId (modelConfig c))))). simpl. lia.
Qed.

(** X5: on every dashboard a banner is immediately followed by a row of
    graphs, so no family is announced without an entry, two banners never
    touch and the dashboard never ends with a banner; a dashboard that has
    rows starts with a banner, and it has at most as many banners as rows of
    graphs. *)
Theorem banners_lead_graphs (configs : list DashboardConfig) :
  let rows := dashboardRows (renderDashboard configs) in
  bannersLeadGraphs rows = true
  /\ (rows <> [] -> exists row, head rows = Some row /\ isBannerRow row = true)
  /\ (length (filter (fun row => isBannerRow row = true) rows) <= length (graphRows rows))%nat.
Proof.
  intros rows. subst rows. unfold renderDashboard. rewrite renderDashboard_rows. simpl.
  split; [apply bannersLeadGraphs_spec_layout |]. split.
  - destruct (filter _ configs) as [|c cs]; [done |]. intros _.
    cbn [spec_layout]. rewrite bool_decide_eq_false_2 by discriminate.
    eexists. split; reflexivity.
  - rewrite graphRows_spec_layout, length_map. apply banner_count_spec_layout.
Qed.

Lemma banners_lead_graphs_witness :
  exists row, head (dashboardRows (renderDashboard allDashboardConfigs)) = Some row
              /\ isBannerRow row = true.
Proof.
  destruct (banners_lead_graphs allDashboardConfigs) as (_ & Hhead & _).
  apply Hhead. vm_compute. discriminate.
Defined.


(** ** The variables of the expressions *)

Lemma allProfileMetrics_nonempty (config : DashboardConfig) : allProfileMetrics config <> [].
Proof.
  unfold allProfileMetrics. pose proof (allProfileIds_head config) as Hhead.
  destruct (allProfileIds config); [discriminate | done].
Qed.

Lemma partsOf_nonempty (name : string) (config : DashboardConfig) :
  partsOf name (allProfileMetrics config) <> [].
Proof.
  pose proof (allProfileMetrics_nonempty config) as Hne. unfold partsOf.
  destruct (allProfileMetrics config); [done | discriminate].
Qed.

Lemma partsOf_registered (f : UsageField) (config : DashboardConfig) (key : string) :
  key ∈ partsOf (fieldKey f) (allProfileMetrics config) ->
  is_Some (aggregatedUsingMetrics (allProfileMetrics config) !! key).
Proof.
  unfold allProfileMetrics. rewrite partsOf_imap. intros Hkey.
  apply list_elem_of_lookup in Hkey as [i Hi].
  rewrite list_lookup_imap in Hi.
  destruct (allProfileIds config !! i) as [id|] eqn:Hid; [| discriminate].
  injection Hi as <-.
  rewrite aggregatedUsingMetrics_lookup, Hid. by eexists.
Qed.

Lemma entrySeries_closed (config : DashboardConfig) :
  seriesClosed (initialReservation (entrySeries config))
  /\ seriesClosed (actualConsumption (entrySeries config))
  /\ seriesClosed (totalInvocations (entrySeries config)).
Proof.
  unfold entrySeries. destruct (hasApplicationProfiles config).
  - cbn [initialReservation actualConsumption totalInvocations seriesClosed expression
         usingMetrics exprVars].
    rewrite !exprVars_sumOfParts by apply partsOf_nonempty. rewrite app_nil_r.
    fold_field_keys.
    repeat split; intros id Hid;
      repeat (apply elem_of_app in Hid as [Hid | Hid]);
      by eapply partsOf_registered.
  - cbn [initialReservation actualConsumption totalInvocations seriesClosed expression
         usingMetrics exprVars app].
    repeat split; try done; intros id Hid;
      repeat (apply elem_of_cons in Hid as [-> | Hid]);
      try (by apply elem_of_nil in Hid); by eexists.
Qed.

(** X6: every variable that a graph's expression mentions is a key of
    that expression's own metrics map, for the single-identity and the
    aggregated expressions and for the two limit lines alike; no series of
    the dashboard refers to a metric it does not declare. *)
Theorem dashboard_expressions_closed (configs : list DashboardConfig)
    (row : list Widget) (w : Widget) (s : IMetric) :
  row ∈ dashboardRows (renderDashboard configs) ->
  w ∈ row ->
  s ∈ widgetSeries w ->
  seriesClosed s.
Proof.
  unfold renderDashboard. rewrite renderDashboard_rows. simpl. intros Hrow Hw Hs.
  apply spec_layout_rows in Hrow as [(family & ->) | (config & _ & ->)].
  - apply list_elem_of_singleton in Hw as ->. by apply elem_of_nil in Hs.
  - destruct (entrySeries_closed config) as (Hinit & Hactual & Hinv).
    assert (Hquota : forall q, q = tokenQuotaLine (getFullModelId (modelConfig config)
                                                     (endpointType config))
                               \/ q = requestQuotaLine (getFullModelId (modelConfig config)
                                                          (endpointType config)) ->
                               seriesClosed q).
    { intros q [-> | ->]; unfold tokenQuotaLine, requestQuotaLine;
        cbn [seriesClosed expression usingMetrics exprVars];
        intros id Hid; apply list_elem_of_singleton in Hid as ->;
        rewrite lookup_singleton_eq; by eexists. }
    unfold graphRow in Hw.
    repeat (apply elem_of_cons in Hw as [-> | Hw]); [ | | | by apply elem_of_nil in Hw ];
      cbn [widgetSeries] in Hs;
      (apply elem_of_cons in Hs as [-> | Hs];
       [ assumption | apply list_elem_of_singleton in Hs as ->; apply Hquota; tauto ]).
Qed.

Lemma dashboard_expressions_closed_witness :
  seriesClosed (actualConsumption (entrySeries novaAggregatedConfig)).
Proof.
  apply (dashboard_expressions_closed [novaAggregatedConfig] (graphRow novaAggregatedConfig)
           (GraphWidget
              (getFullModelId (modelConfig novaAggregatedConfig)
                 (endpointType novaAggregatedConfig)
               +:+ " - Actual Consumption" +:+ titleSuffix novaAggregatedConfig)
              [actualConsumption (entrySeries novaAggregatedConfig);
               tokenQuotaLine (getFullModelId (modelConfig novaAggregatedConfig)
                                 (endpointType novaAggregatedConfig))] 8 6
              {| axis_label := "Quota Units (Tokens/min) - Does not include ongoing requests";
                 axis_min := 0 |} 1)).
  - vm_compute. right. left.
  - right. left.
  - left.
Defined.

Lemma registerProfile_size (m0 : gmap string Metric) (p : ProfileEntry) (j : nat) :
  suffix p = profileSuffix j ->
  (forall f, m0 !! (fieldKey f +:+ profileSuffix j) = None) ->
  size (registerProfile m0 p) = (5 + size m0)%nat.
Proof.
  intros Hp Hfresh. unfold registerProfile. rewrite Hp. fold_field_keys.
  repeat (rewrite map_size_insert_None;
          [| repeat (rewrite lookup_insert_ne
                       by (intros H; apply fieldKey_suffix_inj in H as [[=] _]));
             apply Hfresh]).
  reflexivity.
Qed.

Lemma aggregatedUsingMetrics_size (ids : list string) :
  size (aggregatedUsingMetrics
          (imap (fun index id =>
                   {| profile_id := id; metrics := createProfileMetrics id;
                      suffix := profileSuffix index |}) ids))
  = (5 * length ids)%nat.
Proof.
  induction ids as [|id ids IH] using rev_ind; [reflexivity |].
  pose proof (aggregatedUsingMetrics_lookup ids) as Hlookup.
  unfold aggregatedUsingMetrics in *.
  rewrite imap_app. cbn [imap]. rewrite foldl_snoc.
  rewrite (registerProfile_size _ _ (length ids + 0)); [| reflexivity |].
  - rewrite IH, length_app. simpl. lia.
  - intros f. rewrite Hlookup. rewrite Nat.add_0_r.
    rewrite (lookup_ge_None_2 ids (length ids)) by lia. reflexivity.
Qed.

(** X7: the variable names of an aggregated expression never collide: the
    metrics map built for an entry holds exactly five metrics per profile
    identity, whatever the identities are (also when one identity is listed
    twice), and the name of a counter of the identity at position [i] leads
    to that identity's metric. *)
Theorem aggregated_variables_distinct (config : DashboardConfig) :
  size (aggregatedUsingMetrics (allProfileMetrics config))
  = (5 * length (allProfileIds config))%nat
  /\ (forall f i, aggregatedUsingMetrics (allProfileMetrics config)
                    !! (fieldKey f +:+ profileSuffix i)
                  = (fun id => fieldMetric f (createProfileMetrics id))
                      <$> allProfileIds config !! i)
  /\ (forall f g i j,
        fieldKey f +:+ profileSuffix i = fieldKey g +:+ profileSuffix j -> f = g /\ i = j).
Proof.
  split; [apply aggregatedUsingMetrics_size |].
  split; [intros f i; apply aggregatedUsingMetrics_lookup |].
  intros f g i j. apply fieldKey_suffix_inj.
Qed.

Lemma aggregated_variables_distinct_witness :
  size (aggregatedUsingMetrics (allProfileMetrics novaAggregatedConfig)) = 10%nat.
Proof.
  destruct (aggregated_variables_distinct novaAggregatedConfig) as (Hsize & _).
  rewrite Hsize. reflexivity.
Defined.


(** ** The fetcher lists and the dashboard *)

Lemma hasQuotaCodes_fetcherTuple (config : DashboardConfig) :
  hasQuotaCodes config = true <-> is_Some (fetcherTuple config).
Proof.
  unfold hasQuotaCodes, fetcherTuple. rewrite bool_decide_eq_true.
  destruct (getQuotaCodes (modelConfig config) (endpointType config));
    split; intros [? ?]; try discriminate; by eexists.
Qed.

Lemma fetcherTuple_filter (configs : list DashboardConfig) :
  Forall2 (fun m config => fetcherTuple config = Some m)
    (omap fetcherTuple configs) (filter (fun c => hasQuotaCodes c = true) configs).
Proof.
  induction configs as [|c configs IH]; [constructor |].
  rewrite filter_hasQuotaCodes_cons. cbn [omap list_omap].
  fold (omap fetcherTuple configs).
  destruct (fetcherTuple c) as [m|] eqn:Hm.
  - rewrite (proj2 (hasQuotaCodes_fetcherTuple c)) by (rewrite Hm; by eexists).
    constructor; assumption.
  - destruct (hasQuotaCodes c) eqn:Hc; [| exact IH].
    apply hasQuotaCodes_fetcherTuple in Hc as [? Hc]. congruence.
Qed.

(** X8: the fetcher lists and the dashboard cover the same entries in the
    same order: there is one tuple per row of graphs, and the tuple at a
    position names the identity whose token and request limit lines the row
    at that position draws, with the quota codes the registry gives for the
    row's entry. *)
Theorem fetcher_matches_dashboard (configs : list DashboardConfig) :
  let models := (eventBridgeModels configs).1 in
  let rows := graphRows (dashboardRows (renderDashboard configs)) in
  length models = length rows
  /\ (forall i m row, models !! i = Some m -> rows !! i = Some row ->
        exists config,
          config ∈ configs
          /\ row = graphRow config
          /\ FetcherModel.modelId m = getFullModelId (modelConfig config) (endpointType config)
          /\ getQuotaCodes (modelConfig config) (endpointType config)
             = Some {| tokenQuotaCode := FetcherModel.tokenQuotaCode m;
                       requestQuotaCode := FetcherModel.requestQuotaCode m |}
          /\ map (fun w => last (widgetSeries w)) row
             = [Some (tokenQuotaLine (FetcherModel.modelId m));
                Some (tokenQuotaLine (FetcherModel.modelId m));
                Some (requestQuotaLine (FetcherModel.modelId m))]).
Proof.
  intros models rows. subst models rows.
  rewrite eventBridgeModels_tuples.
  unfold renderDashboard. rewrite renderDashboard_rows. cbn [dashboardRows initialRenderState app
    currentFamily]. rewrite graphRows_spec_layout.
  pose proof (fetcherTuple_filter configs) as Hall. split.
  - rewrite length_map. by eapply Forall2_length.
  - intros i m row Hm Hrow. rewrite list_lookup_fmap in Hrow.
    destruct (filter _ configs !! i) as [config|] eqn:Hconfig; [| discriminate].
    injection Hrow as <-.
    pose proof (Forall2_lookup_lr _ _ _ _ _ _ Hall Hm Hconfig) as Htuple.
    exists config. split.
    { apply list_elem_of_lookup_2 in Hconfig. by apply list_elem_of_filter in Hconfig as [_ ?]. }
    split; [reflexivity |].
    unfold fetcherTuple in Htuple.
    destruct (getQuotaCodes (modelConfig config) (endpointType config)) as [[tc rc]|];
      [| discriminate].
    injection Htuple as <-. repeat split.
Qed.

Lemma fetcher_matches_dashboard_witness :
  length (eventBridgeModels skippedEntryConfigs).1 = 2%nat
  /\ length (graphRows (dashboardRows (renderDashboard skippedEntryConfigs))) = 2%nat.
Proof.
  destruct (fetcher_matches_dashboard skippedEntryConfigs) as [Hlen _].
  split; [reflexivity |]. rewrite <- Hlen. reflexivity.
Defined.

Lemma fetcher_log_levels (f : DashboardConfig -> option FetcherModel.t * list LogEntry)
    (configs : list DashboardConfig) :
  (forall c, map fst (f c).2 = if hasQuotaCodes c then [] else [console_warn]) ->
  map fst (concat (map snd (map f configs)))
  = replicate (length (filter (fun c => hasQuotaCodes c = false) configs)) console_warn.
Proof.
  intros Hlog. induction configs as [|c configs IH]; [reflexivity |].
  change (map fst (concat (map snd (map f (c :: configs)))))
    with (map fst ((f c).2 ++ concat (map snd (map f configs)))).
  rewrite map_app. etrans; [exact (f_equal2 app (Hlog c) IH) |].
  destruct (hasQuotaCodes c) eqn:Hc.
  - rewrite filter_cons_False by congruence. reflexivity.
  - rewrite filter_cons_True by exact Hc. reflexivity.
Qed.

Lemma eventBridgeModel_levels (c : DashboardConfig) :
  map fst (eventBridgeModel c).2 = if hasQuotaCodes c then [] else [console_warn].
Proof.
  unfold eventBridgeModel, hasQuotaCodes.
  destruct (getQuotaCodes (modelConfig c) (endpointType c)); reflexivity.
Qed.

Lemma customResourceModel_levels (c : DashboardConfig) :
  map fst (customResourceModel c).2 = if hasQuotaCodes c then [] else [console_warn].
Proof.
  unfold customResourceModel, hasQuotaCodes.
  destruct (getQuotaCodes (modelConfig c) (endpointType c)); reflexivity.
Qed.

Lemma omap_fetcherTuple_length (configs : list DashboardConfig) :
  length (omap fetcherTuple configs)
  = length (filter (fun c => hasQuotaCodes c = true) configs).
Proof. eapply Forall2_length, fetcherTuple_filter. Qed.

Lemma filter_true_empty (configs : list DashboardConfig) :
  length (filter (fun c => hasQuotaCodes c = true) configs) = 0%nat
  <-> Forall (fun c => hasQuotaCodes c = false) configs.
Proof.
  induction configs as [|c configs IH]; [split; [constructor | reflexivity] |].
  rewrite filter_hasQuotaCodes_cons, Forall_cons. destruct (hasQuotaCodes c).
  - split; [discriminate | intros [[=] _]].
  - rewrite IH. tauto.
Qed.

(** X9: building either fetcher list logs one warning per entry without
    quota codes, in order, and then one closing line: an error when the list
    comes out empty, which happens exactly when no entry has quota codes
    (an empty list of entries included), a success line carrying the number
    of tuples otherwise.  The tuples and the warnings together account for
    every entry. *)
Theorem fetcher_lists_log_exclusions (configs : list DashboardConfig) :
  let excluded := length (filter (fun c => hasQuotaCodes c = false) configs) in
  let eventBridge := eventBridgeModels configs in
  let customResource := customResourceModels configs in
  (length eventBridge.1 + excluded)%nat = length configs
  /\ map fst eventBridge.2
     = replicate excluded console_warn
       ++ [if Nat.eqb (length eventBridge.1) 0 then console_error else console_log]
  /\ map fst customResource.2 = map fst eventBridge.2
  /\ (length eventBridge.1 = 0%nat <-> Forall (fun c => hasQuotaCodes c = false) configs)
  /\ (length eventBridge.1 <> 0%nat ->
      last eventBridge.2
      = Some (console_log,
              "[EVENTBRIDGE_SUCCESS] Configured scheduled quota refresh for "
              +:+ pretty (length eventBridge.1) +:+ " models")
      /\ last customResource.2
         = Some (console_log,
                 "[CUSTOM_RESOURCE_SUCCESS] Configured initial quota fetch for "
                 +:+ pretty (length eventBridge.1) +:+ " models")).
Proof.
  intros excluded eventBridge customResource.
  assert (Heb : eventBridge.1 = omap fetcherTuple configs) by apply eventBridgeModels_tuples.
  assert (Hcr : customResource.1 = omap fetcherTuple configs)
    by apply customResourceModels_tuples.
  assert (Hlen : length eventBridge.1
                 = length (filter (fun c => hasQuotaCodes c = true) configs))
    by (rewrite Heb; apply omap_fetcherTuple_length).
  assert (Hebl : map fst eventBridge.2
     = replicate excluded console_warn
       ++ [if Nat.eqb (length eventBridge.1) 0 then console_error else console_log]).
  { subst eventBridge. unfold eventBridgeModels at 1. cbn [snd]. rewrite map_app.
    f_equal; [apply fetcher_log_levels, eventBridgeModel_levels |]. cbn [map].
    change (omap fst (map eventBridgeModel configs)) with (eventBridgeModels configs).1.
    destruct (Nat.eqb (length (eventBridgeModels configs).1) 0); reflexivity. }
  assert (Hcrl : map fst customResource.2
     = replicate excluded console_warn
       ++ [if Nat.eqb (length customResource.1) 0 then console_error else console_log]).
  { subst customResource. unfold customResourceModels at 1. cbn [snd]. rewrite map_app.
    f_equal; [apply fetcher_log_levels, customResourceModel_levels |]. cbn [map].
    change (omap fst (map customResourceModel configs)) with (customResourceModels configs).1.
    destruct (Nat.eqb (length (customResourceModels configs).1) 0); reflexivity. }
  split; [rewrite Hlen; apply filter_partition_length |].
  split; [exact Hebl |].
  split; [rewrite Hcrl, Hebl, Hcr, Heb; reflexivity |].
  split; [rewrite Hlen; apply filter_true_empty |].
  intros Hne. apply Nat.eqb_neq in Hne. split.
  - subst eventBridge. unfold eventBridgeModels at 1. cbn [snd]. rewrite last_snoc.
    change (omap fst (map eventBridgeModel configs)) with (eventBridgeModels configs).1.
    rewrite Hne. reflexivity.
  - subst customResource. unfold customResourceModels at 1. cbn [snd]. rewrite last_snoc.
    change (omap fst (map customResourceModel configs)) with (customResourceModels configs).1.
    rewrite Hcr, <- Heb, Hne. reflexivity.
Qed.

Lemma fetcher_lists_log_exclusions_witness :
  last (eventBridgeModels skippedEntryConfigs).2
  = Some (console_log, "[EVENTBRIDGE_SUCCESS] Configured scheduled quota refresh for 2 models").
Proof.
  destruct (fetcher_lists_log_exclusions skippedEntryConfigs) as (_ & _ & _ & _ & Hlast).
  destruct Hlast as [Hlast _]; [vm_compute; discriminate |].
  rewrite Hlast. reflexivity.
Defined.


(** ** The summary of the renderer *)

Lemma filter_false_nil (configs : list DashboardConfig) :
  filter (fun c => hasQuotaCodes c = false) configs = []
  <-> Forall (fun c => hasQuotaCodes c = true) configs.
Proof.
  induction configs as [|c configs IH]; [split; [constructor | reflexivity] |].
  rewrite Forall_cons. destruct (hasQuotaCodes c) eqn:Hc.
  - rewrite filter_cons_False by congruence. rewrite IH. tauto.
  - rewrite filter_cons_True by exact Hc. split; [discriminate | intros [[=] _]].
Qed.

(** X10: the summary logged after rendering is the single success line,
    with the number of entries, exactly when every entry has quota codes.
    Otherwise it consists of warnings only: a heading, one line per skipped
    entry naming its model and endpoint kind, an advice and a closing line
    whose number of created widgets is the number of rows of graphs on the
    dashboard. *)
Theorem summary_log_lists_skipped (configs : list DashboardConfig) :
  let st := renderDashboard configs in
  let log := dashboardSummaryLog configs st in
  let skipped := filter (fun c => hasQuotaCodes c = false) configs in
  (Forall (fun c => hasQuotaCodes c = true) configs <->
   log = [(console_log,
           "[DASHBOARD_GENERATION_SUCCESS] Successfully created " +:+ pretty (length configs)
           +:+ " dashboard widgets for all configured models")])
  /\ (skipped <> [] ->
      map fst log = replicate (length skipped + 3) console_warn
      /\ (forall c, c ∈ skipped -> (console_warn, "  - " +:+ skippedLabel c) ∈ log)
      /\ last log
         = Some (console_warn,
                 "[DASHBOARD_GENERATION_SUMMARY] Created "
                 +:+ pretty (length (graphRows (dashboardRows st)))
                 +:+ " dashboard widgets, skipped " +:+ pretty (length skipped)
                 +:+ " due to missing data (" +:+ pretty (length configs)
                 +:+ " total configured)")).
Proof.
  intros st log skipped.
  assert (Hskipped : modelsWithMissingQuotas st = map skippedLabel skipped)
    by (subst st; unfold renderDashboard; rewrite renderConfig_skipped; reflexivity).
  assert (Hrows : length (graphRows (dashboardRows st))
                  = (length configs - length skipped)%nat).
  { subst st. unfold renderDashboard. rewrite renderDashboard_rows. simpl.
    rewrite graphRows_spec_layout, length_map.
    pose proof (filter_partition_length configs). subst skipped. lia. }
  subst log. unfold dashboardSummaryLog. rewrite Hskipped, length_map, Hrows.
  destruct skipped as [|c0 rest] eqn:Hsk.
  - split; [| done]. cbn. rewrite Nat.sub_0_r.
    split; [reflexivity | intros _; by apply filter_false_nil].
  - split.
    + split.
      * intros Hall. apply filter_false_nil in Hall. subst skipped. congruence.
      * cbn. discriminate.
    + intros _. cbn [length Nat.ltb Nat.leb]. split; [| split].
      * rewrite !map_app, !map_map. cbn [map fst app].
        f_equal. rewrite Nat.add_comm. cbn [Nat.add replicate]. f_equal.
        clear. induction rest as [|c rest IH]; [reflexivity |].
        cbn [map length replicate app]. by rewrite IH.
      * intros c Hc. apply elem_of_app. left. apply elem_of_cons. right.
        apply elem_of_app. left. rewrite map_map.
        apply (list_elem_of_fmap_2 (fun x => (console_warn, "  - " +:+ skippedLabel x))).
        exact Hc.
      * rewrite last_snoc. reflexivity.
Qed.

Lemma summary_log_lists_skipped_witness :
  (console_warn, "  - meta.llama3-example-v1:0 (regional)")
  ∈ dashboardSummaryLog skippedEntryConfigs (renderDashboard skippedEntryConfigs).
Proof.
  destruct (summary_log_lists_skipped skippedEntryConfigs) as [_ Hskipped].
  destruct Hskipped as (_ & Hlisted & _); [vm_compute; discriminate |].
  apply (Hlisted {| modelConfig := modelWithoutCodes; endpointType := regional_ep;
                    applicationProfileIds := None |}).
  vm_compute. left.
Defined.

(** ** Entries taken from the registry *)

Lemma registry_entry_has_codes (config : DashboardConfig) :
  In (modelConfig config) BEDROCK_MODELS \/ In (modelConfig config) UsWest2.BEDROCK_MODELS ->
  validateModelEndpointSupport (modelConfig config) (endpointType config) = true ->
  hasQuotaCodes config = true.
Proof.
  intros Hin Hvalid.
  assert (Hcons : selfConsistent (modelConfig config) (endpointType config) = true).
  { assert (Hall : forall table, table = BEDROCK_MODELS \/ table = UsWest2.BEDROCK_MODELS ->
                     tableSelfConsistent table = true)
      by (intros table [-> | ->]; vm_compute; reflexivity).
    assert (Hm : forall table, tableSelfConsistent table = true ->
                   In (modelConfig config) table ->
                   selfConsistent (modelConfig config) (endpointType config) = true).
    { intros table Htable Hmem. unfold tableSelfConsistent in Htable.
      rewrite forallb_forall in Htable. specialize (Htable _ Hmem).
      rewrite forallb_forall in Htable. apply Htable, all_endpoint_types_complete. }
    destruct Hin as [Hin | Hin];
      [apply (Hm BEDROCK_MODELS) | apply (Hm UsWest2.BEDROCK_MODELS)];
      try exact Hin; apply Hall; tauto. }
  apply selfConsistent_spec in Hcons. apply Hcons in Hvalid as (qc & Hqc & _).
  unfold hasQuotaCodes. rewrite Hqc. apply bool_decide_eq_true_2. by eexists.
Qed.

(** X11: for entries whose models come from the registry tables, the
    validation of the constructor leaves the renderer's skip branch without
    work: when the stack is built, every entry has a tuple in the fetcher
    list and a row of graphs on the dashboard, in order, no entry is skipped
    and the log ends with the success line for all entries. *)
Theorem validated_registry_entries_all_rendered (cdk : CdkLibrary)
    (configs : list DashboardConfig) (out : StackOutput) :
  Forall (fun c => In (modelConfig c) BEDROCK_MODELS
                   \/ In (modelConfig c) UsWest2.BEDROCK_MODELS) configs ->
  CdkQuotaDashboardsStack cdk configs = Normal out ->
  map Some (event_models (scheduledRefreshInput out)) = map fetcherTuple configs
  /\ graphRows (dashboard out) = map graphRow configs
  /\ modelsWithMissingQuotas (renderDashboard configs) = []
  /\ last (stackLog out)
     = Some (console_log,
             "[DASHBOARD_GENERATION_SUCCESS] Successfully created " +:+ pretty (length configs)
             +:+ " dashboard widgets for all configured models").
Proof.
  intros Hregistry Hbuilt. unfold CdkQuotaDashboardsStack in Hbuilt.
  destruct (stackSuper cdk) as [[]|message]; [| discriminate].
  destruct (validateAllDashboardConfigs configs) as [[]|message] eqn:Hvalid; [| discriminate].
  destruct (createConstructs cdk _ _ _) as [[]|message]; [| discriminate].
  injection Hbuilt as <-. cbn [scheduledRefreshInput event_models dashboard stackLog].
  assert (Hall : Forall (fun c => hasQuotaCodes c = true) configs).
  { unfold validateAllDashboardConfigs in Hvalid.
    destruct (validationErrors configs) as [|e errors] eqn:Herrors; [| discriminate].
    pose proof (proj1 (validationErrors_nil configs) Herrors) as Hvalids.
    apply Forall_lookup. intros i c Hc.
    apply registry_entry_has_codes; [| by eapply Hvalids].
    by eapply (proj1 (Forall_lookup _ _) Hregistry). }
  assert (Hfilter : filter (fun c => hasQuotaCodes c = true) configs = configs).
  { clear -Hall. induction Hall as [|c cs Hc _ IH]; [reflexivity |].
    rewrite filter_hasQuotaCodes_cons, Hc, IH. reflexivity. }
  assert (Hnone : filter (fun c => hasQuotaCodes c = false) configs = [])
    by (by apply filter_false_nil).
  split; [| split; [| split]].
  - change (omap fst (map eventBridgeModel configs)) with (eventBridgeModels configs).1.
    rewrite eventBridgeModels_tuples. clear -Hall.
    induction Hall as [|c cs Hc _ IH]; [reflexivity |].
    apply hasQuotaCodes_fetcherTuple in Hc as [m Hm].
    cbn [omap list_omap map]. rewrite Hm. fold (omap fetcherTuple cs).
    cbn [map]. by rewrite IH.
  - unfold renderDashboard. rewrite renderDashboard_rows. simpl.
    rewrite graphRows_spec_layout, Hfilter. reflexivity.
  - unfold renderDashboard. rewrite renderConfig_skipped, Hnone. reflexivity.
  - rewrite !app_assoc. unfold dashboardSummaryLog.
    assert (Hskipped : modelsWithMissingQuotas (renderDashboard configs) = [])
      by (unfold renderDashboard; rewrite renderConfig_skipped, Hnone; reflexivity).
    rewrite Hskipped. cbn [length Nat.ltb Nat.leb app]. rewrite last_snoc, Nat.sub_0_r.
    reflexivity.
Qed.

Lemma validated_registry_entries_all_rendered_witness :
  exists out, CdkQuotaDashboardsStack exampleCdk allDashboardConfigs = Normal out
    /\ graphRows (dashboard out) = map graphRow allDashboardConfigs.
Proof.
  eexists. split; [reflexivity |].
  eapply (validated_registry_entries_all_rendered exampleCdk allDashboardConfigs);
    [| reflexivity].
  unfold allDashboardConfigs.
  repeat (apply Forall_cons; split; [left; vm_compute; tauto |]). by apply Forall_nil.
Defined.

(** X12: a row of graphs depends on the entry's model identifier, endpoint
    kind, burndown rate and application profiles only: two entries that
    agree on these get the same three graphs, whatever quota codes the
    registry lists for them. *)
Theorem graphRow_ignores_quota_codes (a b : DashboardConfig) :
  modelId (modelConfig a) = modelId (modelConfig b) ->
  endpointType a = endpointType b ->
  outputTokenBurndownRate (modelConfig a) = outputTokenBurndownRate (modelConfig b) ->
  applicationProfileIds a = applicationProfileIds b ->
  graphRow a = graphRow b.
Proof.
  intros Hid Hkind Hrate Hprofiles.
  assert (Hfull : getFullModelId (modelConfig a) (endpointType a)
                  = getFullModelId (modelConfig b) (endpointType b))
    by (unfold getFullModelId; rewrite Hid, Hkind; reflexivity).
  assert (Hhas : hasApplicationProfiles a = hasApplicationProfiles b)
    by (unfold hasApplicationProfiles; rewrite Hprofiles; reflexivity).
  assert (Hids : allProfileIds a = allProfileIds b)
    by (unfold allProfileIds; rewrite Hfull, Hprofiles; reflexivity).
  assert (Hmetrics : allProfileMetrics a = allProfileMetrics b)
    by (unfold allProfileMetrics; rewrite Hids; reflexivity).
  assert (Hseries : entrySeries a = entrySeries b).
  { unfold entrySeries, profilesLabel. rewrite Hhas, Hmetrics, Hrate, Hfull, Hids.
    reflexivity. }
  unfold graphRow, titleSuffix. rewrite Hfull, Hseries, Hhas, Hids. reflexivity.
Qed.

Lemma graphRow_ignores_quota_codes_witness :
  graphRow {| modelConfig := UsEast1.ANTHROPIC.CLAUDE_SONNET_4_6;
              endpointType := global_cross_region_ep; applicationProfileIds := None |}
  = graphRow {| modelConfig := UsEast1.ANTHROPIC.CLAUDE_SONNET_4_6_1M;
                endpointType := global_cross_region_ep; applicationProfileIds := None |}
  /\ getQuotaCodes UsEast1.ANTHROPIC.CLAUDE_SONNET_4_6 global_cross_region_ep
     <> getQuotaCodes UsEast1.ANTHROPIC.CLAUDE_SONNET_4_6_1M global_cross_region_ep.
Proof.
  split; [apply graphRow_ignores_quota_codes; reflexivity |].
  vm_compute. discriminate.
Defined.

(** X13: the family of an entry is taken from the bare model identifier:
    an identifier that carries the [us.] or the [global.] prefix of a full
    model identity matches none of the listed prefixes and falls to
    [Other Models], while the banner of a rendered entry is that of its bare
    identifier for every endpoint kind.  The result is always one of the
    fifteen listed names or [Other Models]. *)
Theorem family_of_bare_identifier (id : string) (config : DashboardConfig) :
  getModelFamily ("us." +:+ id) = "Other Models"
  /\ getModelFamily ("global." +:+ id) = "Other Models"
  /\ (hasQuotaCodes config = true ->
      dashboardRows (renderDashboard [config])
      = [bannerRow (getModelFamily (modelId (modelConfig config))); graphRow config])
  /\ getModelFamily id ∈ map snd familyPrefixes ++ ["Other Models"].
Proof.
  split; [reflexivity |]. split; [reflexivity |]. split.
  - intros Hcodes. unfold renderDashboard. rewrite renderDashboard_rows.
    rewrite filter_hasQuotaCodes_cons, Hcodes. reflexivity.
  - rewrite getModelFamily_firstMatch. unfold firstMatch.
    destruct (find _ familyPrefixes) as [e|] eqn:Hfind.
    + apply elem_of_app. left. apply find_some in Hfind as [Hin _].
      apply list_elem_of_In in Hin. by apply (list_elem_of_fmap_2 snd).
    + apply elem_of_app. right. by left.
Qed.

Lemma family_of_bare_identifier_witness :
  dashboardRows (renderDashboard [sonnetConfig])
  = [bannerRow "Anthropic Claude"; graphRow sonnetConfig]
  /\ getModelFamily (getFullModelId (modelConfig sonnetConfig) (endpointType sonnetConfig))
     = "Other Models".
Proof.
  destruct (family_of_bare_identifier "anthropic.claude-sonnet-4-5-20250929-v1:0" sonnetConfig)
    as (Hus & _ & Hrows & _).
  split; [apply Hrows; reflexivity | exact Hus].
Defined.

Lemma wellFormedEntry_table (table : list ModelConfig) (m : ModelConfig) :
  table = BEDROCK_MODELS \/ table = UsWest2.BEDROCK_MODELS ->
  In m table -> wellFormedEntry m = true.
Proof.
  intros Htable Hm.
  assert (Hall : forallb wellFormedEntry table = true)
    by (destruct Htable as [-> | ->]; vm_compute; reflexivity).
  rewrite forallb_forall in Hall. by apply Hall.
Qed.

(** X14: every entry of the two registry tables supports at least one
    endpoint kind and lists none twice, has a burndown rate of 1 or 5, and
    lists only quota codes made of [L-] and eight more characters; so no
    registered quota code is empty and the two code getters return for a
    registered model either nothing or such a code. *)
Theorem registry_entries_well_formed (table : list ModelConfig) (m : ModelConfig)
    (k : EndpointType) :
  table = BEDROCK_MODELS \/ table = UsWest2.BEDROCK_MODELS ->
  In m table ->
  getSupportedEndpointTypes m <> []
  /\ NoDup (getSupportedEndpointTypes m)
  /\ (outputTokenBurndownRate m = 1%N \/ outputTokenBurndownRate m = 5%N)
  /\ (forall code, getTokenQuotaCode m k = Some code \/ getRequestQuotaCode m k = Some code ->
        String.prefix "L-" code = true /\ String.length code = 10%nat).
Proof.
  intros Htable Hm. pose proof (wellFormedEntry_table table m Htable Hm) as Hwf.
  unfold wellFormedEntry in Hwf.
  rewrite !andb_true_iff, negb_true_iff, Nat.eqb_neq, bool_decide_eq_true, orb_true_iff,
    !N.eqb_eq, forallb_forall in Hwf.
  destruct Hwf as (((Hne & Hnodup) & Hrate) & Hcodes).
  split; [| split; [exact Hnodup | split; [exact Hrate |]]].
  - unfold getSupportedEndpointTypes. destruct (supportedEndpoints m); [done | discriminate].
  - intros code Hcode.
    assert (Hlisted : In code (listedQuotaCodes m)).
    { unfold listedQuotaCodes. apply in_flat_map. exists k.
      split; [apply all_endpoint_types_complete |].
      unfold getTokenQuotaCode, getRequestQuotaCode in Hcode.
      destruct (getQuotaCodes m k) as [[tc rc]|]; [| by destruct Hcode].
      cbn [tokenQuotaCode requestQuotaCode] in *.
      destruct Hcode as [Hcode | Hcode].
      - destruct tc as [tc|]; [| discriminate]. cbn in Hcode.
        destruct tc; [discriminate |]. injection Hcode as <-. cbn. by left.
      - destruct rc as [rc|]; [| discriminate]. cbn in Hcode.
        destruct rc; [discriminate |]. injection Hcode as <-.
        destruct tc; cbn; auto. }
    specialize (Hcodes code Hlisted). apply andb_true_iff in Hcodes as [Hprefix Hlength].
    split; [exact Hprefix | by apply Nat.eqb_eq].
Qed.

Lemma registry_entries_well_formed_witness :
  getSupportedEndpointTypes UsWest2.AMAZON.NOVA_PREMIER_V1 <> []
  /\ (outputTokenBurndownRate UsEast1.ANTHROPIC.CLAUDE_SONNET_4_5 = 1%N
      \/ outputTokenBurndownRate UsEast1.ANTHROPIC.CLAUDE_SONNET_4_5 = 5%N).
Proof.
  split.
  - apply (registry_entries_well_formed UsWest2.BEDROCK_MODELS
             UsWest2.AMAZON.NOVA_PREMIER_V1 regional_ep);
      [right; reflexivity | vm_compute; tauto].
  - apply (registry_entries_well_formed BEDROCK_MODELS
             UsEast1.ANTHROPIC.CLAUDE_SONNET_4_5 regional_ep);
      [left; reflexivity | vm_compute; tauto].
Defined.


(** ** The series as the metrics store evaluates them *)

(** X15: in a bucket where both estimates of an entry have a value, they
    share the input and cache-write terms, so Actual Consumption minus
    Initial Reservation is the output tokens times the burndown rate minus
    the published MaxTokens: the consumption stays within the reservation
    exactly when the weighted output stays within MaxTokens, which at rate 1
    means output tokens no larger than MaxTokens. *)
Theorem consumption_against_reservation (store : MetricStore) (t : TimeBucket)
    (config : DashboardConfig) (actual initial : Z) :
  seriesValue store (actualConsumption (entrySeries config)) t = Some actual ->
  seriesValue store (initialReservation (entrySeries config)) t = Some initial ->
  exists output maxTokens,
    entryCounter store outputTokens_field config t = Some output
    /\ entryCounter store maxTokens_field config t = Some maxTokens
    /\ (actual - initial
        = output * Z.of_N (outputTokenBurndownRate (modelConfig config)) - maxTokens)%Z
    /\ ((actual <= initial)%Z
        <-> (output * Z.of_N (outputTokenBurndownRate (modelConfig config)) <= maxTokens)%Z)
    /\ (outputTokenBurndownRate (modelConfig config) = 1%N ->
        ((actual <= initial)%Z <-> (output <= maxTokens)%Z)).
Proof.
  rewrite actualConsumption_value, initialReservation_value.
  destruct (entryCounter store inputTokens_field config t) as [input|]; [| discriminate].
  destruct (entryCounter store cacheWriteTokens_field config t) as [cache|]; [| discriminate].
  destruct (entryCounter store outputTokens_field config t) as [output|]; [| discriminate].
  destruct (entryCounter store maxTokens_field config t) as [maxTokens|]; [| discriminate].
  cbn [lift2]. intros [= <-] [= <-]. exists output, maxTokens.
  repeat split; try lia. all: intros Hle; try rewrite H in *; lia.
Qed.

Lemma consumption_against_reservation_witness :
  exists output maxTokens,
    entryCounter sonnetStoreWithMaxTokens outputTokens_field sonnetConfig 0 = Some output
    /\ entryCounter sonnetStoreWithMaxTokens maxTokens_field sonnetConfig 0 = Some maxTokens
    /\ (1500 - 5000 = output * 5 - maxTokens)%Z.
Proof.
  destruct (consumption_against_reservation sonnetStoreWithMaxTokens 0 sonnetConfig 1500 5000)
    as (output & maxTokens & Hout & Hmax & Hdiff & _).
  - vm_compute. reflexivity.
  - vm_compute. reflexivity.
  - exists output, maxTokens. repeat split; assumption.
Defined.

Lemma fillRepeat_None (series : TimeBucket -> option Z) (t : TimeBucket) :
  fillRepeat series t = None <-> forall t', (t' <= t)%nat -> series t' = None.
Proof.
  induction t as [|t IH]; simpl.
  - destruct (series 0%nat) eqn:H0.
    + split; [discriminate |]. intros Hall. rewrite Hall in H0 by lia. discriminate.
    + split; [| reflexivity]. intros _ t' Ht'. by replace t' with 0%nat by lia.
  - destruct (series (S t)) eqn:HS.
    + split; [discriminate |]. intros Hall. rewrite Hall in HS by lia. discriminate.
    + rewrite IH. split.
      * intros Hall t' Ht'. destruct (decide (t' = S t)) as [-> |]; [exact HS |].
        apply Hall. lia.
      * intros Hall t' Ht'. apply Hall. lia.
Qed.

Lemma applyStatistic_Maximum_None (points : list Z) :
  applyStatistic Maximum points = None <-> points = [].
Proof. destruct points; simpl; split; congruence. Qed.

Lemma quotaLine_value (store : MetricStore) (name key label : string) (id : string)
    (t : TimeBucket) :
  let m := {| namespace := "Bedrock/Quotas"; metricName := name;
              dimensionsMap := [("ModelId", id)]; statistic := Maximum; period := 1;
              metric_label := Some "Quota Limit"; metric_color := Some RED |} in
  let line := IMetric_Math {| expression := EFillRepeat (EVar key);
                              usingMetrics := {[ key := m ]};
                              label := label; color := Some RED; math_period := 1 |} in
  (seriesValue store line t = None <->
   forall t', (t' <= t)%nat -> store "Bedrock/Quotas" name [("ModelId", id)] t' = [])
  /\ (forall t0 p ps, (t0 <= t)%nat ->
        store "Bedrock/Quotas" name [("ModelId", id)] t0 = p :: ps ->
        (forall t', (t0 < t' <= t)%nat ->
           store "Bedrock/Quotas" name [("ModelId", id)] t' = []) ->
        seriesValue store line t = Some (foldl Z.max p ps)).
Proof.
  intros m line. subst line. cbn [seriesValue expression usingMetrics evalExpr]. split.
  - rewrite fillRepeat_None. split; intros Hall t' Ht'.
    + specialize (Hall t' Ht'). rewrite lookup_singleton_eq in Hall.
      by apply applyStatistic_Maximum_None in Hall.
    + rewrite lookup_singleton_eq. subst m. unfold metricValue. cbn.
      rewrite (Hall t' Ht'). reflexivity.
  - intros t0 p ps Hle Hpoints Hgap. apply (fillRepeat_last _ t0); [| exact Hle |].
    + rewrite lookup_singleton_eq. subst m. unfold metricValue. cbn.
      rewrite Hpoints. reflexivity.
    + intros t' Ht'. rewrite lookup_singleton_eq. subst m. unfold metricValue. cbn.
      rewrite (Hgap t' Ht'). reflexivity.
Qed.

(** X16: a limit line holds the last reading: at a bucket it has no value
    exactly when no reading of its quota metric was published for the
    identity up to that bucket, and otherwise it shows the largest point of
    the most recent bucket that has readings, so the line is continuous from
    the first reading on and publishing the same limit twice changes
    nothing.  The token line follows the TokenQuota metric and the request
    line the RequestQuota metric of the same identity. *)
Theorem limit_lines_hold_last_reading (store : MetricStore) (fullModelId : string)
    (t : TimeBucket) :
  let token := store "Bedrock/Quotas" "TokenQuota" [("ModelId", fullModelId)] in
  let request := store "Bedrock/Quotas" "RequestQuota" [("ModelId", fullModelId)] in
  (seriesValue store (tokenQuotaLine fullModelId) t = None <->
   forall t', (t' <= t)%nat -> token t' = [])
  /\ (seriesValue store (requestQuotaLine fullModelId) t = None <->
      forall t', (t' <= t)%nat -> request t' = [])
  /\ (forall t0 p ps, (t0 <= t)%nat -> token t0 = p :: ps ->
        (forall t', (t0 < t' <= t)%nat -> token t' = []) ->
        seriesValue store (tokenQuotaLine fullModelId) t = Some (foldl Z.max p ps))
  /\ (forall t0 p ps, (t0 <= t)%nat -> request t0 = p :: ps ->
        (forall t', (t0 < t' <= t)%nat -> request t' = []) ->
        seriesValue store (requestQuotaLine fullModelId) t = Some (foldl Z.max p ps)).
Proof.
  intros token request.
  destruct (quotaLine_value store "TokenQuota" "tokenQuota" "Quota Limit (Tokens)"
              fullModelId t) as [Htn Htv].
  destruct (quotaLine_value store "RequestQuota" "requestQuota" "Quota Limit (Requests)"
              fullModelId t) as [Hrn Hrv].
  repeat split; try apply Htn; try apply Hrn; try apply Htv; try apply Hrv.
Qed.

Lemma limit_lines_hold_last_reading_witness :
  seriesValue quotaReadingsStore
    (tokenQuotaLine "us.anthropic.claude-sonnet-4-5-20250929-v1:0") 4 = Some 200000%Z
  /\ seriesValue quotaReadingsStore
       (tokenQuotaLine "us.anthropic.claude-sonnet-4-5-20250929-v1:0") 9 = Some 400000%Z
  /\ seriesValue quotaReadingsStore
       (requestQuotaLine "us.anthropic.claude-sonnet-4-5-20250929-v1:0") 1 = None.
Proof.
  split; [| split].
  - destruct (limit_lines_hold_last_reading quotaReadingsStore
                "us.anthropic.claude-sonnet-4-5-20250929-v1:0" 4) as (_ & _ & Hvalue & _).
    apply (Hvalue 2%nat 200000%Z []); [lia | reflexivity |].
    intros t' Ht'. assert (t' = 3 \/ t' = 4)%nat as [-> | ->] by lia; reflexivity.
  - destruct (limit_lines_hold_last_reading quotaReadingsStore
                "us.anthropic.claude-sonnet-4-5-20250929-v1:0" 9) as (_ & _ & Hvalue & _).
    apply (Hvalue 5%nat 400000%Z [400000%Z]); [lia | reflexivity |].
    intros t' Ht'.
    assert (t' = 6 \/ t' = 7 \/ t' = 8 \/ t' = 9)%nat as [-> | [-> | [-> | ->]]] by lia;
      reflexivity.
  - destruct (limit_lines_hold_last_reading quotaReadingsStore
                "us.anthropic.claude-sonnet-4-5-20250929-v1:0" 1) as (_ & Hnone & _).
    apply Hnone. intros t' Ht'. assert (t' = 0 \/ t' = 1)%nat as [-> | ->] by lia; reflexivity.
Defined.


(** ** The script that lists the quota codes *)

Lemma listAllQuotas_chain
    (send : ListServiceQuotasCommand -> completion ListServiceQuotasCommandOutput)
    (pages : list ListServiceQuotasCommandOutput) (token : option string) :
  pageChain send token pages ->
  forall (fuel : nat) (allQuotas : list ServiceQuota),
    ((length pages <= fuel)%nat ->
     listAllQuotas fuel send token allQuotas
     = Some (Normal (allQuotas ++ quotasOfPages pages)))
    /\ ((fuel < length pages)%nat -> listAllQuotas fuel send token allQuotas = None).
Proof.
  assert (Hacc : forall (allQuotas : list ServiceQuota) response,
            match Quotas response with
            | Some quotas => allQuotas ++ quotas
            | None => allQuotas
            end = allQuotas ++ default [] (Quotas response)).
  { intros allQuotas response. destruct (Quotas response); simpl; [reflexivity |].
    by rewrite app_nil_r. }
  induction 1 as [token response Hsend Hlast | token response rest Hsend Hmore Hrest IH];
    intros fuel allQuotas.
  - split; intros Hfuel.
    + destruct fuel as [|fuel]; [simpl in Hfuel; lia |].
      cbn [listAllQuotas]. rewrite Hsend, Hlast, Hacc.
      unfold quotasOfPages. cbn [map concat]. by rewrite app_nil_r.
    + destruct fuel as [|fuel]; [reflexivity | simpl in Hfuel; lia].
  - split; intros Hfuel.
    + destruct fuel as [|fuel]; [simpl in Hfuel; lia |].
      cbn [listAllQuotas]. rewrite Hsend, Hmore, Hacc.
      rewrite (proj1 (IH fuel _)) by (simpl in Hfuel; lia).
      unfold quotasOfPages. cbn [map concat]. by rewrite app_assoc.
    + destruct fuel as [|fuel]; [reflexivity |].
      cbn [listAllQuotas]. rewrite Hsend, Hmore.
      apply IH. simpl in Hfuel. lia.
Qed.

(** X17: the pagination loop collects every page: when the service hands
    out a finite chain of pages, each but the last carrying the token of the
    next, the loop sends one request per page, passing each token on
    unchanged, and returns the quotas of all pages in order once it has run
    as many iterations as there are pages; before that it has not ended.  A
    page without a [Quotas] property adds nothing, and an empty token ends
    the loop like a missing one. *)
Theorem pagination_collects_every_page
    (send : ListServiceQuotasCommand -> completion ListServiceQuotasCommandOutput)
    (pages : list ListServiceQuotasCommandOutput) (fuel : nat) :
  pageChain send None pages ->
  ((length pages <= fuel)%nat ->
   listAllQuotas fuel send None [] = Some (Normal (quotasOfPages pages)))
  /\ ((fuel < length pages)%nat -> listAllQuotas fuel send None [] = None).
Proof.
  intros Hchain. destruct (listAllQuotas_chain send pages None Hchain fuel []) as [Hdone Hnot].
  split; assumption.
Qed.

Lemma pagination_collects_every_page_witness :
  listAllQuotas 2 twoPageSend None [] = Some (Normal (quotasOfPages twoPages))
  /\ listAllQuotas 1 twoPageSend None [] = None.
Proof.
  assert (Hchain : pageChain twoPageSend None twoPages).
  { apply pageChain_more; [reflexivity | reflexivity |].
    apply pageChain_last; reflexivity. }
  split.
  - apply (pagination_collects_every_page twoPageSend twoPages 2 Hchain). simpl. lia.
  - apply (pagination_collects_every_page twoPageSend twoPages 1 Hchain). simpl. lia.
Defined.

Lemma printed_rows_no_error (env : ScriptEnv) (quotas : list ServiceQuota)
    (message : string) :
  (console_error, message) ∉ map (consoleRow env) quotas.
Proof.
  intros Hin. apply list_elem_of_fmap in Hin as (q & Hq & _). discriminate Hq.
Qed.

(** X18: whatever the service, the clock and the file system do, a run of
    the script that ends starts by announcing the region it queries, writes
    at most one file, and writes none when it logs an error, when the
    service has no quotas or when help is asked for; a file that was written
    is the one named after the date, its write succeeded and the last line
    of the console names it.  With [--help] or [-h] anywhere on the command
    line the run ends without asking the service at all. *)
Theorem script_writes_only_after_success (fuel : nat) (env : ScriptEnv) (argv : list string)
    (run : ScriptRun) :
  scriptMain fuel env argv = Some run ->
  (length (filesWritten run) <= 1)%nat
  /\ ((exists message, (console_error, message) ∈ scriptLog run) -> filesWritten run = [])
  /\ (forall name content, (name, content) ∈ filesWritten run ->
        name = quotaFileName env (argv !! 2%nat)
        /\ writeFileSync env name content = Normal tt
        /\ last (scriptLog run) = Some (console_log, nl +:+ "Quotas saved to: " +:+ name)
        /\ head (scriptLog run)
           = Some (console_log, fetchingLine (targetRegionOf env (argv !! 2%nat))))
  /\ ("--help" ∈ argv \/ "-h" ∈ argv ->
      filesWritten run = [] /\ forall fuel' env', scriptMain fuel' env' argv = Some run)
  /\ ("--help" ∉ argv -> "-h" ∉ argv ->
      listAllQuotas fuel (clientSend env (targetRegionOf env (argv !! 2%nat))) None []
      = Some (Normal []) ->
      filesWritten run = []
      /\ scriptLog run
         = [ (console_log, fetchingLine (targetRegionOf env (argv !! 2%nat)));
             (console_log, "No quotas found for Bedrock service.") ]).
Proof.
  unfold scriptMain.
  destruct (bool_decide ("--help" ∈ argv)) eqn:Hhelp; cbn [orb].
  { intros [= <-]. cbn [filesWritten scriptLog length].
    apply bool_decide_eq_true in Hhelp.
    split; [lia |]. split; [reflexivity |].
    split; [intros ? ? Hin; by apply elem_of_nil in Hin |].
    split; [| intros Hno; by destruct Hno].
    intros _. split; reflexivity. }
  destruct (bool_decide ("-h" ∈ argv)) eqn:Hh.
  { intros [= <-]. cbn [filesWritten scriptLog length].
    apply bool_decide_eq_true in Hh.
    split; [lia |]. split; [reflexivity |].
    split; [intros ? ? Hin; by apply elem_of_nil in Hin |].
    split; [| intros _ Hno; by destruct Hno].
    intros _. split; reflexivity. }
  apply bool_decide_eq_false in Hhelp, Hh.
  unfold getAllBedrockQuotas.
  destruct (listAllQuotas fuel _ None []) as [[allQuotas|error]|]; [| | discriminate].
  - destruct (Nat.eqb (length allQuotas) 0) eqn:Hempty.
    + intros [= <-]. cbn [filesWritten scriptLog length].
      split; [lia |]. split; [reflexivity |].
      split; [intros ? ? Hin; by apply elem_of_nil in Hin |].
      split; [intros [? | ?]; contradiction |].
      intros _ _ _. split; reflexivity.
    + destruct (writeFileSync env _ _) as [[]|error] eqn:Hwrite.
      * intros [= <-]. cbn [filesWritten scriptLog].
        split; [cbn [length]; lia |]. split.
        { intros (message & Hin). exfalso.
          do 5 (apply elem_of_cons in Hin as [Hin | Hin]; [discriminate Hin |]).
          apply elem_of_app in Hin as [Hin | Hin].
          - by apply printed_rows_no_error in Hin.
          - apply list_elem_of_singleton in Hin. discriminate Hin. }
        split.
        { intros name content Hin. apply list_elem_of_singleton in Hin.
          injection Hin as -> ->. split; [reflexivity |]. split; [exact Hwrite |].
          split; [| reflexivity]. do 5 rewrite last_cons. rewrite last_snoc. reflexivity. }
        split; [intros [? | ?]; contradiction |].
        intros _ _ [= Hnil]. rewrite Hnil in Hempty. discriminate.
      * intros [= <-]. cbn [filesWritten scriptLog length].
        split; [lia |]. split; [reflexivity |].
        split; [intros ? ? Hin; by apply elem_of_nil in Hin |].
        split; [intros [? | ?]; contradiction |].
        intros _ _ [= Hnil]. rewrite Hnil in Hempty. discriminate.
  - intros [= <-]. cbn [filesWritten scriptLog length].
    split; [lia |]. split; [reflexivity |].
    split; [intros ? ? Hin; by apply elem_of_nil in Hin |].
    split; [intros [? | ?]; contradiction |].
    intros _ _ [=].
Qed.

Lemma script_writes_only_after_success_witness :
  exists run,
    scriptMain 1 failingScriptEnv ["node"; "get-quota-codes.ts"; "us-west-2"] = None
    /\ scriptMain 2 failingScriptEnv ["node"; "get-quota-codes.ts"; "us-west-2"] = Some run
    /\ filesWritten run = [].
Proof.
  eexists. split; [vm_compute; reflexivity |]. split; [vm_compute; reflexivity |].
  match goal with
  | |- filesWritten ?r = [] =>
      destruct (script_writes_only_after_success 2 failingScriptEnv
                  ["node"; "get-quota-codes.ts"; "us-west-2"] r) as (_ & Herror & _)
  end; [vm_compute; reflexivity |].
  apply Herror. eexists. right. left.
Defined.

Lemma foldl_append_rows (heading : string) (rows : list string) :
  foldl (fun output row => output +:+ row) heading rows
  = heading +:+ String.concat str_empty rows.
Proof.
  revert heading. induction rows as [|row rows IH]; intros heading.
  - cbn. symmetry. apply append_empty_r.
  - cbn [foldl]. rewrite IH, append_assoc. f_equal.
    destruct rows as [|row' rows]; [cbn; by rewrite append_empty_r |]. reflexivity.
Qed.

Lemma foldl_fileRow (heading : string) (quotas : list ServiceQuota) :
  foldl (fun output quota => output +:+ fileRow quota) heading quotas
  = foldl (fun output row => output +:+ row) heading (map fileRow quotas).
Proof.
  revert heading. induction quotas as [|q quotas IH]; intros heading; [reflexivity |].
  cbn [foldl map]. apply IH.
Qed.

Lemma length_append (a b : string) :
  String.length (a +:+ b) = (String.length a + String.length b)%nat.
Proof.
  induction a as [|c a IH]; [reflexivity |].
  change (S (String.length (a +:+ b)) = S (String.length a + String.length b)).
  by rewrite IH.
Qed.

Lemma length_repeatString_space (count : nat) :
  String.length (repeatString " " count) = count.
Proof.
  induction count as [|count IH]; [reflexivity |].
  change (S (String.length (repeatString " " count)) = S count). by rewrite IH.
Qed.

Lemma padEnd_length (s : string) (targetLength : nat) :
  String.length (padEnd s targetLength) = Nat.max (String.length s) targetLength.
Proof. unfold padEnd. rewrite length_append, length_repeatString_space. lia. Qed.

Lemma prefix_append (a b : string) : String.prefix a (a +:+ b) = true.
Proof.
  induction a as [|c a IH]; [by destruct b |].
  change (String.prefix (String c a) (String c (a +:+ b)) = true).
  cbn [String.prefix]. destruct (ascii_dec c c) as [_ | Hne]; [exact IH | by destruct Hne].
Qed.

Lemma consoleRow_fileRow (env : ScriptEnv) (quota : ServiceQuota) :
  occursIn "%" (codeColumn quota) = false ->
  (consoleRow env quota).2 +:+ nl = fileRow quota.
Proof.
  intros Hplain. unfold consoleRow, consoleLogText, fileRow. cbn [snd].
  rewrite Hplain. change (join " " [?a; ?b; ?c]) with (a +:+ " " +:+ b +:+ " " +:+ c).
  rewrite !append_assoc. reflexivity.
Qed.

(** X19: the saved file holds the table: after its heading, the file
    consists of one line per quota, in the order the service returned them,
    with the code, the value and the name separated by single spaces and
    followed by a line feed.  The console shows one row per quota in the
    same order, and for a quota whose code holds no percent sign the line of
    the file is the row printed to the console followed by a line feed (a
    code with a percent sign is a format string to [console.log], and what
    the console shows for it is Node's to decide).  A row shows the code,
    the value and the name in full ([N/A] for a missing or empty one); the
    code and the value are padded to at least fifteen characters and never
    cut. *)
Theorem saved_table_matches_console (fuel : nat) (env : ScriptEnv) (region : option string)
    (run : ScriptRun) (name content : string) :
  getAllBedrockQuotas fuel env region = Some run ->
  filesWritten run = [(name, content)] ->
  exists allQuotas,
    listAllQuotas fuel (clientSend env (targetRegionOf env region)) None []
    = Some (Normal allQuotas)
    /\ allQuotas <> []
    /\ content
       = quotaFileHeading (targetRegionOf env region) allQuotas
         +:+ String.concat str_empty
               (map (fun quota => codeColumn quota +:+ " " +:+ valueColumn quota +:+ " "
                                  +:+ nameColumn quota +:+ nl) allQuotas)
    /\ drop 5 (scriptLog run)
       = map (consoleRow env) allQuotas
         ++ [(console_log, nl +:+ "Quotas saved to: " +:+ name)]
    /\ (forall quota, occursIn "%" (codeColumn quota) = false ->
          consoleRow env quota
          = (console_log,
             codeColumn quota +:+ " " +:+ valueColumn quota +:+ " " +:+ nameColumn quota))
    /\ (Forall (fun quota => occursIn "%" (codeColumn quota) = false) allQuotas ->
        content
        = quotaFileHeading (targetRegionOf env region) allQuotas
          +:+ String.concat str_empty
                (map (fun quota => (consoleRow env quota).2 +:+ nl) allQuotas))
    /\ (forall quota, quota ∈ allQuotas ->
          String.prefix (orElse (QuotaCode quota) "N/A") (codeColumn quota) = true
          /\ String.prefix (orElse (Value quota) "N/A") (valueColumn quota) = true
          /\ (15 <= String.length (codeColumn quota))%nat
          /\ (15 <= String.length (valueColumn quota))%nat).
Proof.
  unfold getAllBedrockQuotas.
  destruct (listAllQuotas fuel _ None []) as [[allQuotas|error]|]; [| | discriminate].
  - destruct (Nat.eqb (length allQuotas) 0) eqn:Hempty; [intros [= <-]; discriminate |].
    destruct (writeFileSync env _ _) as [[]|error]; [| intros [= <-]; discriminate].
    intros [= <-]. cbn [filesWritten scriptLog]. intros [= <- <-].
    exists allQuotas. split; [reflexivity |].
    split; [intros ->; discriminate |].
    assert (Hcontent :
      foldl (fun output quota => output +:+ fileRow quota)
            (quotaFileHeading (targetRegionOf env region) allQuotas) allQuotas
      = quotaFileHeading (targetRegionOf env region) allQuotas
        +:+ String.concat str_empty (map fileRow allQuotas))
      by (rewrite foldl_fileRow, foldl_append_rows; reflexivity).
    split; [exact Hcontent |]. split; [reflexivity |]. split; [| split].
    + intros quota Hplain. unfold consoleRow, consoleLogText. rewrite Hplain. reflexivity.
    + intros Hplain. rewrite Hcontent. f_equal. f_equal.
      apply map_ext_in. intros quota Hquota. symmetry. apply consoleRow_fileRow.
      rewrite Forall_forall in Hplain. apply Hplain. by apply list_elem_of_In.
    + intros quota _. unfold codeColumn, valueColumn.
      rewrite !padEnd_length. repeat split; try apply prefix_append; lia.
  - intros [= <-]. discriminate.
Qed.

Lemma saved_table_matches_console_witness :
  exists run name content,
    getAllBedrockQuotas 2 exampleScriptEnv None = Some run
    /\ filesWritten run = [(name, content)]
    /\ name = "bedrock-quota-codes-20260115.txt"
    /\ drop 5 (scriptLog run)
       = [ (console_log, "L-C6F5908D      2000000         Cross-region tokens per minute");
           (console_log, "L-F06F1187      N/A             N/A");
           (console_log, nl +:+ "Quotas saved to: bedrock-quota-codes-20260115.txt") ].
Proof.
  eexists _, _, _. split; [reflexivity |]. split; [reflexivity |]. split; [reflexivity |].
  destruct (saved_table_matches_console 2 exampleScriptEnv None _ _ _ eq_refl eq_refl)
    as (allQuotas & Hall & _ & _ & Hlog & _).
  rewrite Hlog. injection Hall as <-. reflexivity.
Defined.

Lemma beforeFirst_clean (c : ascii) (a rest : string) :
  occursIn c a = false -> beforeFirst c (a +:+ String c rest) = a.
Proof.
  induction a as [|x a IH]; intros Hclean.
  - change (beforeFirst c (String c rest) = EmptyString).
    cbn [beforeFirst]. by rewrite Ascii.eqb_refl.
  - cbn in Hclean. apply orb_false_iff in Hclean as [Hx Ha].
    change (beforeFirst c (String x (a +:+ String c rest)) = String x a).
    cbn [beforeFirst]. rewrite Hx, IH by exact Ha. reflexivity.
Qed.

Lemma removeAll_clean (c : ascii) (a : string) : occursIn c a = false -> removeAll c a = a.
Proof.
  induction a as [|x a IH]; intros Hclean; [reflexivity |].
  cbn in Hclean. apply orb_false_iff in Hclean as [Hx Ha].
  cbn [removeAll]. rewrite Hx, IH by exact Ha. reflexivity.
Qed.

Lemma removeAll_append (c : ascii) (a b : string) :
  removeAll c (a +:+ b) = removeAll c a +:+ removeAll c b.
Proof.
  induction a as [|x a IH]; [reflexivity |].
  change (removeAll c (String x (a +:+ b)) = removeAll c (String x a) +:+ removeAll c b).
  cbn [removeAll]. rewrite IH. destruct (Ascii.eqb x c); reflexivity.
Qed.

Lemma occursIn_append (c : ascii) (a b : string) :
  occursIn c (a +:+ b) = occursIn c a || occursIn c b.
Proof.
  induction a as [|x a IH]; [reflexivity |].
  change (occursIn c (String x (a +:+ b)) = occursIn c (String x a) || occursIn c b).
  cbn [occursIn]. rewrite IH. by rewrite orb_assoc.
Qed.

(** X20: the file is named after the date and the region argument only.
    For a clock reading of the form year, month and day separated by dashes
    and followed by [T], the name is [bedrock-quota-codes-] followed by the
    three parts without the dashes, then a dash and the region when a
    non-empty region was given on the command line, then [.txt].  Without
    the argument the region queried comes from [AWS_DEFAULT_REGION], or is
    [us-east-1] when that is unset or empty, and leaves no trace in the
    name. *)
Theorem file_name_from_date_and_argument (env : ScriptEnv) (year month day rest : string)
    (region : option string) :
  toISOString env = year +:+ "-" +:+ month +:+ "-" +:+ day +:+ "T" +:+ rest ->
  occursIn "-" (year +:+ month +:+ day) = false ->
  occursIn "T" (year +:+ month +:+ day) = false ->
  (truthy_str region = false ->
   quotaFileName env region = "bedrock-quota-codes-" +:+ year +:+ month +:+ day +:+ ".txt"
   /\ targetRegionOf env region = orElse (AWS_DEFAULT_REGION env) "us-east-1")
  /\ (forall r, region = Some r -> r <> str_empty ->
        quotaFileName env region
        = "bedrock-quota-codes-" +:+ year +:+ month +:+ day +:+ "-" +:+ r +:+ ".txt"
        /\ targetRegionOf env region = r).
Proof.
  intros Hclock Hdash HT.
  rewrite !occursIn_append in Hdash, HT.
  apply orb_false_iff in Hdash as [Hdy Hdash]. apply orb_false_iff in Hdash as [Hdm Hdd].
  apply orb_false_iff in HT as [HTy HT]. apply orb_false_iff in HT as [HTm HTd].
  assert (Hstamp : removeAll "-" (beforeFirst "T" (toISOString env))
                   = year +:+ month +:+ day).
  { rewrite Hclock.
    replace (year +:+ "-" +:+ month +:+ "-" +:+ day +:+ "T" +:+ rest)
      with ((year +:+ "-" +:+ month +:+ "-" +:+ day) +:+ String "T" rest)
      by (rewrite !append_assoc; reflexivity).
    rewrite beforeFirst_clean.
    - rewrite !removeAll_append.
      rewrite (removeAll_clean _ year), (removeAll_clean _ month), (removeAll_clean _ day)
        by assumption.
      reflexivity.
    - rewrite !occursIn_append, HTy, HTm, HTd. reflexivity. }
  unfold quotaFileName, targetRegionOf. rewrite Hstamp. split.
  - intros Hfalsy. rewrite Hfalsy. split.
    + rewrite !append_assoc. reflexivity.
    + destruct region as [[|c s]|]; try reflexivity. discriminate.
  - intros r -> Hr. destruct r as [|c s]; [done |]. cbn [truthy_str default orElse].
    split; [| reflexivity]. rewrite !append_assoc. reflexivity.
Qed.

Lemma file_name_from_date_and_argument_witness :
  quotaFileName exampleScriptEnv None = "bedrock-quota-codes-20260115.txt"
  /\ targetRegionOf exampleScriptEnv None = "eu-west-1"
  /\ quotaFileName exampleScriptEnv (Some "us-west-2")
     = "bedrock-quota-codes-20260115-us-west-2.txt".
Proof.
  destruct (file_name_from_date_and_argument exampleScriptEnv "2026" "01" "15" "10:20:30.000Z"
              None eq_refl eq_refl eq_refl) as [Hnone _].
  destruct (file_name_from_date_and_argument exampleScriptEnv "2026" "01" "15" "10:20:30.000Z"
              (Some "us-west-2") eq_refl eq_refl eq_refl) as [_ Hsome].
  destruct (Hnone eq_refl) as [Hname Htarget].
  destruct (Hsome "us-west-2" eq_refl) as [Hname2 _]; [discriminate |].
  split; [exact Hname |]. split; [exact Htarget | exact Hname2].
Defined.


(** ** The client wrapper that publishes MaxTokens *)

Lemma truthy_dict_lookup (cfg : gmap string PyValue) (key : string) (v : PyValue) :
  cfg !! key = Some v -> truthy_dict (Some cfg) = true.
Proof.
  intros Hkey. unfold truthy_dict. apply negb_true_iff, bool_decide_eq_false.
  intros ->. by rewrite lookup_empty in Hkey.
Qed.

Lemma publish_putCalls {Rest Response : Type} (self : WrapperClients Rest Response)
    (model_id : string) (max_tokens : PyValue) :
  putCalls (_publish_max_tokens_metric self model_id max_tokens)
  = [maxTokensInput model_id max_tokens].
Proof.
  unfold _publish_max_tokens_metric.
  destruct (cloudwatch_client_put_metric_data self _); reflexivity.
Qed.

Lemma converse_effects {Rest Response : Type} (self : WrapperClients Rest Response)
    (kwargs : ConverseKwargs Rest) :
  (converse self kwargs).2
  = match kw_modelId kwargs, kw_inferenceConfig kwargs with
    | Some (String c s), Some cfg =>
        match cfg !! "maxTokens" with
        | None | Some PyNone => noEffects
        | Some max_tokens => _publish_max_tokens_metric self (String c s) max_tokens
        end
    | _, _ => noEffects
    end.
Proof.
  unfold converse. cbn [snd].
  destruct (kw_inferenceConfig kwargs) as [cfg|]; cbn [truthy_dict andb default];
    [| by destruct (kw_modelId kwargs) as [[|c s]|]].
  destruct (decide (cfg = ∅)) as [-> | Hne].
  - rewrite bool_decide_eq_true_2 by done. cbn [negb andb]. rewrite lookup_empty.
    by destruct (kw_modelId kwargs) as [[|c s]|].
  - rewrite bool_decide_eq_false_2 by done. cbn [negb andb].
    by destruct (kw_modelId kwargs) as [[|c s]|].
Qed.

(** X21: the wrapper hands the keyword arguments to the wrapped client
    unchanged and returns that client's outcome, whether or not publishing
    worked.  Before that it calls [put_metric_data] at most once: exactly
    when the model identifier is a non-empty string and the inference
    configuration holds a [maxTokens] that is not [None] (a zero included).
    The datum then carries the namespace, the metric name and the [ModelId]
    dimension of the MaxTokens metric that the dashboard reads for that
    identifier. *)
Theorem converse_publishes_max_tokens {Rest Response : Type}
    (self : WrapperClients Rest Response) (kwargs : ConverseKwargs Rest) :
  let out := converse self kwargs in
  out.1 = bedrock_client_converse self kwargs
  /\ (length (putCalls out.2) <= 1)%nat
  /\ (forall input, input ∈ putCalls out.2 <->
        exists model_id cfg max_tokens,
          kw_modelId kwargs = Some model_id /\ model_id <> str_empty
          /\ kw_inferenceConfig kwargs = Some cfg
          /\ cfg !! "maxTokens" = Some max_tokens /\ max_tokens <> PyNone
          /\ input = maxTokensInput model_id max_tokens)
  /\ (forall model_id max_tokens,
        let m := maxTokens (createProfileMetrics model_id) in
        put_Namespace (maxTokensInput model_id max_tokens) = namespace m
        /\ map (fun datum => (datum_MetricName datum, datum_Dimensions datum, datum_Value datum))
               (put_MetricData (maxTokensInput model_id max_tokens))
           = [(metricName m, dimensionsMap m, max_tokens)])
  /\ (forall input, input ∈ acceptedPuts out.2 <->
        input ∈ putCalls out.2
        /\ cloudwatch_client_put_metric_data self input = Normal tt).
Proof.
  intros out. subst out. split; [reflexivity |].
  rewrite converse_effects.
  destruct (kw_modelId kwargs) as [[|c s]|] eqn:Hmodel;
    [ | destruct (kw_inferenceConfig kwargs) as [cfg|] eqn:Hcfg;
        [destruct (cfg !! "maxTokens") as [[|n|repr]|] eqn:Hmax |] | ];
    rewrite ?publish_putCalls; cbn [putCalls acceptedPuts noEffects length];
    (split; [lia |]); (split; [| split; [intros; split; reflexivity |]]);
    intros input.
  all: try (split; [intros Hin; by apply elem_of_nil in Hin |]).
  all: try (intros [Hin _]; by apply elem_of_nil in Hin).
  all: try (intros (model_id & cfg' & max_tokens & Hm & Hid & Hc & Hl & Hn & _);
            congruence).
  all: try (intros (model_id & ? & ? & [= <-] & Hid & _); done).
  - split.
    + intros Hin. apply list_elem_of_singleton in Hin as ->.
      exists (String c s), cfg, (PyInt n). repeat split; done.
    + intros (model_id & cfg' & max_tokens & [= <-] & _ & [= <-] & Hl & _ & ->).
      rewrite Hmax in Hl. injection Hl as <-. by apply list_elem_of_singleton.
  - unfold _publish_max_tokens_metric.
    destruct (cloudwatch_client_put_metric_data self _) as [[]|e] eqn:Hput;
      cbn [acceptedPuts putCalls]; split.
    + intros Hin. apply list_elem_of_singleton in Hin as ->.
      split; [by apply list_elem_of_singleton | exact Hput].
    + intros [Hin _]. exact Hin.
    + intros Hin. by apply elem_of_nil in Hin.
    + intros [Hin Hok]. apply list_elem_of_singleton in Hin as ->. congruence.
  - split.
    + intros Hin. apply list_elem_of_singleton in Hin as ->.
      exists (String c s), cfg, (PyOther repr). repeat split; done.
    + intros (model_id & cfg' & max_tokens & [= <-] & _ & [= <-] & Hl & _ & ->).
      rewrite Hmax in Hl. injection Hl as <-. by apply list_elem_of_singleton.
  - unfold _publish_max_tokens_metric.
    destruct (cloudwatch_client_put_metric_data self _) as [[]|e] eqn:Hput;
      cbn [acceptedPuts putCalls]; split.
    + intros Hin. apply list_elem_of_singleton in Hin as ->.
      split; [by apply list_elem_of_singleton | exact Hput].
    + intros [Hin _]. exact Hin.
    + intros Hin. by apply elem_of_nil in Hin.
    + intros [Hin Hok]. apply list_elem_of_singleton in Hin as ->. congruence.
Qed.

Lemma converse_publishes_max_tokens_witness :
  maxTokensInput "us.anthropic.claude-sonnet-4-5-20250929-v1:0" (PyInt 4096)
  ∈ putCalls (converse echoClients sonnetKwargs).2.
Proof.
  destruct (converse_publishes_max_tokens echoClients sonnetKwargs) as (_ & _ & Hcalls & _).
  apply Hcalls.
  exists "us.anthropic.claude-sonnet-4-5-20250929-v1:0",
    {[ "maxTokens" := PyInt 4096; "temperature" := PyOther "0.7" ]}, (PyInt 4096).
  repeat split; try reflexivity; discriminate.
Defined.

Lemma sumZ_app (a b : list Z) : sumZ (a ++ b) = (sumZ a + sumZ b)%Z.
Proof.
  induction a as [|x a IH]; [reflexivity |].
  change (x + sumZ (a ++ b) = x + sumZ a + sumZ b)%Z. rewrite IH. lia.
Qed.

Lemma counterPoints_recordPut (store : MetricStore) (t : TimeBucket) (f : UsageField)
    (id model_id : string) (n : Z) :
  counterPoints (recordPut t store (maxTokensInput model_id (PyInt n))) f id t
  = counterPoints store f id t
    ++ (if bool_decide (f = maxTokens_field /\ model_id = id) then [n] else []).
Proof.
  unfold counterPoints, recordPut, maxTokensInput.
  cbn [put_MetricData put_Namespace omap list_omap datum_Value datum_MetricName
       datum_Dimensions].
  f_equal.
  destruct (decide (f = maxTokens_field /\ model_id = id)) as [[-> ->] | Hne].
  - rewrite bool_decide_eq_true_2 by done.
    rewrite bool_decide_eq_true_2 by done. reflexivity.
  - rewrite (bool_decide_eq_false_2 (f = _ /\ _)) by exact Hne.
    rewrite bool_decide_eq_false_2; [reflexivity |].
    intros (Hns & Hname & Hdims & _). apply Hne.
    destruct f; cbn in Hns, Hname, Hdims; try discriminate.
    split; [reflexivity | congruence].
Qed.

(** X22: the wrapper feeds the estimator.  For an entry without
    application profiles, a request sent through the wrapper under the
    entry's full model identity with an integer [maxTokens], once accepted
    by CloudWatch, adds a MaxTokens point to the bucket in which it arrives:
    Initial Reservation in that bucket rises by [maxTokens], to the input
    tokens plus the cache-write tokens plus the MaxTokens published in the
    bucket so far plus the new [maxTokens], and Actual Consumption is what
    it was. *)
Theorem published_max_tokens_completes_reservation {Rest Response : Type}
    (self : WrapperClients Rest Response) (kwargs : ConverseKwargs Rest)
    (config : DashboardConfig) (store : MetricStore) (t : TimeBucket)
    (cfg : gmap string PyValue) (n : Z) :
  let fullModelId := getFullModelId (modelConfig config) (endpointType config) in
  let store' := recordPuts t store (acceptedPuts (converse self kwargs).2) in
  let sumOf namespace metricName :=
    sumZ (store namespace metricName [("ModelId", fullModelId)] t) in
  hasApplicationProfiles config = false ->
  fullModelId <> str_empty ->
  kw_modelId kwargs = Some fullModelId ->
  kw_inferenceConfig kwargs = Some cfg ->
  cfg !! "maxTokens" = Some (PyInt n) ->
  cloudwatch_client_put_metric_data self (maxTokensInput fullModelId (PyInt n)) = Normal tt ->
  seriesValue store (initialReservation (entrySeries config)) t
  = Some (sumOf "AWS/Bedrock" "InputTokenCount"
          + sumOf "AWS/Bedrock" "CacheWriteInputTokenCount"
          + sumOf "Bedrock/Quotas" "MaxTokens")%Z
  /\ seriesValue store' (initialReservation (entrySeries config)) t
     = Some (sumOf "AWS/Bedrock" "InputTokenCount"
             + sumOf "AWS/Bedrock" "CacheWriteInputTokenCount"
             + (sumOf "Bedrock/Quotas" "MaxTokens" + n))%Z
  /\ seriesValue store' (actualConsumption (entrySeries config)) t
     = seriesValue store (actualConsumption (entrySeries config)) t.
Proof.
  intros fullModelId store' sumOf Hsingle Hid Hmodel Hcfg Hmax Hput.
  assert (Hstore : store' = recordPut t store (maxTokensInput fullModelId (PyInt n))).
  { subst store'. rewrite converse_effects, Hmodel, Hcfg.
    destruct fullModelId as [|c s] eqn:Hfull; [done |].
    rewrite Hmax. unfold _publish_max_tokens_metric. rewrite Hput. reflexivity. }
  assert (Hsame : forall f, f <> maxTokens_field ->
            counterValue store' f fullModelId t = counterValue store f fullModelId t).
  { intros f Hf. unfold counterValue. rewrite Hstore, counterPoints_recordPut.
    rewrite bool_decide_eq_false_2 by (intros [? _]; done). by rewrite app_nil_r. }
  split; [| split].
  - rewrite initialReservation_value, !entryCounter_single by exact Hsingle.
    reflexivity.
  - rewrite initialReservation_value, !entryCounter_single by exact Hsingle.
    fold fullModelId. rewrite !Hsame by discriminate.
    unfold counterValue at 3. rewrite Hstore, counterPoints_recordPut.
    rewrite bool_decide_eq_true_2 by done.
    rewrite applyStatistic_Sum, sumZ_app, sumZ_singleton. reflexivity.
  - rewrite !actualConsumption_value, !entryCounter_single by exact Hsingle.
    fold fullModelId. rewrite !Hsame by discriminate. reflexivity.
Qed.

Lemma published_max_tokens_completes_reservation_witness :
  seriesValue sonnetStore (initialReservation (entrySeries sonnetConfig)) 0 = Some 1000%Z
  /\ seriesValue (recordPuts 0 sonnetStore (acceptedPuts (converse echoClients sonnetKwargs).2))
       (initialReservation (entrySeries sonnetConfig)) 0
     = Some 5096%Z.
Proof.
  destruct (published_max_tokens_completes_reservation echoClients sonnetKwargs sonnetConfig
              sonnetStore 0 {[ "maxTokens" := PyInt 4096; "temperature" := PyOther "0.7" ]}
              4096) as (Hbefore & Hafter & _);
    [ reflexivity | discriminate | reflexivity | reflexivity | reflexivity | reflexivity | ].
  split.
  - rewrite Hbefore. reflexivity.
  - rewrite Hafter. reflexivity.
Defined.


(** ** The console output of the renderer *)



